(** * jeongsedam-app: the report renderer and the analysis call of [app.py]

    A shallow embedding of [create_pdf_report] (with its local helpers
    [new_page], [add_heading], [add_text]), of [parse_json_response] and
    [generate_policy_analysis], and of the functions around them: the
    session state, the policies table, the archive, the prompts and the
    image generator.

    Python values are the values [json.loads] can return; Python [str] is a
    sequence of Unicode code points; the vertical cursor [y] is a binary64
    float exactly as in the source; the canvas is the ordered list of the
    drawing calls made on it; an uncaught Python exception is the [Raise]
    result. *)

From Stdlib Require Import Strings.String Strings.Ascii Strings.Byte.
From Stdlib Require Import Numbers.DecimalString.
From Stdlib Require Import List ZArith NArith Bool Lia PeanoNat.
From Stdlib Require Import Floats.PrimFloat Numbers.Cyclic.Int63.Uint63.
From Stdlib Require Import Logic.FunctionalExtensionality.
Import ListNotations.

Set Implicit Arguments.
Set Warnings "-register-all,-inexact-float".

(* ================================================================== *)
(** ** Python strings *)

Module PyStr.

(** A Python [str]: a sequence of Unicode code points. *)
Definition char := N.
Definition pystr := list char.

(** Decoder for the UTF-8 text of the source's string literals;
    [acc] holds the bits read so far of a multi-byte sequence and [need]
    the number of continuation bytes still expected. *)
Fixpoint utf8_decode (bs : list N) (acc : N) (need : nat) : pystr :=
  match bs with
  | [] => []
  | b :: bs' =>
      match need with
      | O =>
          if (b <? 128)%N then b :: utf8_decode bs' 0%N 0
          else if (b <? 224)%N then utf8_decode bs' (N.land b 31) 1
          else if (b <? 240)%N then utf8_decode bs' (N.land b 15) 2
          else utf8_decode bs' (N.land b 7) 3
      | S O => (acc * 64 + N.land b 63)%N :: utf8_decode bs' 0%N 0
      | S n => utf8_decode bs' (acc * 64 + N.land b 63)%N n
      end
  end.

(** A string literal of the source. *)
Definition lit (s : string) : pystr :=
  utf8_decode (map Byte.to_N (list_byte_of_string s)) 0%N 0.

(** [str(n)] for a non-negative [int]. *)
Definition str_of_nat (n : nat) : pystr :=
  lit (NilZero.string_of_uint (Nat.to_uint n)).

Definition char_eqb : char -> char -> bool := N.eqb.

Fixpoint eqb (s t : pystr) : bool :=
  match s, t with
  | [], [] => true
  | a :: s', b :: t' => char_eqb a b && eqb s' t'
  | _, _ => false
  end.

(** [s.startswith(p)] *)
Fixpoint startswith (p s : pystr) : bool :=
  match p, s with
  | [], _ => true
  | a :: p', b :: s' => char_eqb a b && startswith p' s'
  | _ :: _, [] => false
  end.

(** [p in s] for two strings: substring test. *)
Fixpoint contains (p s : pystr) : bool :=
  startswith p s ||
  match s with
  | [] => false
  | _ :: s' => contains p s'
  end.

(** [s[:n]] *)
Definition slice_to (n : nat) (s : pystr) : pystr := firstn n s.

(** [s[i:j]] for [0 <= i <= j]. *)
Definition slice (i j : nat) (s : pystr) : pystr := firstn (j - i) (skipn i s).

(** [str.isspace] on one code point: the characters [str.strip()]
    removes. *)
Definition isspace (c : char) : bool :=
  ((9 <=? c) && (c <=? 13) || (28 <=? c) && (c <=? 32) || (c =? 133) ||
   (c =? 160) || (c =? 5760) || (8192 <=? c) && (c <=? 8202) ||
   (c =? 8232) || (c =? 8233) || (c =? 8239) || (c =? 8287) ||
   (c =? 12288))%N.

Fixpoint lstrip (s : pystr) : pystr :=
  match s with
  | c :: s' => if isspace c then lstrip s' else s
  | [] => []
  end.

(** [s.strip()] *)
Definition strip (s : pystr) : pystr := rev (lstrip (rev (lstrip s))).

(** [s.replace(old, "")] for a non-empty [old]: leftmost non-overlapping
    occurrences are removed.  [skip] counts the characters of the
    current occurrence that are still to be dropped. *)
Fixpoint remove_all_aux (old : pystr) (skip : nat) (s : pystr) : pystr :=
  match s with
  | [] => []
  | c :: s' =>
      match skip with
      | S k => remove_all_aux old k s'
      | O =>
          if startswith old s
          then remove_all_aux old (List.length old - 1) s'
          else c :: remove_all_aux old 0 s'
      end
  end.

Definition remove_all (old s : pystr) : pystr := remove_all_aux old 0 s.

End PyStr.
Import PyStr.

(* ================================================================== *)
(** ** Python values and exceptions *)

Inductive exn : Type :=
| TypeError
| AttributeError
| KeyError
| NameError
| OverflowError.

Inductive result (A : Type) : Type :=
| Ok (a : A)
| Raise (e : exn).
Arguments Ok {A} a.
Arguments Raise {A} e.

(** The values [json.loads] returns; a [dict] keeps its insertion order. *)
Inductive pyval : Type :=
| PNone
| PBool (b : bool)
| PInt (z : Z)
| PFloat (f : float)
| PStr (s : pystr)
| PList (l : list pyval)
| PDict (d : list (pystr * pyval)).

Definition dict := list (pystr * pyval).
Definition bytes := list Byte.byte.

Module Py.

(** [bool(v)] *)
Definition truthy (v : pyval) : bool :=
  match v with
  | PNone => false
  | PBool b => b
  | PInt z => negb (z =? 0)%Z
  | PFloat f => negb (PrimFloat.eqb f 0%float)
  | PStr s => match s with [] => false | _ => true end
  | PList l => match l with [] => false | _ => true end
  | PDict d => match d with [] => false | _ => true end
  end.

Fixpoint lookup (k : pystr) (d : dict) : option pyval :=
  match d with
  | [] => None
  | (k', v) :: d' => if PyStr.eqb k k' then Some v else lookup k d'
  end.

(** [v.get(k, default)]: only a [dict] has the method. *)
Definition get (v : pyval) (k : pystr) (default : pyval) : result pyval :=
  match v with
  | PDict d => Ok (match lookup k d with Some x => x | None => default end)
  | _ => Raise AttributeError
  end.

(** [x == k] for a string [k]. *)
Definition eq_str (k : pystr) (x : pyval) : bool :=
  match x with
  | PStr s => PyStr.eqb s k
  | _ => false
  end.

(** [k in v] for a string [k]: key of a dict, element of a list,
    substring of a string; other values are not iterable. *)
Definition contains (k : pystr) (v : pyval) : result bool :=
  match v with
  | PDict d => Ok (match lookup k d with Some _ => true | None => false end)
  | PList l => Ok (existsb (eq_str k) l)
  | PStr s => Ok (PyStr.contains k s)
  | _ => Raise TypeError
  end.

(** [v[k]] for a string [k]. *)
Definition index (v : pyval) (k : pystr) : result pyval :=
  match v with
  | PDict d => match lookup k d with Some x => Ok x | None => Raise KeyError end
  | _ => Raise TypeError
  end.

(** The items [for x in v[:n]] visits: a list gives its first elements,
    a string its first characters; nothing else can be sliced (a dict
    raises [TypeError] up to Python 3.11 and [KeyError] from 3.12 on; the
    kind of the exception plays no part below). *)
Definition slice_items (n : nat) (v : pyval) : result (list pyval) :=
  match v with
  | PList l => Ok (firstn n l)
  | PStr s => Ok (map (fun c => PStr [c]) (firstn n s))
  | _ => Raise TypeError
  end.

(** [v[:n]] used as a value. *)
Definition slice_to (n : nat) (v : pyval) : result pyval :=
  match v with
  | PList l => Ok (PList (firstn n l))
  | PStr s => Ok (PStr (firstn n s))
  | _ => Raise TypeError
  end.

(** [enumerate(l, start)] *)
Fixpoint enumerate {A : Type} (start : nat) (l : list A) : list (nat * A) :=
  match l with
  | [] => []
  | x :: l' => (start, x) :: enumerate (S start) l'
  end.

(** [range(0, stop, step)] for a positive [step]; its length is
    [(stop + step - 1) // step] as in CPython. *)
Definition range0 (stop step : nat) : list nat :=
  map (fun k => k * step) (seq 0 ((stop + step - 1) / step)).

End Py.

(* ================================================================== *)
(** ** The canvas and the effects of the renderer *)

(** What the surroundings decide: whether ReportLab can register the CID
    font [HYSMyeongJo-Medium], [str()] of a value that is not a string,
    and the clock, [datetime.now().isoformat()].  The functions of the
    store read the clock and take its value as their argument [now]. *)
Record env : Type := {
  font_registers : bool;
  repr : pyval -> pystr;
  clock : pystr
}.

(** The calls made on the ReportLab canvas, in order. *)
Inductive op : Type :=
| SetFont (name : pystr) (size : Z)
| DrawString (x : Z) (y : float) (text : pystr)
| DrawImage (img : bytes) (x : Z) (y : float) (w h : Z)
| ShowPage
| Save.

(** A computation that draws on the canvas and may raise. *)
Definition M (A : Type) : Type := result (A * list op).

Definition ret {A : Type} (a : A) : M A := Ok (a, []).

Definition bind {A B : Type} (m : M A) (f : A -> M B) : M B :=
  match m with
  | Raise e => Raise e
  | Ok (a, w) =>
      match f a with
      | Raise e => Raise e
      | Ok (b, w') => Ok (b, (w ++ w')%list)
      end
  end.

Definition emit (o : op) : M unit := Ok (tt, [o]).

Definition lift {A : Type} (r : result A) : M A :=
  match r with
  | Ok a => Ok (a, [])
  | Raise e => Raise e
  end.

Declare Scope canvas_scope.
Delimit Scope canvas_scope with canvas.
Notation "x <- m ;; k" := (bind m (fun x => k))
  (at level 61, m at next level, right associativity) : canvas_scope.
Notation "m ;; k" := (bind m (fun _ => k))
  (at level 61, right associativity) : canvas_scope.
Notation "x <~ r ;; k" := (bind (lift r) (fun x => k))
  (at level 61, r at next level, right associativity) : canvas_scope.
Open Scope canvas_scope.

(** [for x in xs: y = body(x, y)] *)
Fixpoint for_each {A : Type} (xs : list A) (body : A -> float -> M float)
    (y : float) : M float :=
  match xs with
  | [] => ret y
  | x :: xs' => y' <- body x y ;; for_each xs' body y'
  end.

(** An [int] used in float arithmetic. *)
Definition fl (z : Z) : float := PrimFloat.of_uint63 (Uint63.of_Z z).

(** [str(v)], as an f-string field formats it. *)
Definition py_str (E : env) (v : pyval) : pystr :=
  match v with
  | PStr s => s
  | _ => repr E v
  end.

(** [reportlab.lib.pagesizes.A4[1]]: [297*mm] with [mm = cm*0.1],
    [cm = inch/2.54] and [inch = 72.0]. *)
Definition height : float := (297 * ((72 / 2.54) * 0.1))%float.

(** [max_len = 85 if indent == 60 else 90] *)
Definition max_len_at (indent : Z) : nat :=
  if (indent =? 60)%Z then 85 else 90.

Section Renderer.

Variable E : env.

(** [font_name] after the [try]/[except] around [registerFont]. *)
Definition font_name : pystr :=
  if font_registers E then lit "HYSMyeongJo-Medium" else lit "Helvetica".

Definition new_page : M float :=
  emit ShowPage ;; ret (height - 50)%float.

Definition add_heading (y : float) (text : pystr) (size : Z) : M float :=
  y <- (if (y <? 100)%float then new_page else ret y) ;;
  emit (SetFont font_name size) ;;
  emit (DrawString 50 y (PyStr.slice_to 90 text)) ;;
  ret (y - fl (size + 15))%float.

(** [[text[i:i+max_len] for i in range(0, min(len(text), 400), max_len)]] *)
Definition wrap_lines (text : pystr) (max_len : nat) : list pystr :=
  map (fun i => PyStr.slice i (i + max_len) text)
      (Py.range0 (Nat.min (List.length text) 400) max_len).

Definition add_text (y : float) (text : pystr) (size indent : Z) : M float :=
  y <- (if (y <? 80)%float then new_page else ret y) ;;
  emit (SetFont font_name size) ;;
  let max_len := max_len_at indent in
  let lines := wrap_lines text max_len in
  y <- for_each (firstn 10 lines)
         (fun line y =>
            y <- (if (y <? 60)%float
                  then (y' <- new_page ;; emit (SetFont font_name size) ;; ret y')
                  else ret y) ;;
            emit (DrawString indent y line) ;;
            ret (y - fl (size + 4))%float) y ;;
  ret (y - 5)%float.

(** [if d.get(k): y = body(d[k], y)] *)
Definition if_get (d : pyval) (k : pystr)
    (body : pyval -> float -> M float) (y : float) : M float :=
  v <~ Py.get d k PNone ;;
  if Py.truthy v then (x <~ Py.index d k ;; body x y) else ret y.

(** [if k in d: y = body(d[k], y)] *)
Definition if_in (d : pyval) (k : pystr)
    (body : pyval -> float -> M float) (y : float) : M float :=
  has <~ Py.contains k d ;;
  if has then (x <~ Py.index d k ;; body x y) else ret y.

(** The shape of every list block of the report:
    [if sec.get(field):
         y = add_text(y, label, 11, 60)
         for idx, x in enumerate(sec[field][:cap], 1): y = body(idx, x, y)] *)
Definition list_block (field label : pystr) (cap : nat)
    (body : nat -> pyval -> float -> M float) (sec : pyval) (y : float)
    : M float :=
  if_get sec field (fun v y =>
    y <- add_text y label 11 60 ;;
    items <~ Py.slice_items cap v ;;
    for_each (Py.enumerate 1 items) (fun ix y => body (fst ix) (snd ix) y) y) y.

(** [if y < 150: y = new_page()] *)
Definition break_if_low (y : float) : M float :=
  if (y <? 150)%float then new_page else ret y.

(** The cover block, up to the early return. *)
Definition cover (policy : dict) : M float :=
  let p := PDict policy in
  let y := (height - 50)%float in
  emit (SetFont font_name 24) ;;
  emit (DrawString 50 y (lit "정책 보고서")) ;;
  let y := (y - 50)%float in
  emit (SetFont font_name 14) ;;
  title <~ Py.get p (lit "title") (PStr []) ;;
  title <~ Py.slice_to 50 title ;;
  emit (DrawString 50 y (lit "제목: " ++ py_str E title)%list) ;;
  let y := (y - 25)%float in
  emit (SetFont font_name 11) ;;
  category <~ Py.get p (lit "category") (PStr []) ;;
  category <~ Py.slice_to 60 category ;;
  emit (DrawString 50 y (lit "카테고리: " ++ py_str E category)%list) ;;
  let y := (y - 20)%float in
  target <~ Py.get p (lit "target_audience") (PStr []) ;;
  emit (DrawString 50 y (lit "대상: " ++ py_str E target)%list) ;;
  let y := (y - 20)%float in
  created <~ Py.get p (lit "created_at") (PStr []) ;;
  emit (DrawString 50 y (lit "생성일: " ++ py_str E created)%list) ;;
  ret y.

(** [y = add_text(y, f"{idx}. {s}", 10, 70)] *)
Definition numbered_item (idx : nat) (s : pyval) (y : float) : M float :=
  add_text y (str_of_nat idx ++ lit ". " ++ py_str E s)%list 10 70.

(** [y = add_text(y, f"• {o}", 10, 70)] *)
Definition bullet_item (_ : nat) (o : pyval) (y : float) : M float :=
  add_text y (lit "• " ++ py_str E o)%list 10 70.

Definition planning_key_strategies : pyval -> float -> M float :=
  list_block (lit "key_strategies") (lit "[핵심 전략]") 8 numbered_item.

Definition planning_expected_outcomes : pyval -> float -> M float :=
  list_block (lit "expected_outcomes") (lit "[기대 효과]") 5 bullet_item.

(** Section 1: the heading, then the body under its presence check. *)
Definition section_policy_planning (analysis : dict) (y : float) : M float :=
  y <- add_heading y (lit "1. 정책 기획") 16 ;;
  if_in (PDict analysis) (lit "policy_planning") (fun planning y =>
    y <- if_get planning (lit "objective") (fun v y =>
           add_text y (lit "[목표] " ++ py_str E v)%list 10 60) y ;;
    y <- if_get planning (lit "target_analysis") (fun v y =>
           add_text y (lit "[대상 분석] " ++ py_str E v)%list 10 60) y ;;
    y <- planning_key_strategies planning y ;;
    planning_expected_outcomes planning y) y.

(** [y = add_text(y, f"{idx}. {item.get('action', '')}", 10, 70)] *)
Definition action_item (idx : nat) (item : pyval) (y : float) : M float :=
  a <~ Py.get item (lit "action") (PStr []) ;;
  add_text y (str_of_nat idx ++ lit ". " ++ py_str E a)%list 10 70.

Definition execution_action_items : pyval -> float -> M float :=
  list_block (lit "action_items") (lit "[실행 항목]") 8 action_item.

(** Section 2 *)
Definition section_execution_plan (analysis : dict) (y : float) : M float :=
  y <- add_heading y (lit "2. 실행 계획") 16 ;;
  if_in (PDict analysis) (lit "execution_plan") (fun execution y =>
    y <- execution_action_items execution y ;;
    if_get execution (lit "resources_needed") (fun res y =>
      y <- add_text y (lit "[필요 자원]") 11 60 ;;
      y <- if_get res (lit "budget_range") (fun v y =>
             add_text y (lit "예산: " ++ py_str E v)%list 10 70) y ;;
      if_get res (lit "personnel") (fun v y =>
        add_text y (lit "인력: " ++ py_str E v)%list 10 70) y) y) y.

(** [y = add_text(y, f"• {ch.get('channel', '')}: {ch.get('content_type', '')}", 10, 70)] *)
Definition channel_item (_ : nat) (ch : pyval) (y : float) : M float :=
  a <~ Py.get ch (lit "channel") (PStr []) ;;
  b <~ Py.get ch (lit "content_type") (PStr []) ;;
  add_text y (lit "• " ++ py_str E a ++ lit ": " ++ py_str E b)%list 10 70.

Definition comm_key_messages : pyval -> float -> M float :=
  list_block (lit "key_messages") (lit "[핵심 메시지]") 8 numbered_item.

Definition comm_channels : pyval -> float -> M float :=
  list_block (lit "channels") (lit "[채널 전략]") 5 channel_item.

(** Section 3 *)
Definition section_communication_strategy (analysis : dict) (y : float)
    : M float :=
  y <- add_heading y (lit "3. 커뮤니케이션 전략") 16 ;;
  if_in (PDict analysis) (lit "communication_strategy") (fun comm y =>
    y <- comm_key_messages comm y ;;
    comm_channels comm y) y.

(** One brief of section 4 with the fields [concept] and
    [scene_description]. *)
Definition image_brief (label : pystr) (b : pyval) (y : float) : M float :=
  y <- add_text y label 11 60 ;;
  a <~ Py.get b (lit "concept") (PStr []) ;;
  y <- add_text y (lit "컨셉: " ++ py_str E a)%list 10 70 ;;
  a <~ Py.get b (lit "scene_description") (PStr []) ;;
  add_text y (lit "장면: " ++ py_str E a)%list 10 70.

(** Section 4 *)
Definition section_content_briefs (analysis : dict) (y : float) : M float :=
  y <- add_heading y (lit "4. 콘텐츠 제작 브리프") 16 ;;
  if_in (PDict analysis) (lit "content_briefs") (fun briefs y =>
    y <- if_in briefs (lit "image_brief_1")
           (image_brief (lit "[이미지 브리프 1]")) y ;;
    y <- if_in briefs (lit "image_brief_2")
           (image_brief (lit "[이미지 브리프 2]")) y ;;
    if_in briefs (lit "video_brief") (fun vb y =>
      y <- add_text y (lit "[영상 브리프]") 11 60 ;;
      a <~ Py.get vb (lit "narrative_arc") (PStr []) ;;
      add_text y (lit "스토리: " ++ py_str E a)%list 10 70) y) y.

(** [y = add_text(y, f"{idx}. {post.get('platform', '')}: {post.get('content', '')}", 10, 70)] *)
Definition post_item (idx : nat) (post : pyval) (y : float) : M float :=
  a <~ Py.get post (lit "platform") (PStr []) ;;
  b <~ Py.get post (lit "content") (PStr []) ;;
  add_text y (str_of_nat idx ++ lit ". " ++ py_str E a ++ lit ": "
              ++ py_str E b)%list 10 70.

Definition marketing_social_media_posts : pyval -> float -> M float :=
  list_block (lit "social_media_posts") (lit "[소셜미디어 콘텐츠]") 5 post_item.

(** Section 5 *)
Definition section_marketing_materials (analysis : dict) (y : float)
    : M float :=
  y <- add_heading y (lit "5. 마케팅 자료") 16 ;;
  if_in (PDict analysis) (lit "marketing_materials") (fun mk y =>
    y <- if_get mk (lit "slogan") (fun v y =>
           add_text y (lit "[슬로건] " ++ py_str E v)%list 11 60) y ;;
    y <- if_get mk (lit "tagline") (fun v y =>
           add_text y (lit "[태그라인] " ++ py_str E v)%list 10 60) y ;;
    y <- if_get mk (lit "elevator_pitch") (fun v y =>
           add_text y (lit "[엘리베이터 피치] " ++ py_str E v)%list 10 60) y ;;
    marketing_social_media_posts mk y) y.

(** [y = add_text(y, f"{idx}. {kpi.get('metric', '')}", 10, 70)
     if kpi.get("target_range"):
         y = add_text(y, f"   목표: {kpi['target_range']}", 9, 75)] *)
Definition kpi_item (idx : nat) (kpi : pyval) (y : float) : M float :=
  a <~ Py.get kpi (lit "metric") (PStr []) ;;
  y <- add_text y (str_of_nat idx ++ lit ". " ++ py_str E a)%list 10 70 ;;
  if_get kpi (lit "target_range") (fun t y =>
    add_text y (lit "   목표: " ++ py_str E t)%list 9 75) y.

Definition metrics_kpi_framework : pyval -> float -> M float :=
  list_block (lit "kpi_framework") (lit "[KPI 프레임워크]") 8 kpi_item.

Definition metrics_success_criteria : pyval -> float -> M float :=
  list_block (lit "success_criteria") (lit "[성공 기준]") 5 bullet_item.

(** Section 6 *)
Definition section_performance_metrics (analysis : dict) (y : float)
    : M float :=
  y <- add_heading y (lit "6. 성과 지표 (KPI)") 16 ;;
  if_in (PDict analysis) (lit "performance_metrics") (fun metrics y =>
    y <- metrics_kpi_framework metrics y ;;
    metrics_success_criteria metrics y) y.

(** [y = add_text(y, f"{idx}. {s.get('group', '')}: {s.get('interests', '')}", 10, 70)] *)
Definition stakeholder_item (idx : nat) (s : pyval) (y : float) : M float :=
  a <~ Py.get s (lit "group") (PStr []) ;;
  b <~ Py.get s (lit "interests") (PStr []) ;;
  add_text y (str_of_nat idx ++ lit ". " ++ py_str E a ++ lit ": "
              ++ py_str E b)%list 10 70.

(** [y = add_text(y, f"• 반대: {obj.get('objection', '')}", 10, 70)
     y = add_text(y, f"  대응: {obj.get('response', '')}", 9, 75)] *)
Definition objection_item (_ : nat) (obj : pyval) (y : float) : M float :=
  a <~ Py.get obj (lit "objection") (PStr []) ;;
  y <- add_text y (lit "• 반대: " ++ py_str E a)%list 10 70 ;;
  b <~ Py.get obj (lit "response") (PStr []) ;;
  add_text y (lit "  대응: " ++ py_str E b)%list 9 75.

Definition stakeholder_stakeholders : pyval -> float -> M float :=
  list_block (lit "stakeholders") (lit "[이해관계자 분석]") 6 stakeholder_item.

Definition stakeholder_objection_handling : pyval -> float -> M float :=
  list_block (lit "objection_handling") (lit "[반대 의견 대응]") 4 objection_item.

(** Section 7 *)
Definition section_stakeholder_management (analysis : dict) (y : float)
    : M float :=
  y <- add_heading y (lit "7. 이해관계자 관리") 16 ;;
  if_in (PDict analysis) (lit "stakeholder_management") (fun sh y =>
    y <- stakeholder_stakeholders sh y ;;
    stakeholder_objection_handling sh y) y.

(** [ImageReader(BytesIO(img_bytes))].  The name [ImageReader] is used at
    this one place of [app.py] and is bound nowhere in it, by no import and
    by no definition: evaluating it raises [NameError], whatever the
    blob. *)
Definition ImageReader (img_bytes : bytes) : result bytes := Raise NameError.

(** One iteration of the image loop: the page-break check, then the
    [try] block with its [except: pass], which leaves [y] as it is. *)
Definition draw_image (idx : nat) (img_bytes : bytes) (y : float) : M float :=
  y <- (if (y <? 250)%float then new_page else ret y) ;;
  match ImageReader img_bytes with
  | Ok img =>
      emit (DrawImage img 50 (y - 200)%float 450 200) ;;
      let y := (y - 220)%float in
      emit (SetFont font_name 10) ;;
      emit (DrawString 50 y (lit "이미지 " ++ str_of_nat idx)%list) ;;
      ret (y - 30)%float
  | Raise _ => ret y
  end.

(** Section 8: [if images: ...] *)
Definition section_images (images : option (list bytes)) (y : float)
    : M float :=
  match images with
  | None | Some [] => ret y
  | Some imgs =>
      y <- break_if_low y ;;
      y <- add_heading y (lit "8. 생성된 이미지") 16 ;;
      for_each (Py.enumerate 1 (firstn 4 imgs))
        (fun ix y => draw_image (fst ix) (snd ix) y) y
  end.

(** Section 9: [if video_prompts: ...] *)
Definition section_video_prompts (video_prompts : option (list pystr))
    (y : float) : M float :=
  match video_prompts with
  | None | Some [] => ret y
  | Some prompts =>
      y <- new_page ;;
      y <- add_heading y (lit "9. 영상 프롬프트") 16 ;;
      for_each (Py.enumerate 1 (firstn 9 prompts))
        (fun ix y =>
           y <- break_if_low y ;;
           y <- add_text y (lit "[영상 " ++ str_of_nat (fst ix) ++ lit "]")%list 11 60 ;;
           y <- add_text y (PyStr.slice_to 600 (snd ix)) 9 70 ;;
           ret (y - 15)%float) y
  end.

(** The seven numbered sections, from the page break after the cover. *)
Definition numbered_sections (analysis : dict) : M float :=
  y <- new_page ;;
  y <- section_policy_planning analysis y ;;
  y <- break_if_low (y - 15)%float ;;
  y <- section_execution_plan analysis y ;;
  y <- break_if_low (y - 15)%float ;;
  y <- section_communication_strategy analysis y ;;
  y <- break_if_low (y - 15)%float ;;
  y <- section_content_briefs analysis y ;;
  y <- break_if_low (y - 15)%float ;;
  y <- section_marketing_materials analysis y ;;
  y <- break_if_low (y - 15)%float ;;
  y <- section_performance_metrics analysis y ;;
  y <- break_if_low (y - 15)%float ;;
  section_stakeholder_management analysis y.

(** Everything after the early return. *)
Definition sections (analysis : dict) (images : option (list bytes))
    (video_prompts : option (list pystr)) : M float :=
  y <- numbered_sections analysis ;;
  y <- section_images images (y - 15)%float ;;
  section_video_prompts video_prompts y.

(** [create_pdf_report]: the document is the list of canvas calls up to
    [c.save()]; an exception leaves no document. *)
Definition create_pdf_report (policy : dict) (analysis : option dict)
    (images : option (list bytes)) (video_prompts : option (list pystr))
    : result (list op) :=
  let run :=
    cover policy ;;
    match analysis with
    | None | Some [] => emit Save              (* [if not analysis:] *)
    | Some a => sections a images video_prompts ;; emit Save
    end in
  match run with
  | Ok (_, w) => Ok w
  | Raise e => Raise e
  end.

End Renderer.

(* ================================================================== *)
(** ** The analysis call *)

(** One [client.chat.completions.create] call. *)
Record request : Type := {
  model : pystr;
  system_content : pystr;
  user_content : pystr;
  temperature : float;
  max_tokens : Z
}.

(** What a call gives back: [response.choices[0].message.content] (which
    the API types as optional), or an exception with its [str(e)]. *)
Inductive api_outcome : Type :=
| Reply (content : option pystr)
| ApiError (message : pystr).

Section AIEngine.

(** [json.loads]; [None] when it raises. *)
Variable json_loads : pystr -> option pyval.

(** The model behind the client: its answer to a request, given the
    requests made before it. *)
Variable client : list request -> request -> api_outcome.

(** The text handed to [json.loads]: stripped, and with the code fences
    removed when it starts with one. *)
Definition clean_response (text : pystr) : pystr :=
  let text := strip text in
  if startswith (lit "```") text
  then strip (remove_all (lit "```") (remove_all (lit "```json") text))
  else text.

(** [parse_json_response]: Python's [None] is [PNone], for a failed parse
    as for the JSON text [null]. *)
Definition parse_json_response (text : pystr) : pyval :=
  match json_loads (clean_response text) with
  | Some v => v
  | None => PNone
  end.

Definition first_request (prompt model : pystr) : request :=
  {| model := model;
     system_content := lit "당신은 정책 전문가입니다. 항상 JSON 형식으로만 응답합니다.";
     user_content := prompt;
     temperature := 0.7%float;
     max_tokens := 4000 |}.

Definition retry_prompt (raw_text : pystr) : pystr :=
  (lit "
이전 응답이 올바른 JSON 형식이 아닙니다.
아래 내용을 완벽한 JSON으로 다시 출력해주세요.

" ++ raw_text ++ lit "
")%list.

Definition retry_request (raw_text model : pystr) : request :=
  {| model := model;
     system_content := lit "JSON 형식으로만 응답합니다.";
     user_content := retry_prompt raw_text;
     temperature := 0.3%float;
     max_tokens := 4000 |}.

(** [return None, f"Error: {str(e)}"] *)
Definition error_result (message : pystr) : pyval * pystr :=
  (PNone, (lit "Error: " ++ message)%list).

(** [str(e)] of the [AttributeError] that [None.strip()] raises. *)
Definition none_strip_message : pystr :=
  lit "'NoneType' object has no attribute 'strip'".

(** [generate_policy_analysis], from the [try] on: [prompt] is the text
    of the f-string built from the six inputs.  The result comes with
    the requests that were sent, in order. *)
Definition generate_policy_analysis (prompt model : pystr)
    : (pyval * pystr) * list request :=
  let req1 := first_request prompt model in
  match client [] req1 with
  | ApiError msg => (error_result msg, [req1])
  | Reply None => (error_result none_strip_message, [req1])
  | Reply (Some raw_text) =>
      let parsed_data := parse_json_response raw_text in
      if Py.truthy parsed_data then ((parsed_data, raw_text), [req1])
      else
        let req2 := retry_request raw_text model in
        match client [req1] req2 with
        | ApiError msg => (error_result msg, [req1; req2])
        | Reply None => (error_result none_strip_message, [req1; req2])
        | Reply (Some retry_text) =>
            ((parse_json_response retry_text, retry_text), [req1; req2])
        end
  end.

End AIEngine.

(* ================================================================== *)
(** ** What a reader of the document sees *)

(** Every string drawn, in drawing order. *)
Definition text_of (o : op) : list pystr :=
  match o with
  | DrawString _ _ t => [t]
  | _ => []
  end.

Definition texts (w : list op) : list pystr := flat_map text_of w.

(** The left margin ([x = 50]): the cover lines, the numbered headings,
    the images and their captions. *)
Inductive margin_item : Type :=
| Line (t : pystr)
| Picture (img : bytes).

Definition margin_of (o : op) : list margin_item :=
  match o with
  | DrawString x _ t => if (x =? 50)%Z then [Line t] else []
  | DrawImage img _ _ _ _ => [Picture img]
  | _ => []
  end.

Definition left_margin (w : list op) : list margin_item := flat_map margin_of w.

(** The seven numbered headings. *)
Definition section_titles : list pystr :=
  [lit "1. 정책 기획"; lit "2. 실행 계획"; lit "3. 커뮤니케이션 전략";
   lit "4. 콘텐츠 제작 브리프"; lit "5. 마케팅 자료"; lit "6. 성과 지표 (KPI)";
   lit "7. 이해관계자 관리"].

(** The keys of the seven sections. *)
Definition section_keys : list pystr :=
  [lit "policy_planning"; lit "execution_plan"; lit "communication_strategy";
   lit "content_briefs"; lit "marketing_materials"; lit "performance_metrics";
   lit "stakeholder_management"].

(** The mapping has none of the seven section keys. *)
Definition lacks_all_sections (a : dict) : Prop :=
  forall k, In k section_keys -> Py.lookup k a = None.

(** [policy.get(k, '')] *)
Definition field (p : dict) (k : pystr) : pyval :=
  match Py.lookup k p with
  | Some v => v
  | None => PStr []
  end.

Definition is_text (v : pyval) : Prop := exists s, v = PStr s.

Definition text_in (v : pyval) : pystr :=
  match v with
  | PStr s => s
  | _ => []
  end.

(** A subject record as the store keeps it: [title] and [category] are
    [TEXT NOT NULL] columns.  The other fields may hold any value. *)
Definition subject_record (p : dict) : Prop :=
  is_text (field p (lit "title")) /\ is_text (field p (lit "category")).

(** The cover block: five lines on the first page. *)
Definition cover_block (E : env) (p : dict) : list op :=
  let y := (height - 50)%float in
  [SetFont (font_name E) 24;
   DrawString 50 y (lit "정책 보고서");
   SetFont (font_name E) 14;
   DrawString 50 (y - 50)%float
     (lit "제목: " ++ firstn 50 (text_in (field p (lit "title"))))%list;
   SetFont (font_name E) 11;
   DrawString 50 (y - 50 - 25)%float
     (lit "카테고리: " ++ firstn 60 (text_in (field p (lit "category"))))%list;
   DrawString 50 (y - 50 - 25 - 20)%float
     (lit "대상: " ++ py_str E (field p (lit "target_audience")))%list;
   DrawString 50 (y - 50 - 25 - 20 - 20)%float
     (lit "생성일: " ++ py_str E (field p (lit "created_at")))%list].

(** Where the seven headings stand when nothing is drawn under them: each
    takes [16 + 15] points and is followed by a gap of [15]. *)
Fixpoint heading_ys (n : nat) (y : float) : list float :=
  match n with
  | O => []
  | S n' => y :: heading_ys n' (y - fl (16 + 15) - 15)%float
  end.

(** A page break, then the seven numbered headings with nothing under
    them. *)
Definition bare_headings (E : env) : list op :=
  ShowPage ::
  flat_map (fun yt => [SetFont (font_name E) 16; DrawString 50 (fst yt) (snd yt)])
           (combine (heading_ys 7 (height - 50)%float) section_titles).

(** The cursor below the seventh bare heading. *)
Definition below_bare_headings : float :=
  (last (heading_ys 7 (height - 50)%float) 0 - fl (16 + 15))%float.

(** [f"이미지 {idx}"] *)
Definition caption (idx : nat) : pystr := (lit "이미지 " ++ str_of_nat idx)%list.

(** The first character of every caption, and of no other line of the left
    margin. *)
Definition caption_initial : char := 51060%N.

(** The left margin of section 8: its heading when there are images, and
    no image and no caption under it, see [ImageReader]. *)
Definition images_outline (images : option (list bytes)) : list margin_item :=
  match images with
  | None | Some [] => []
  | Some _ => [Line (lit "8. 생성된 이미지")]
  end.

Definition prompts_outline (video_prompts : option (list pystr))
    : list margin_item :=
  match video_prompts with
  | None | Some [] => []
  | Some _ => [Line (lit "9. 영상 프롬프트")]
  end.

(** An observer of canvas calls that ignores fonts, page breaks and the
    height at which a string is drawn. *)
Definition layout_blind {X : Type} (see : op -> list X) : Prop :=
  see ShowPage = [] /\
  (forall f s, see (SetFont f s) = []) /\
  (forall x y y' t, see (DrawString x y t) = see (DrawString x y' t)).

(** [m] returns, and an observer sees [xs] in what it drew. *)
Definition yields {X A : Type} (see : op -> list X) (m : M A) (xs : list X)
    : Prop :=
  exists a w, m = Ok (a, w) /\ flat_map see w = xs.

(** Whenever [m] returns, an observer sees [xs] in what it drew. *)
Definition shows {X A : Type} (see : op -> list X) (m : M A) (xs : list X)
    : Prop :=
  forall a w, m = Ok (a, w) -> flat_map see w = xs.

(** [m] draws nothing on the left margin. *)
Definition quiet {A : Type} (m : M A) : Prop := shows margin_of m [].

(** The images drawn, in drawing order. *)
Definition picture_in (it : margin_item) : list bytes :=
  match it with
  | Picture b => [b]
  | Line _ => []
  end.

Definition pictures (w : list op) : list bytes :=
  flat_map picture_in (left_margin w).

(** The numbered headings of all nine sections. *)
Definition numbered_titles : list pystr :=
  (section_titles ++ [lit "8. 생성된 이미지"; lit "9. 영상 프롬프트"])%list.

(** The seven sections by key and title. *)
Definition section_table (E : env)
    : list (pystr * pystr * (dict -> float -> M float)) :=
  [(lit "policy_planning", lit "1. 정책 기획", section_policy_planning E);
   (lit "execution_plan", lit "2. 실행 계획", section_execution_plan E);
   (lit "communication_strategy", lit "3. 커뮤니케이션 전략",
    section_communication_strategy E);
   (lit "content_briefs", lit "4. 콘텐츠 제작 브리프", section_content_briefs E);
   (lit "marketing_materials", lit "5. 마케팅 자료", section_marketing_materials E);
   (lit "performance_metrics", lit "6. 성과 지표 (KPI)",
    section_performance_metrics E);
   (lit "stakeholder_management", lit "7. 이해관계자 관리",
    section_stakeholder_management E)].

(* ================================================================== *)
(** ** The text of a list block *)

Definition any_item (_ : pyval) : Prop := True.

Definition is_dict (x : pyval) : Prop := exists d, x = PDict d.

(** [x.get(k, '')] for an item that is a dict. *)
Definition entry (x : pyval) (k : pystr) : pyval :=
  match x with
  | PDict d => field d k
  | _ => PStr []
  end.

Section ItemLines.

Variable E : env.

Definition numbered_lines (idx : nat) (s : pyval) : list pystr :=
  wrap_lines (str_of_nat idx ++ lit ". " ++ py_str E s)%list 90.

Definition bullet_lines (_ : nat) (o : pyval) : list pystr :=
  wrap_lines (lit "• " ++ py_str E o)%list 90.

Definition action_lines (idx : nat) (item : pyval) : list pystr :=
  wrap_lines (str_of_nat idx ++ lit ". "
              ++ py_str E (entry item (lit "action")))%list 90.

Definition channel_lines (_ : nat) (ch : pyval) : list pystr :=
  wrap_lines (lit "• " ++ py_str E (entry ch (lit "channel")) ++ lit ": "
              ++ py_str E (entry ch (lit "content_type")))%list 90.

Definition post_lines (idx : nat) (post : pyval) : list pystr :=
  wrap_lines (str_of_nat idx ++ lit ". "
              ++ py_str E (entry post (lit "platform")) ++ lit ": "
              ++ py_str E (entry post (lit "content")))%list 90.

Definition kpi_lines (idx : nat) (kpi : pyval) : list pystr :=
  (wrap_lines (str_of_nat idx ++ lit ". "
               ++ py_str E (entry kpi (lit "metric")))%list 90 ++
   match kpi with
   | PDict d =>
       match Py.lookup (lit "target_range") d with
       | Some t =>
           if Py.truthy t
           then wrap_lines (lit "   목표: " ++ py_str E t)%list 90
           else []
       | None => []
       end
   | _ => []
   end)%list.

Definition stakeholder_lines (idx : nat) (s : pyval) : list pystr :=
  wrap_lines (str_of_nat idx ++ lit ". "
              ++ py_str E (entry s (lit "group")) ++ lit ": "
              ++ py_str E (entry s (lit "interests")))%list 90.

Definition objection_lines (_ : nat) (obj : pyval) : list pystr :=
  (wrap_lines (lit "• 반대: " ++ py_str E (entry obj (lit "objection")))%list 90 ++
   wrap_lines (lit "  대응: " ++ py_str E (entry obj (lit "response")))%list 90)%list.

End ItemLines.

(* ================================================================== *)
(** ** What the renderer reads *)

(** The keys of the subject record the cover block looks up. *)
Definition read_fields : list pystr :=
  [lit "title"; lit "category"; lit "target_audience"; lit "created_at"].

Definition same_subject (p1 p2 : dict) : Prop :=
  forall k, In k read_fields -> Py.lookup k p1 = Py.lookup k p2.

(** Two surroundings agree on the font registration and on [str()]; their
    clocks may differ. *)
Definition same_surroundings (E1 E2 : env) : Prop :=
  font_registers E1 = font_registers E2 /\ repr E1 = repr E2.

(** The list an optional argument stands for: [None] is read as the empty
    list is. *)
Definition given {A : Type} (l : option (list A)) : list A :=
  match l with
  | Some l => l
  | None => []
  end.

(** As many blobs stand among the first four. *)
Definition same_images (images1 images2 : option (list bytes)) : Prop :=
  length (firstn 4 (given images1)) = length (firstn 4 (given images2)).

(** The first nine text blocks agree on their first 600 characters. *)
Definition same_prompts (prompts1 prompts2 : option (list pystr)) : Prop :=
  map (firstn 600) (firstn 9 (given prompts1)) =
  map (firstn 600) (firstn 9 (given prompts2)).

(* ================================================================== *)
(** ** Sample inputs *)

Module Sample.

(** [str()] of the scalars that are not strings; the samples below put
    strings only where a value is formatted. *)
Definition str_scalar (v : pyval) : pystr :=
  match v with
  | PNone => lit "None"
  | PBool true => lit "True"
  | PBool false => lit "False"
  | PInt z =>
      if (z <? 0)%Z then (lit "-" ++ str_of_nat (Z.abs_nat z))%list
      else str_of_nat (Z.abs_nat z)
  | _ => lit "..."
  end.

(** A PNG file starts with these eight bytes. *)
Definition png_magic : bytes :=
  [x89; x50; x4e; x47; x0d; x0a; x1a; x0a]%byte.

(** Surroundings for the samples: the CID font is available. *)
Definition env_cid : env :=
  {| font_registers := true;
     repr := str_scalar;
     clock := lit "2024-06-01T09:00:00" |}.

(** Blobs that start as a PNG file does, and one that does not. *)
Definition png (tag : Byte.byte) : bytes := (png_magic ++ [tag])%list.
Definition corrupt : bytes := [x00; x01]%byte.

Definition policy : dict :=
  [(lit "id", PInt 1);
   (lit "title", PStr (lit "Clean Air Policy"));
   (lit "category", PStr (lit "Environment"));
   (lit "target_audience", PStr (lit "Citizens"));
   (lit "created_at", PStr (lit "2024-01-01T00:00:00"))].

(** [{"policy_planning": {"objective": "Reduce PM2.5 by 20%"}}] *)
Definition analysis_objective : dict :=
  [(lit "policy_planning",
    PDict [(lit "objective", PStr (lit "Reduce PM2.5 by 20%"))])].

(** [{"summary": "n/a"}]: none of the seven sections. *)
Definition analysis_other : dict := [(lit "summary", PStr (lit "n/a"))].

(** Nine strategies, ["strategy 1", ..., "strategy 9"]. *)
Definition strategies : list pyval :=
  map (fun n => PStr (lit "strategy " ++ str_of_nat n)%list) (seq 1 9).

(** [{"execution_plan": {"risk_management": [...]}}] with nine risks. *)
Definition analysis_risks : dict :=
  [(lit "execution_plan",
    PDict [(lit "risk_management",
            PList (map (fun n =>
                          PDict [(lit "risk", PStr (lit "risk " ++ str_of_nat n)%list);
                                 (lit "impact", PStr (lit "high"));
                                 (lit "mitigation", PStr (lit "plan"))])
                       (seq 1 9)))])].

(** Nine strategies, of which eight are drawn, and nine risks. *)
Definition analysis_capped : dict :=
  [(lit "policy_planning",
    PDict [(lit "objective", PStr (lit "Reduce PM2.5 by 20%"));
           (lit "key_strategies", PList strategies)]);
   (lit "execution_plan",
    PDict [(lit "risk_management",
            PList (map (fun n =>
                          PDict [(lit "risk", PStr (lit "risk " ++ str_of_nat n)%list);
                                 (lit "impact", PStr (lit "high"));
                                 (lit "mitigation", PStr (lit "plan"))])
                       (seq 1 9)))])].

(** The same analysis without the risks. *)
Definition analysis_capped_no_risks : dict :=
  [(lit "policy_planning",
    PDict [(lit "objective", PStr (lit "Reduce PM2.5 by 20%"));
           (lit "key_strategies", PList strategies)]);
   (lit "execution_plan", PDict [])].

(** A subject record with the same title, category, audience and
    creation time as [policy], and other values elsewhere. *)
Definition policy_updated : dict :=
  [(lit "id", PInt 2);
   (lit "title", PStr (lit "Clean Air Policy"));
   (lit "category", PStr (lit "Environment"));
   (lit "target_audience", PStr (lit "Citizens"));
   (lit "description", PStr (lit "Less fine dust"));
   (lit "status", PStr (lit "draft"));
   (lit "created_at", PStr (lit "2024-01-01T00:00:00"));
   (lit "updated_at", PStr (lit "2025-06-30T12:00:00"))].

(** As [env_cid], but the CID font cannot be registered. *)
Definition env_helvetica : env :=
  {| font_registers := false;
     repr := str_scalar;
     clock := lit "2024-06-01T09:00:00" |}.

(** As [env_cid], a year and a half later. *)
Definition env_cid_later : env :=
  {| font_registers := true;
     repr := str_scalar;
     clock := lit "2025-12-31T23:59:59" |}.

(** [json.loads] on the two texts of the sample exchange: the text of
    the empty object parses to the empty dict, and [oops] is no JSON. *)
Definition json_loads (text : pystr) : option pyval :=
  if PyStr.eqb text (lit "{}") then Some (PDict []) else None.

(** A model that answers the first request with the empty object and
    every later one with [oops]. *)
Definition client (before : list request) (_ : request) : api_outcome :=
  match before with
  | [] => Reply (Some (lit "{}"))
  | _ => Reply (Some (lit "oops"))
  end.

End Sample.

From Stdlib Require Numbers.DecimalNat.

(* ================================================================== *)
(** ** The session state *)

(** [st.session_state]: what it holds under each key.  Streamlit's session
    state is read and written by key and keeps no order of its keys. *)
Definition session_state : Type := pystr -> option pyval.

(** [state[k] = v] *)
Definition set_item (k : pystr) (v : pyval) (state : session_state)
    : session_state :=
  fun k' => if PyStr.eqb k' k then Some v else state k'.

(** [defaults] of [init_session_state], a dict literal. *)
Definition session_defaults : dict :=
  [(lit "current_policy_id", PNone);
   (lit "current_analysis", PNone);
   (lit "generated_images", PList []);
   (lit "video_prompts_3styles", PList []);
   (lit "workflow_step", PStr (lit "기획"));
   (lit "show_results", PBool false);
   (lit "selected_category", PStr []);
   (lit "temp_selection", PStr []);
   (lit "active_tab", PInt 0)].

(** [for key, value in defaults.items():
         if key not in state: state[key] = value] *)
Definition set_defaults (defaults : dict) (state : session_state)
    : session_state :=
  fold_left (fun st kv =>
               match st (fst kv) with
               | Some _ => st
               | None => set_item (fst kv) (snd kv) st
               end)
            defaults state.

(** [init_session_state] *)
Definition init_session_state (state : session_state) : session_state :=
  set_defaults session_defaults state.

(** Sequencing of Python expressions that may raise. *)
Definition and_then {A B : Type} (r : result A) (f : A -> result B) : result B :=
  match r with
  | Ok a => f a
  | Raise e => Raise e
  end.

(* ================================================================== *)
(** ** The policies table *)

(** A row of [policies] as [create_policy] writes it: every column but the
    key holds text. *)
Record policy_row : Type := {
  row_id : Z;
  row_title : pystr;
  row_category : pystr;
  row_target_audience : pystr;
  row_description : pystr;
  row_status : pystr;
  row_created_at : pystr;
  row_updated_at : pystr
}.

(** The table in insertion order, with the largest key ever handed out
    (the table's entry in [sqlite_sequence], which [AUTOINCREMENT] keeps). *)
Record database : Type := {
  policies : list policy_row;
  policies_seq : Z
}.

(** The tables [init_database] creates in a new file. *)
Definition empty_database : database :=
  {| policies := []; policies_seq := 0 |}.

(** The largest key in the table, [0] for an empty one. *)
Definition max_id (rows : list policy_row) : Z :=
  fold_right (fun r m => Z.max (row_id r) m) 0%Z rows.

(** [create_policy]: [now] is [datetime.now().isoformat()].  The new key
    is one more than the largest the table ever had; the row goes in with
    status [draft] and both time stamps at [now].  Returns
    [cursor.lastrowid]. *)
Definition create_policy (now title category target_audience description : pystr)
    (db : database) : Z * database :=
  let id := (Z.max (max_id (policies db)) (policies_seq db) + 1)%Z in
  let row :=
    {| row_id := id;
       row_title := title;
       row_category := category;
       row_target_audience := target_audience;
       row_description := description;
       row_status := lit "draft";
       row_created_at := now;
       row_updated_at := now |} in
  (id, {| policies := (policies db ++ [row])%list; policies_seq := id |}).

(** [UPDATE policies SET status = ?, updated_at = ? WHERE id = ?] *)
Definition set_status (now status : pystr) (policy_id : Z) (r : policy_row)
    : policy_row :=
  if (row_id r =? policy_id)%Z
  then {| row_id := row_id r;
          row_title := row_title r;
          row_category := row_category r;
          row_target_audience := row_target_audience r;
          row_description := row_description r;
          row_status := status;
          row_created_at := row_created_at r;
          row_updated_at := now |}
  else r.

(** The integers SQLite stores: 64 bits with a sign. *)
Definition sqlite_int (z : Z) : bool :=
  ((- 2 ^ 63 <=? z) && (z <? 2 ^ 63))%Z.

(** Binding a Python [int] to the parameter of a statement: [sqlite3]
    raises [OverflowError] for one that SQLite cannot store. *)
Definition bind_int (z : Z) : result Z :=
  if sqlite_int z then Ok z else Raise OverflowError.

(** [update_policy_status] *)
Definition update_policy_status (now : pystr) (policy_id : Z) (status : pystr)
    (db : database) : result database :=
  and_then (bind_int policy_id) (fun id =>
  Ok {| policies := map (set_status now status id) (policies db);
        policies_seq := policies_seq db |}).

(** [dict(row)]: the columns in the order of the table. *)
Definition row_dict (r : policy_row) : dict :=
  [(lit "id", PInt (row_id r));
   (lit "title", PStr (row_title r));
   (lit "category", PStr (row_category r));
   (lit "target_audience", PStr (row_target_audience r));
   (lit "description", PStr (row_description r));
   (lit "status", PStr (row_status r));
   (lit "created_at", PStr (row_created_at r));
   (lit "updated_at", PStr (row_updated_at r))].

(** [SELECT * FROM policies WHERE id = ?] with [fetchone()] *)
Definition select_policy (policy_id : Z) (db : database) : option policy_row :=
  find (fun r => (row_id r =? policy_id)%Z) (policies db).

(** [get_policy] *)
Definition get_policy (policy_id : Z) (db : database) : result (option dict) :=
  and_then (bind_int policy_id) (fun id =>
  Ok (match select_policy id db with
      | Some r => Some (row_dict r)
      | None => None
      end)).

(** The primary key: no two rows share an [id]. *)
Definition unique_ids (db : database) : Prop :=
  NoDup (map row_id (policies db)).

(* ================================================================== *)
(** ** The archive *)

(** What [writestr] is given: text or bytes. *)
Inductive zip_content : Type :=
| ZText (t : pystr)
| ZBytes (b : bytes).

(** The archive: the entries in the order they were written. *)
Definition zip_entry : Type := pystr * zip_content.

(** [f"images/image_{idx}.png"] *)
Definition image_name (idx : nat) : pystr :=
  (lit "images/image_" ++ str_of_nat idx ++ lit ".png")%list.

(** [f"video_prompts/prompt_{idx}.txt"] *)
Definition prompt_name (idx : nat) : pystr :=
  (lit "video_prompts/prompt_" ++ str_of_nat idx ++ lit ".txt")%list.

(** The [readme] f-string with its two fields. *)
Definition readme (title created_at : pystr) : pystr :=
  (lit "
정세담 정책 프로그램 - 결과물 패키지

정책 제목: " ++ title ++ lit "
생성일: " ++ created_at
   ++ lit "

포함 내용:
- 정책_보고서_전체.pdf: AI 분석 7개 섹션 + 이미지 + 영상 프롬프트 전체 (PDF)
- policy_info.json: 정책 기본 정보
- analysis_full.json: AI 분석 전체 결과 (JSON)
- images/: 생성된 이미지
- video_prompts/: 영상 제작 프롬프트

사용 방법:
1. 정책_보고서_전체.pdf를 열어 전체 내용 확인 (권장)
2. analysis_full.json을 열어 JSON 형태로 확인
3. images 폴더의 이미지 활용
4. video_prompts의 프롬프트를 Sora, Runway, Pika 등에 입력
")%list.

Section Archive.

Variable E : env.

(** [json.dumps(v, ensure_ascii=False, indent=2)] *)
Variable json_dumps : pyval -> pystr.

(** [create_zip_export]: the archive, or the exception that leaves none. *)
Definition create_zip_export (policy : dict) (analysis : option dict)
    (images : option (list bytes)) (video_prompts : option (list pystr))
    (pdf_bytes : option bytes) : result (list zip_entry) :=
  let pdf :=
    match pdf_bytes with
    | None | Some [] => []                       (* [if pdf_bytes:] *)
    | Some b => [(lit "정책_보고서_전체.pdf", ZBytes b)]
    end in
  let info :=
    [(lit "policy_info.json", ZText (json_dumps (PDict policy)));
     (lit "analysis_full.json",
      ZText (json_dumps (match analysis with
                         | Some a => PDict a
                         | None => PNone
                         end)))] in
  let image_entries :=
    match images with
    | None => []
    | Some l =>
        map (fun ix => (image_name (fst ix), ZBytes (snd ix))) (Py.enumerate 1 l)
    end in
  let prompt_entries :=
    match video_prompts with
    | None => []
    | Some l =>
        map (fun ix => (prompt_name (fst ix), ZText (snd ix))) (Py.enumerate 1 l)
    end in
  match Py.index (PDict policy) (lit "title") with
  | Raise e => Raise e
  | Ok title =>
      match Py.index (PDict policy) (lit "created_at") with
      | Raise e => Raise e
      | Ok created_at =>
          Ok (pdf ++ info ++ image_entries ++ prompt_entries ++
              [(lit "README.txt",
                ZText (readme (py_str E title) (py_str E created_at)))])%list
      end
  end.

End Archive.

(** The names in an archive. *)
Definition names (entries : list zip_entry) : list pystr := map fst entries.

(** The entries of an archive under a folder. *)
Definition under (folder : pystr) (entries : list zip_entry) : list zip_entry :=
  filter (fun e => startswith folder (fst e)) entries.

(* ================================================================== *)
(** ** The prompts *)

Definition DEFAULT_IMAGE_STYLE : pystr := lit "
PHOTO-REALISTIC Korean documentary style. Shot on Canon EOS R5, 35mm f/1.8, natural daylight.

Korean People: Natural Korean faces, realistic skin texture, genuine expressions, casual Korean clothing (NOT costumes). Ages 20s-60s with natural features. NO AI artifacts, NO perfect symmetry, NO filtered faces.

Location: Real Korean settings - apartments, offices, parks, cafes (Seoul/Busan style). Modern Korean architecture (2010s-2020s). Background: Korean streetscape, but NO readable text/signs.

Lighting: Soft natural light (morning/afternoon), realistic shadows, true Korean colors (neutral tones, NO oversaturation, NO HDR).

Composition: Eye-level, candid moment, subject sharp with subtle background blur. Documentary photography aesthetic.

FORBIDDEN: ❌ Cartoon/illustration/anime style ❌ 3D render ❌ Sci-fi/fantasy ❌ Stock photo poses ❌ Heavy makeup ❌ Studio lighting ❌ Visible text ❌ Foreign locations

Reference: Korean TV drama stills (Reply 1988, My Mister), Korean photojournalism (한겨레/경향신문).

MUST look like: Real photo taken in Korea TODAY with professional camera.
".

(** The last lines of every image prompt. *)
Definition image_prompt_closing : pystr := lit "Important: Create realistic Korean people with natural, undistorted facial features.
No text or writing should appear anywhere in the image.
Focus on authentic Korean urban/suburban environment and genuine human expressions.".

(** [base_context] of [generate_video_prompts_3styles]. *)
Definition base_context : pystr := lit "
Duration: 10 seconds
Location: Modern South Korea
Language: Korean subtitles only
No English text visible
".

Section Prompts.

Variable E : env.

(** [generate_image_prompt] *)
Definition generate_image_prompt (brief : pyval) (style_override : pystr)
    : result pystr :=
  and_then (Py.get brief (lit "concept") (PStr [])) (fun concept =>
  and_then (Py.get brief (lit "scene_description") (PStr [])) (fun scene =>
  and_then (Py.get brief (lit "visual_style") (PStr [])) (fun style =>
  and_then (Py.get brief (lit "key_message") (PStr [])) (fun message =>
  let base_style :=
    match style_override with
    | [] => DEFAULT_IMAGE_STYLE
    | _ => style_override
    end in
  let prompt :=
    (lit "
" ++ py_str E concept ++
     lit "

Scene description: " ++ py_str E scene ++
     lit "

Visual style: " ++ py_str E style ++
     lit "

" ++ base_style ++
     lit "

Key message to convey: " ++ py_str E message ++
     lit "

Important: Create realistic Korean people with natural, undistorted facial features.
No text or writing should appear anywhere in the image.
Focus on authentic Korean urban/suburban environment and genuine human expressions.
")%list in
  Ok (strip prompt))))).

(** The three style texts, each with the fields [narrative] and [cta]. *)
Definition style1 (narrative cta : pystr) : pystr :=
  (lit "
[스타일 1: 다큐멘터리 리얼리즘]

" ++ base_context ++ lit "

Visual Style:
- Handheld camera feel, natural movements
- Realistic lighting, documentary aesthetic
- Authentic Korean street scenes and people
- Observational approach, fly-on-the-wall style
- Natural color grading with slight desaturation

Camera:
- Medium shots and close-ups
- Slight camera shake for realism
- Follow subjects naturally

Audio:
- Natural ambient sounds (traffic, voices, city sounds)
- Minimal background music
- Natural Korean dialogue or voice-over

Narrative: " ++ narrative ++
   lit "

Mood: Authentic, grounded, trustworthy
Pacing: Steady, observational
Final Message: " ++ cta ++ lit "

Technical: 24fps, cinematic aspect ratio, professional documentary style
")%list.

Definition style2 (narrative cta : pystr) : pystr :=
  (lit "
[스타일 2: 시네마틱 드라마]

" ++ base_context ++ lit "

Visual Style:
- Smooth cinematic camera movements (gimbal/slider)
- Dramatic lighting with warm and cool tones
- Korean urban landscape with cinematic composition
- Establishing shots of Seoul skyline or modern architecture
- Rich color grading inspired by Korean cinema

Camera:
- Wide establishing shots
- Slow push-ins and reveals
- Overhead/drone shots of Korean cityscape
- Smooth tracking shots

Audio:
- Emotional background music (orchestral or modern Korean OST style)
- Carefully designed sound effects
- Polished voice-over narration

Narrative: " ++ narrative ++
   lit "

Mood: Inspiring, emotional, aspirational
Pacing: Dynamic with emotional beats
Final Message: " ++ cta ++ lit "

Technical: 24fps, anamorphic feel, cinematic color grade
")%list.

Definition style3 (narrative cta : pystr) : pystr :=
  (lit "
[스타일 3: 모던 다이내믹]

" ++ base_context ++ lit "

Visual Style:
- Fast-paced dynamic cuts
- Modern Korean lifestyle and technology
- Bright, energetic visuals
- Clean, contemporary aesthetic
- Vibrant color grading with saturated tones

Camera:
- Quick cuts between multiple angles
- Time-lapse of Korean city life
- Dynamic camera movements
- Close-ups on details and faces
- Match cuts for visual rhythm

Audio:
- Upbeat modern Korean music
- Rhythmic sound design
- Quick voice-over or on-screen Korean text animations
- Sync with visual cuts

Narrative: " ++ narrative ++
   lit "

Mood: Energetic, modern, forward-thinking
Pacing: Fast, rhythmic, attention-grabbing
Final Message: " ++ cta ++ lit "

Technical: 30fps or 60fps slow-motion elements, high contrast, vibrant colors
")%list.

(** [generate_video_prompts_3styles] *)
Definition generate_video_prompts_3styles (brief : pyval) : result dict :=
  and_then (Py.get brief (lit "narrative_arc") (PStr [])) (fun narrative =>
  and_then (Py.get brief (lit "call_to_action") (PStr [])) (fun cta =>
  let narrative := py_str E narrative in
  let cta := py_str E cta in
  Ok [(lit "documentary", PStr (style1 narrative cta));
      (lit "cinematic", PStr (style2 narrative cta));
      (lit "modern_dynamic", PStr (style3 narrative cta))])).

(** The three text blocks the export makes of one prompt set:
    [f"[세트 {idx} - 다큐멘터리]\n{prompt_set.get('documentary', '')}"]
    and the like for the two other styles. *)
Definition set_texts (idx : nat) (prompt_set : pyval) : result (list pystr) :=
  and_then (Py.get prompt_set (lit "documentary") (PStr [])) (fun d =>
  and_then (Py.get prompt_set (lit "cinematic") (PStr [])) (fun c =>
  and_then (Py.get prompt_set (lit "modern_dynamic") (PStr [])) (fun m =>
  Ok [(lit "[세트 " ++ str_of_nat idx ++ lit " - 다큐멘터리]
" ++ py_str E d)%list;
      (lit "[세트 " ++ str_of_nat idx ++ lit " - 시네마틱]
" ++ py_str E c)%list;
      (lit "[세트 " ++ str_of_nat idx ++ lit " - 모던 다이내믹]
" ++ py_str E m)%list]))).

(** [video_texts] of the export: the blocks of all prompt sets, in order. *)
Fixpoint video_texts_from (idx : nat) (sets : list pyval) : result (list pystr) :=
  match sets with
  | [] => Ok []
  | s :: sets' =>
      and_then (set_texts idx s) (fun ts =>
      and_then (video_texts_from (S idx) sets') (fun rest =>
      Ok (ts ++ rest)%list))
  end.

(** The PDF the export tab builds: the images and the text blocks are
    passed as [None] when there are none. *)
Definition export_pdf (policy : dict) (analysis : option dict)
    (image_bytes : list bytes) (prompt_sets : list pyval) : result (list op) :=
  and_then (video_texts_from 1 prompt_sets) (fun video_texts =>
  create_pdf_report E policy analysis
    (match image_bytes with [] => None | _ => Some image_bytes end)
    (match video_texts with [] => None | _ => Some video_texts end)).

End Prompts.

(* ================================================================== *)
(** ** The image generator *)

(** One [client.images.generate] call. *)
Record image_request : Type := {
  image_model : pystr;
  image_prompt : pystr;
  image_size : pystr;
  image_quality : pystr;
  image_n : Z;
  image_response_format : pystr
}.

(** What a call gives back: the [b64_json] fields of [response.data] (no
    field when [response.data] is [None] or empty), or an exception with
    its [str(e)]. *)
Inductive image_outcome : Type :=
| ImageData (b64 : list (option pystr))
| ImageError (message : pystr).

Section ImageGenerator.

Variable E : env.

(** The image model behind the client: its answer to a request, given the
    requests made before it. *)
Variable image_client : list image_request -> image_request -> image_outcome.

(** [base64.b64decode]: the bytes, or [str(e)] of the exception. *)
Variable b64decode : option pystr -> bytes + pystr.

(** [Image.open(BytesIO(image_bytes))]: [None] when the image opens,
    [str(e)] of the exception otherwise. *)
Variable image_open : bytes -> option pystr.

Definition image_request_for (prompt size quality : pystr) : image_request :=
  {| image_model := lit "dall-e-3";
     image_prompt := prompt;
     image_size := size;
     image_quality := quality;
     image_n := 1;
     image_response_format := lit "b64_json" |}.

(** [st.error(f"이미지 생성 실패: {str(e)}")] *)
Definition image_failure (message : pystr) : pystr :=
  (lit "이미지 생성 실패: " ++ message)%list.

(** The [try] block both functions share, with its [except]: the bytes of
    the image when there is one, and the messages shown with [st.error]. *)
Definition try_generate (before : list image_request) (req : image_request)
    : option bytes * list pystr :=
  match image_client before req with
  | ImageError msg => (None, [image_failure msg])
  | ImageData [] => (None, [])
  | ImageData (b64_data :: _) =>
      match b64decode b64_data with
      | inr msg => (None, [image_failure msg])
      | inl image_bytes =>
          match image_open image_bytes with
          | Some msg => (None, [image_failure msg])
          | None => (Some image_bytes, [])
          end
      end
  end.

(** [generate_policy_image]: the image, the messages shown and the
    requests sent.  The prompt is built before the [try]. *)
Definition generate_policy_image (brief : pyval) (size quality : pystr)
    : result (option bytes * list pystr * list image_request) :=
  and_then (generate_image_prompt E brief []) (fun prompt =>
  let req := image_request_for prompt size quality in
  Ok (try_generate [] req, [req])).

(** The loop of [batch_generate_images], after the requests [before]. *)
Fixpoint batch_from (before : list image_request) (prompts : list pystr)
    (size quality : pystr) : list bytes * list pystr * list image_request :=
  match prompts with
  | [] => ([], [], [])
  | prompt :: prompts' =>
      let req := image_request_for prompt size quality in
      let '(image, shown) := try_generate before req in
      let '(results, shown', sent) :=
        batch_from (before ++ [req]) prompts' size quality in
      (match image with
       | Some image_bytes => image_bytes :: results
       | None => results
       end, shown ++ shown', req :: sent)%list
  end.

(** [batch_generate_images]: the images, the messages shown and the
    requests sent. *)
Definition batch_generate_images (prompts : list pystr) (size quality : pystr)
    : list bytes * list pystr * list image_request :=
  batch_from [] prompts size quality.

End ImageGenerator.

(* ================================================================== *)
(** ** Notions used in the statements *)

(** The code points of the digits of a decimal number. *)
Fixpoint digit_codes (d : Decimal.uint) : pystr :=
  match d with
  | Decimal.Nil => []
  | Decimal.D0 d' => 48%N :: digit_codes d'
  | Decimal.D1 d' => 49%N :: digit_codes d'
  | Decimal.D2 d' => 50%N :: digit_codes d'
  | Decimal.D3 d' => 51%N :: digit_codes d'
  | Decimal.D4 d' => 52%N :: digit_codes d'
  | Decimal.D5 d' => 53%N :: digit_codes d'
  | Decimal.D6 d' => 54%N :: digit_codes d'
  | Decimal.D7 d' => 55%N :: digit_codes d'
  | Decimal.D8 d' => 56%N :: digit_codes d'
  | Decimal.D9 d' => 57%N :: digit_codes d'
  end.

(** The numeral that is written: [0] for the empty one. *)
Definition written (d : Decimal.uint) : Decimal.uint :=
  match d with
  | Decimal.Nil => Decimal.D0 Decimal.Nil
  | _ => d
  end.

(** Every name of a list starts with the character [c]. *)
Definition headed (c : char) (l : list pystr) : Prop :=
  forall n, In n l -> hd 0%N n = c.

(** The character of the code fences. *)
Definition backtick : char := 96%N.

(** Two results of building the text blocks that the report cannot tell
    apart. *)
Definition alike (r r' : result (list pystr)) : Prop :=
  match r, r' with
  | Ok l, Ok l' => map (firstn 600) l = map (firstn 600) l'
  | Raise e, Raise e' => e = e'
  | _, _ => False
  end.

(* ================================================================== *)
(** ** Documents that are produced, documents that are not *)

(** The drawing stops with an exception. *)
Definition raises {A : Type} (m : M A) : Prop := exists e, m = Raise e.

(** The drawing runs to its end. *)
Definition returns {A : Type} (m : M A) : Prop := exists a w, m = Ok (a, w).

Definition is_record (v : pyval) : bool :=
  match v with
  | PDict _ => true
  | _ => false
  end.

Definition any_value (_ : pyval) : bool := true.

(** The field [k] of a section is absent, falsy, or a list whose first
    [cap] items pass [ok]. *)
Definition list_field (ok : pyval -> bool) (cap : nat) (sec : dict)
    (k : pystr) : bool :=
  match Py.lookup k sec with
  | None => true
  | Some v =>
      negb (Py.truthy v) ||
      match v with
      | PList l => forallb ok (firstn cap l)
      | _ => false
      end
  end.

(** The field [k] is absent, falsy, or a dict. *)
Definition record_if_truthy (sec : dict) (k : pystr) : bool :=
  match Py.lookup k sec with
  | None => true
  | Some v => negb (Py.truthy v) || is_record v
  end.

(** The field [k] is absent or a dict. *)
Definition record_if_present (sec : dict) (k : pystr) : bool :=
  match Py.lookup k sec with
  | None => true
  | Some v => is_record v
  end.

(** The section [k] of an analysis is absent, or a dict of the shape
    [shape]. *)
Definition section_is (shape : dict -> bool) (a : dict) (k : pystr) : bool :=
  match Py.lookup k a with
  | None => true
  | Some (PDict sec) => shape sec
  | Some _ => false
  end.

(** An analysis of the shape the prompt of [generate_policy_analysis] asks
    for, as far as the report reads it: sections are dicts, list fields are
    lists, and the items that are read by field are dicts. *)
Definition well_formed (a : dict) : bool :=
  section_is (fun s =>
      list_field any_value 8 s (lit "key_strategies") &&
      list_field any_value 5 s (lit "expected_outcomes"))
    a (lit "policy_planning") &&
  section_is (fun s =>
      list_field is_record 8 s (lit "action_items") &&
      record_if_truthy s (lit "resources_needed"))
    a (lit "execution_plan") &&
  section_is (fun s =>
      list_field any_value 8 s (lit "key_messages") &&
      list_field is_record 5 s (lit "channels"))
    a (lit "communication_strategy") &&
  section_is (fun s =>
      record_if_present s (lit "image_brief_1") &&
      record_if_present s (lit "image_brief_2") &&
      record_if_present s (lit "video_brief"))
    a (lit "content_briefs") &&
  section_is (fun s => list_field is_record 5 s (lit "social_media_posts"))
    a (lit "marketing_materials") &&
  section_is (fun s =>
      list_field is_record 8 s (lit "kpi_framework") &&
      list_field any_value 5 s (lit "success_criteria"))
    a (lit "performance_metrics") &&
  section_is (fun s =>
      list_field is_record 6 s (lit "stakeholders") &&
      list_field is_record 4 s (lit "objection_handling"))
    a (lit "stakeholder_management").

(** The sections whose body starts with a [.get] on the section. *)
Definition sections_read_by_get : list pystr :=
  [lit "policy_planning"; lit "execution_plan"; lit "communication_strategy";
   lit "marketing_materials"; lit "performance_metrics";
   lit "stakeholder_management"].

(** Every value of the section is falsy ([None], an empty list or text,
    zero), and the section is not the one that is read with [in]. *)
Definition hollow (k : pystr) (sec : dict) : Prop :=
  forall key v,
    Py.lookup key sec = Some v ->
    Py.truthy v = false /\ k <> lit "content_briefs".

(* ================================================================== *)
(** ** The text of the document *)

Section DocumentText.

Variable E : env.

(** A field drawn as one paragraph behind a prefix: no line when the field
    is missing or falsy. *)
Definition stated (prefix key : pystr) (indent : Z) (sec : dict)
    : list pystr :=
  match Py.lookup key sec with
  | Some v =>
      if Py.truthy v
      then wrap_lines (prefix ++ py_str E v) (max_len_at indent)
      else []
  | None => []
  end.

(** A list under [field]: no line when it is missing or empty, else its
    label and the lines of its first [cap] items, each item with its
    position in the list counted from one, and nothing after them. *)
Definition listed (field label : pystr) (cap : nat)
    (item_lines : nat -> pyval -> list pystr) (sec : dict) : list pystr :=
  match Py.lookup field sec with
  | Some (PList (x :: items)) =>
      label :: flat_map (fun ix => item_lines (fst ix) (snd ix))
                        (Py.enumerate 1 (firstn cap (x :: items)))
  | _ => []
  end.

(** What stands under a key that is present. *)
Definition present (key : pystr) (lines : pyval -> list pystr) (sec : dict)
    : list pystr :=
  match Py.lookup key sec with
  | Some v => lines v
  | None => []
  end.

Definition planning_text (sec : dict) : list pystr :=
  (stated (lit "[목표] ") (lit "objective") 60 sec ++
   stated (lit "[대상 분석] ") (lit "target_analysis") 60 sec ++
   listed (lit "key_strategies") (lit "[핵심 전략]") 8 (numbered_lines E) sec ++
   listed (lit "expected_outcomes") (lit "[기대 효과]") 5 (bullet_lines E) sec)%list.

Definition resources_text (res : pyval) : list pystr :=
  match res with
  | PDict r =>
      lit "[필요 자원]" ::
      (stated (lit "예산: ") (lit "budget_range") 70 r ++
       stated (lit "인력: ") (lit "personnel") 70 r)%list
  | _ => []
  end.

Definition execution_text (sec : dict) : list pystr :=
  (listed (lit "action_items") (lit "[실행 항목]") 8 (action_lines E) sec ++
   present (lit "resources_needed")
     (fun v => if Py.truthy v then resources_text v else []) sec)%list.

Definition communication_text (sec : dict) : list pystr :=
  (listed (lit "key_messages") (lit "[핵심 메시지]") 8 (numbered_lines E) sec ++
   listed (lit "channels") (lit "[채널 전략]") 5 (channel_lines E) sec)%list.

Definition image_brief_text (label : pystr) (b : pyval) : list pystr :=
  label ::
  (wrap_lines (lit "컨셉: " ++ py_str E (entry b (lit "concept"))) 90 ++
   wrap_lines (lit "장면: " ++ py_str E (entry b (lit "scene_description"))) 90)%list.

Definition video_brief_text (b : pyval) : list pystr :=
  lit "[영상 브리프]" ::
  wrap_lines (lit "스토리: " ++ py_str E (entry b (lit "narrative_arc"))) 90.

Definition briefs_text (sec : dict) : list pystr :=
  (present (lit "image_brief_1") (image_brief_text (lit "[이미지 브리프 1]")) sec ++
   present (lit "image_brief_2") (image_brief_text (lit "[이미지 브리프 2]")) sec ++
   present (lit "video_brief") video_brief_text sec)%list.

Definition marketing_text (sec : dict) : list pystr :=
  (stated (lit "[슬로건] ") (lit "slogan") 60 sec ++
   stated (lit "[태그라인] ") (lit "tagline") 60 sec ++
   stated (lit "[엘리베이터 피치] ") (lit "elevator_pitch") 60 sec ++
   listed (lit "social_media_posts") (lit "[소셜미디어 콘텐츠]") 5
     (post_lines E) sec)%list.

Definition metrics_text (sec : dict) : list pystr :=
  (listed (lit "kpi_framework") (lit "[KPI 프레임워크]") 8 (kpi_lines E) sec ++
   listed (lit "success_criteria") (lit "[성공 기준]") 5 (bullet_lines E) sec)%list.

Definition stakeholders_text (sec : dict) : list pystr :=
  (listed (lit "stakeholders") (lit "[이해관계자 분석]") 6
     (stakeholder_lines E) sec ++
   listed (lit "objection_handling") (lit "[반대 의견 대응]") 4
     (objection_lines E) sec)%list.

(** A numbered section: its heading, and its body when the key is there. *)
Definition section_text (title key : pystr) (body : dict -> list pystr)
    (a : dict) : list pystr :=
  title :: match Py.lookup key a with
           | Some (PDict sec) => body sec
           | _ => []
           end.

Definition sections_text (a : dict) : list pystr :=
  (section_text (lit "1. 정책 기획") (lit "policy_planning") planning_text a ++
   section_text (lit "2. 실행 계획") (lit "execution_plan") execution_text a ++
   section_text (lit "3. 커뮤니케이션 전략") (lit "communication_strategy")
     communication_text a ++
   section_text (lit "4. 콘텐츠 제작 브리프") (lit "content_briefs") briefs_text a ++
   section_text (lit "5. 마케팅 자료") (lit "marketing_materials")
     marketing_text a ++
   section_text (lit "6. 성과 지표 (KPI)") (lit "performance_metrics")
     metrics_text a ++
   section_text (lit "7. 이해관계자 관리") (lit "stakeholder_management")
     stakeholders_text a)%list.

Definition images_text (images : option (list bytes)) : list pystr :=
  match images with
  | None | Some [] => []
  | Some _ => [lit "8. 생성된 이미지"]
  end.

Definition prompts_text (video_prompts : option (list pystr)) : list pystr :=
  match video_prompts with
  | None | Some [] => []
  | Some prompts =>
      lit "9. 영상 프롬프트" ::
      flat_map (fun ix =>
                  (wrap_lines (lit "[영상 " ++ str_of_nat (fst ix) ++ lit "]") 85 ++
                   wrap_lines (firstn 600 (snd ix)) 90)%list)
               (Py.enumerate 1 (firstn 9 prompts))
  end.

(** Every string of the document of a non-empty analysis, in drawing
    order. *)
Definition document_text (p a : dict) (images : option (list bytes))
    (video_prompts : option (list pystr)) : list pystr :=
  (texts (cover_block E p) ++ sections_text a ++ images_text images ++
   prompts_text video_prompts)%list.

End DocumentText.

(** [a'] is [a] with other risks: the two analyses differ at most in what
    stands under [risk_management] in the execution plan. *)
Definition other_risks (a a' : dict) : Prop :=
  (forall k, k <> lit "execution_plan" -> Py.lookup k a' = Py.lookup k a) /\
  exists sec sec',
    Py.lookup (lit "execution_plan") a = Some (PDict sec) /\
    Py.lookup (lit "execution_plan") a' = Some (PDict sec') /\
    forall k, k <> lit "risk_management" -> Py.lookup k sec' = Py.lookup k sec.

(* ================================================================== *)
(** ** More sample data *)

Module Demo.

Definition now : pystr := lit "2024-01-01 09:00:00".
Definition later : pystr := lit "2024-02-01 10:30:00".

(** The table after one [create_policy] on the empty database. *)
Definition db1 : database :=
  snd (create_policy now (lit "Clean Air Policy") (lit "Environment")
         (lit "Citizens") (lit "Less fine dust") empty_database).

(** The row of [db1] as [get_policy] returns it. *)
Definition stored : dict :=
  [(lit "id", PInt 1);
   (lit "title", PStr (lit "Clean Air Policy"));
   (lit "category", PStr (lit "Environment"));
   (lit "target_audience", PStr (lit "Citizens"));
   (lit "description", PStr (lit "Less fine dust"));
   (lit "status", PStr (lit "draft"));
   (lit "created_at", PStr now);
   (lit "updated_at", PStr now)].

(** A subject record without a creation time. *)
Definition undated : dict :=
  [(lit "title", PStr (lit "Clean Air Policy"));
   (lit "category", PStr (lit "Environment"))].

(** A stand-in for [json.dumps] that writes the kind of the value only. *)
Definition json_dumps (v : pyval) : pystr :=
  match v with
  | PDict _ => lit "{...}"
  | PNone => lit "null"
  | _ => lit "..."
  end.

Definition brief_bus : pyval :=
  PDict [(lit "narrative_arc", PStr (lit "A commuter takes the new bus line"));
         (lit "call_to_action", PStr (lit "Ride with us"))].

Definition brief_park : pyval :=
  PDict [(lit "narrative_arc", PStr (lit "Children plant trees in the park"));
         (lit "call_to_action", PStr (lit "Join the planting day"))].

(** [{"policy_planning": {"objective": ..., "key_strategies": [...]},
      "execution_plan": {"action_items": [{"action": ...}], "resources_needed": {...}},
      "content_briefs": {"video_brief": {...}}}] *)
Definition analysis_plan : dict :=
  [(lit "policy_planning",
    PDict [(lit "objective", PStr (lit "Reduce PM2.5 by 20%"));
           (lit "key_strategies",
            PList [PStr (lit "Low emission zones"); PStr (lit "Electric buses")])]);
   (lit "execution_plan",
    PDict [(lit "action_items",
            PList [PDict [(lit "action", PStr (lit "Survey the districts"))]]);
           (lit "resources_needed",
            PDict [(lit "budget_range", PStr (lit "1-2M"))])]);
   (lit "content_briefs", PDict [(lit "video_brief", brief_bus)])].

(** [{"policy_planning": "n/a"}]: a section that is a text. *)
Definition analysis_text_section : dict :=
  [(lit "policy_planning", PStr (lit "n/a"))].

(** [{"content_briefs": {"image_brief_1": null}}] *)
Definition analysis_null_brief : dict :=
  [(lit "content_briefs", PDict [(lit "image_brief_1", PNone)])].

(** [{"key_strategies": [], "objective": ""}] *)
Definition hollow_planning : dict :=
  [(lit "key_strategies", PList []); (lit "objective", PStr [])].

End Demo.

(* ================================================================== *)
(** ** Laws of the canvas monad *)

Lemma bind_ret_l (A B : Type) (a : A) (f : A -> M B) : bind (ret a) f = f a.
Proof. unfold bind, ret. destruct (f a) as [[b w]|e]; reflexivity. Qed.

Lemma bind_ret_r (A : Type) (m : M A) : bind m (fun a => ret a) = m.
Proof.
  destruct m as [[a w]|e]; simpl; [rewrite app_nil_r|]; reflexivity.
Qed.

Lemma bind_Ok_inv (A B : Type) (m : M A) (f : A -> M B) (b : B) (w : list op) :
  bind m f = Ok (b, w) ->
  exists a w1 w2, m = Ok (a, w1) /\ f a = Ok (b, w2) /\ w = (w1 ++ w2)%list.
Proof.
  unfold bind. destruct m as [[a w1]|e]; [|discriminate].
  destruct (f a) as [[b' w2]|e] eqn:Hf; [|discriminate].
  intros H. injection H as <- <-. exists a, w1, w2. auto.
Qed.

Lemma bind_lift_Ok (A B : Type) (r : result A) (a : A) (f : A -> M B) :
  r = Ok a -> bind (lift r) f = f a.
Proof. intros ->. apply bind_ret_l. Qed.

Lemma bind_lift_inv (A B : Type) (r : result A) (f : A -> M B) (b : B)
    (w : list op) :
  bind (lift r) f = Ok (b, w) -> exists a, r = Ok a /\ f a = Ok (b, w).
Proof.
  destruct r as [a|e]; [|discriminate].
  rewrite (bind_lift_Ok f eq_refl). eauto.
Qed.

Section Observing.

Variables (X : Type) (see : op -> list X).

Lemma yields_ret (A : Type) (a : A) : yields see (ret a) [].
Proof. exists a, []. auto. Qed.

Lemma yields_emit (o : op) : yields see (emit o) (see o).
Proof. exists tt, [o]. simpl. rewrite app_nil_r. auto. Qed.

Lemma yields_bind (A B : Type) (m : M A) (f : A -> M B) (xs ys : list X) :
  yields see m xs -> (forall a, yields see (f a) ys) ->
  yields see (bind m f) (xs ++ ys).
Proof.
  intros (a & w1 & -> & <-) Hf. destruct (Hf a) as (b & w2 & Hb & <-).
  exists b, (w1 ++ w2)%list. simpl. rewrite Hb, flat_map_app. auto.
Qed.

Lemma yields_bind_eq (A B : Type) (m : M A) (f : A -> M B)
    (xs ys zs : list X) :
  yields see m xs -> zs = (xs ++ ys)%list ->
  (forall a, yields see (f a) ys) -> yields see (bind m f) zs.
Proof. intros Hm -> Hf. now apply yields_bind. Qed.

Lemma yields_bind_quiet (A B : Type) (m : M A) (f : A -> M B) (xs : list X) :
  yields see m [] -> (forall a, yields see (f a) xs) ->
  yields see (bind m f) xs.
Proof.
  intros Hm Hf. change xs with ([] ++ xs)%list. now apply yields_bind.
Qed.

Lemma yields_bind_lift (A B : Type) (r : result A) (a : A) (f : A -> M B)
    (xs : list X) :
  r = Ok a -> yields see (f a) xs -> yields see (bind (lift r) f) xs.
Proof. intros Hr Hf. rewrite (bind_lift_Ok f Hr). exact Hf. Qed.

Lemma yields_for_each (A : Type) (g : A -> list X)
    (body : A -> float -> M float) (xs : list A) :
  (forall x y, In x xs -> yields see (body x y) (g x)) ->
  forall y, yields see (for_each xs body y) (flat_map g xs).
Proof.
  induction xs as [|x xs IH]; intros Hb y; simpl.
  - apply yields_ret.
  - apply yields_bind.
    + apply Hb. now left.
    + intros y'. apply IH. intros x' y'' Hin. apply Hb. now right.
Qed.

Lemma yields_shows (A : Type) (m : M A) (xs : list X) :
  yields see m xs -> shows see m xs.
Proof.
  intros (a & w & -> & <-) a' w' H. now injection H as _ <-.
Qed.

Lemma shows_ret (A : Type) (a : A) : shows see (ret a) [].
Proof. apply yields_shows, yields_ret. Qed.

Lemma shows_bind (A B : Type) (m : M A) (f : A -> M B) (xs ys : list X) :
  shows see m xs -> (forall a, shows see (f a) ys) ->
  shows see (bind m f) (xs ++ ys).
Proof.
  intros Hm Hf b w H.
  apply bind_Ok_inv in H as (a & w1 & w2 & H1 & H2 & ->).
  rewrite flat_map_app, (Hm _ _ H1), (Hf _ _ _ H2). reflexivity.
Qed.

Lemma shows_bind_lift (A B : Type) (r : result A) (f : A -> M B)
    (xs : list X) :
  (forall a, r = Ok a -> shows see (f a) xs) -> shows see (bind (lift r) f) xs.
Proof.
  intros Hf b w H. apply bind_lift_inv in H as (a & Hr & H).
  exact (Hf a Hr b w H).
Qed.

Lemma shows_for_each (A : Type) (g : A -> list X)
    (body : A -> float -> M float) (xs : list A) :
  (forall x y, In x xs -> shows see (body x y) (g x)) ->
  forall y, shows see (for_each xs body y) (flat_map g xs).
Proof.
  induction xs as [|x xs IH]; intros Hb y; simpl.
  - apply shows_ret.
  - apply shows_bind.
    + apply Hb. now left.
    + intros y'. apply IH. intros x' y'' Hin. apply Hb. now right.
Qed.

End Observing.

(* ================================================================== *)
(** ** Line wrapping *)

Lemma firstn_add (A : Type) (n m : nat) (l : list A) :
  firstn (n + m) l = (firstn n l ++ firstn m (skipn n l))%list.
Proof.
  revert l. induction n as [|n IH]; intros [|a l]; simpl;
    try rewrite firstn_nil; try reflexivity.
  now rewrite IH.
Qed.

Lemma wrap_lines_chunks (text : pystr) (L : nat) :
  wrap_lines text L =
  map (fun k => firstn L (skipn (k * L) text))
      (seq 0 ((Nat.min (List.length text) 400 + L - 1) / L)).
Proof.
  unfold wrap_lines, Py.range0, PyStr.slice. rewrite map_map.
  apply map_ext. intros k. now replace (k * L + L - k * L) with L by lia.
Qed.

Lemma chunks_concat (text : pystr) (L n : nat) :
  concat (map (fun k => firstn L (skipn (k * L) text)) (seq 0 n)) =
  firstn (n * L) text.
Proof.
  induction n as [|n IH]; [reflexivity|].
  rewrite seq_S, map_app, concat_app, IH. simpl.
  rewrite app_nil_r, <- firstn_add. f_equal. lia.
Qed.

Lemma ceil_div_covers (m L : nat) : 0 < L -> m <= (m + L - 1) / L * L.
Proof.
  intros HL. pose proof (Nat.div_mod_eq (m + L - 1) L) as H.
  pose proof (Nat.mod_upper_bound (m + L - 1) L) as Hr. nia.
Qed.

Lemma wrap_lines_length (text : pystr) (L : nat) :
  80 <= L -> List.length (wrap_lines text L) <= 5.
Proof.
  intros HL. rewrite wrap_lines_chunks, length_map, length_seq.
  apply Nat.lt_succ_r, Nat.Div0.div_lt_upper_bound. lia.
Qed.

Lemma wrap_lines_concat (text : pystr) (L : nat) :
  L = 85 \/ L = 90 -> concat (wrap_lines text L) = firstn (5 * L) text.
Proof.
  intros HL. rewrite wrap_lines_chunks, chunks_concat.
  destruct (Nat.le_gt_cases (List.length text) 400) as [Hle|Hgt].
  - rewrite Nat.min_l by exact Hle.
    pose proof (@ceil_div_covers (List.length text) L) as Hc.
    rewrite !firstn_all2; [reflexivity| |]; lia.
  - rewrite Nat.min_r by lia.
    destruct HL as [-> | ->]; reflexivity.
Qed.

(** Slicing is by position only: it commutes with any relabelling of the
    characters. *)
Lemma wrap_lines_map (f : char -> char) (text : pystr) (L : nat) :
  wrap_lines (map f text) L = map (map f) (wrap_lines text L).
Proof.
  rewrite !wrap_lines_chunks, length_map, map_map.
  apply map_ext. intros k. now rewrite skipn_map, firstn_map.
Qed.

(* ================================================================== *)
(** ** What the two layout primitives draw *)

Section ObservingPrimitives.

Variables (X : Type) (see : op -> list X) (E : env).
Hypothesis blind : layout_blind see.

Lemma yields_new_page : yields see new_page [].
Proof.
  destruct blind as (Hp & _). exists (height - 50)%float, [ShowPage].
  simpl. rewrite Hp. auto.
Qed.

Lemma yields_break (b : bool) (y : float) :
  yields see (if b then new_page else ret y) [].
Proof. destruct b; [apply yields_new_page | apply yields_ret]. Qed.

Lemma yields_break_if_low (y : float) : yields see (break_if_low y) [].
Proof. apply yields_break. Qed.

Lemma yields_set_font (s : Z) : yields see (emit (SetFont (font_name E) s)) [].
Proof.
  destruct blind as (_ & Hf & _). rewrite <- (Hf (font_name E) s).
  apply yields_emit.
Qed.

Lemma yields_draw_string (x : Z) (y : float) (t : pystr) :
  yields see (emit (DrawString x y t)) (see (DrawString x 0%float t)).
Proof.
  destruct blind as (_ & _ & Hd). rewrite (Hd x 0%float y t).
  apply yields_emit.
Qed.

Lemma yields_add_heading (y : float) (text : pystr) (size : Z) :
  yields see (add_heading E y text size)
         (see (DrawString 50 0%float (PyStr.slice_to 90 text))).
Proof.
  unfold add_heading.
  apply yields_bind_quiet; [apply yields_break | intros y1].
  apply yields_bind_quiet; [apply yields_set_font | intros _].
  rewrite <- (app_nil_r (see _)).
  apply yields_bind; [apply yields_draw_string | intros _; apply yields_ret].
Qed.

Lemma yields_add_text (y : float) (text : pystr) (size indent : Z) :
  yields see (add_text E y text size indent)
         (flat_map (fun line => see (DrawString indent 0%float line))
                   (wrap_lines text (max_len_at indent))).
Proof.
  unfold add_text.
  apply yields_bind_quiet; [apply yields_break | intros y1].
  apply yields_bind_quiet; [apply yields_set_font | intros _].
  assert (Hl : 80 <= max_len_at indent)
    by (unfold max_len_at; destruct (indent =? 60)%Z; lia).
  rewrite firstn_all2 by (pose proof (wrap_lines_length text Hl); lia).
  rewrite <- (app_nil_r (flat_map _ _)).
  apply yields_bind; [|intros y2; apply yields_ret].
  apply yields_for_each. intros line y2 _.
  apply yields_bind_quiet.
  - destruct (y2 <? 60)%float; [|apply yields_ret].
    apply yields_bind_quiet; [apply yields_new_page | intros y3].
    apply yields_bind_quiet; [apply yields_set_font | intros _].
    apply yields_ret.
  - intros y3. rewrite <- (app_nil_r (see _)).
    apply yields_bind; [apply yields_draw_string | intros _; apply yields_ret].
Qed.

End ObservingPrimitives.

(* ================================================================== *)
(** ** Text and left margin of the primitives *)

Lemma text_of_blind : layout_blind text_of.
Proof. repeat split. Qed.

Lemma margin_of_blind : layout_blind margin_of.
Proof. repeat split. Qed.

Lemma flat_map_singleton (A : Type) (l : list A) :
  flat_map (fun x => [x]) l = l.
Proof. induction l as [|x l IH]; simpl; congruence. Qed.

Lemma flat_map_nil (A B : Type) (l : list A) :
  flat_map (fun _ => @nil B) l = [].
Proof. induction l as [|x l IH]; simpl; congruence. Qed.

Lemma add_text_texts (E : env) (y : float) (text : pystr) (size indent : Z) :
  yields text_of (add_text E y text size indent)
         (wrap_lines text (max_len_at indent)).
Proof.
  pose proof (yields_add_text E text_of_blind y text size indent) as H.
  simpl in H. now rewrite flat_map_singleton in H.
Qed.

Lemma add_text_margin (E : env) (y : float) (text : pystr) (size indent : Z) :
  indent <> 50%Z -> yields margin_of (add_text E y text size indent) [].
Proof.
  intros Hi.
  pose proof (yields_add_text E margin_of_blind y text size indent) as H.
  simpl in H. apply Z.eqb_neq in Hi. rewrite Hi in H.
  now rewrite flat_map_nil in H.
Qed.

Lemma add_heading_margin (E : env) (y : float) (text : pystr) (size : Z) :
  yields margin_of (add_heading E y text size) [Line (PyStr.slice_to 90 text)].
Proof. exact (yields_add_heading E margin_of_blind y text size). Qed.

Lemma heading_margin (E : env) (y : float) (text : pystr) (size : Z) :
  length text <= 90 ->
  yields margin_of (add_heading E y text size) [Line text].
Proof.
  intros Hl. pose proof (add_heading_margin E y text size) as H.
  unfold PyStr.slice_to in H. now rewrite firstn_all2 in H.
Qed.

(* ================================================================== *)
(** ** The body of a section stays off the left margin *)

Lemma quiet_ret (A : Type) (a : A) : quiet (ret a).
Proof. apply shows_ret. Qed.

Lemma quiet_lift (A : Type) (r : result A) : quiet (lift r).
Proof. destruct r; intros a' w H; inversion H; reflexivity. Qed.

Lemma quiet_bind (A B : Type) (m : M A) (f : A -> M B) :
  quiet m -> (forall a, quiet (f a)) -> quiet (bind m f).
Proof.
  intros Hm Hf. unfold quiet. change (@nil margin_item) with ([] ++ @nil margin_item)%list.
  now apply shows_bind.
Qed.

Lemma quiet_if (A : Type) (b : bool) (m1 m2 : M A) :
  quiet m1 -> quiet m2 -> quiet (if b then m1 else m2).
Proof. now destruct b. Qed.

Lemma quiet_for_each (A : Type) (body : A -> float -> M float) (xs : list A)
    (y : float) :
  (forall x y, quiet (body x y)) -> quiet (for_each xs body y).
Proof.
  intros Hb. unfold quiet. rewrite <- (flat_map_nil margin_item xs).
  apply shows_for_each. intros x y' _. apply Hb.
Qed.

Lemma quiet_if_get (d : pyval) (k : pystr) (body : pyval -> float -> M float)
    (y : float) :
  (forall v y, quiet (body v y)) -> quiet (if_get d k body y).
Proof.
  intros Hb. unfold if_get. apply quiet_bind; [apply quiet_lift|]. intros v.
  apply quiet_if; [|apply quiet_ret].
  apply quiet_bind; [apply quiet_lift|]. intros x. apply Hb.
Qed.

Lemma quiet_if_in (d : pyval) (k : pystr) (body : pyval -> float -> M float)
    (y : float) :
  (forall v y, quiet (body v y)) -> quiet (if_in d k body y).
Proof.
  intros Hb. unfold if_in. apply quiet_bind; [apply quiet_lift|]. intros v.
  apply quiet_if; [|apply quiet_ret].
  apply quiet_bind; [apply quiet_lift|]. intros x. apply Hb.
Qed.

Lemma quiet_add_text (E : env) (y : float) (text : pystr) (size indent : Z) :
  indent <> 50%Z -> quiet (add_text E y text size indent).
Proof. intros Hi. now apply yields_shows, add_text_margin. Qed.

Lemma quiet_list_block (E : env) (field label : pystr) (cap : nat)
    (body : nat -> pyval -> float -> M float) (sec : pyval) (y : float) :
  (forall idx x y, quiet (body idx x y)) ->
  quiet (list_block E field label cap body sec y).
Proof.
  intros Hb. unfold list_block. apply quiet_if_get. intros v y1.
  apply quiet_bind; [apply quiet_add_text; lia|]. intros y2.
  apply quiet_bind; [apply quiet_lift|]. intros items.
  apply quiet_for_each. intros ix y3. apply Hb.
Qed.

Ltac quiet_step :=
  first
    [ apply quiet_ret
    | apply quiet_lift
    | apply quiet_add_text; lia
    | apply quiet_list_block
    | apply quiet_if_get
    | apply quiet_if_in
    | apply quiet_for_each
    | apply quiet_bind ].

Ltac quiet_body :=
  repeat (intros; quiet_step).

Section SectionMargins.

Variable E : env.

Lemma quiet_numbered_item idx s y : quiet (numbered_item E idx s y).
Proof. unfold numbered_item. quiet_body. Qed.

Lemma quiet_bullet_item idx o y : quiet (bullet_item E idx o y).
Proof. unfold bullet_item. quiet_body. Qed.

Lemma quiet_action_item idx x y : quiet (action_item E idx x y).
Proof. unfold action_item. quiet_body. Qed.

Lemma quiet_channel_item idx x y : quiet (channel_item E idx x y).
Proof. unfold channel_item. quiet_body. Qed.

Lemma quiet_post_item idx x y : quiet (post_item E idx x y).
Proof. unfold post_item. quiet_body. Qed.

Lemma quiet_kpi_item idx x y : quiet (kpi_item E idx x y).
Proof. unfold kpi_item. quiet_body. Qed.

Lemma quiet_stakeholder_item idx x y : quiet (stakeholder_item E idx x y).
Proof. unfold stakeholder_item. quiet_body. Qed.

Lemma quiet_objection_item idx x y : quiet (objection_item E idx x y).
Proof. unfold objection_item. quiet_body. Qed.

Lemma quiet_image_brief label b y : quiet (image_brief E label b y).
Proof. unfold image_brief. quiet_body. Qed.

(** A section shows its numbered heading on the left margin and nothing
    else, whatever the analysis holds. *)
Ltac section_margin :=
  intros;
  match goal with
  | |- shows _ _ [Line ?t] => change [Line t] with ([Line t] ++ [])%list
  end;
  apply shows_bind;
  [ apply yields_shows, heading_margin; vm_compute; lia
  | intros; apply quiet_if_in; intros;
    quiet_body;
    first [ apply quiet_numbered_item | apply quiet_bullet_item
          | apply quiet_action_item | apply quiet_channel_item
          | apply quiet_post_item | apply quiet_kpi_item
          | apply quiet_stakeholder_item | apply quiet_objection_item
          | apply quiet_image_brief ] ].

Lemma margin_policy_planning a y :
  shows margin_of (section_policy_planning E a y) [Line (lit "1. 정책 기획")].
Proof.
  unfold section_policy_planning, planning_key_strategies,
    planning_expected_outcomes. section_margin.
Qed.

Lemma margin_execution_plan a y :
  shows margin_of (section_execution_plan E a y) [Line (lit "2. 실행 계획")].
Proof. unfold section_execution_plan, execution_action_items. section_margin. Qed.

Lemma margin_communication_strategy a y :
  shows margin_of (section_communication_strategy E a y)
        [Line (lit "3. 커뮤니케이션 전략")].
Proof.
  unfold section_communication_strategy, comm_key_messages, comm_channels.
  section_margin.
Qed.

Lemma margin_content_briefs a y :
  shows margin_of (section_content_briefs E a y)
        [Line (lit "4. 콘텐츠 제작 브리프")].
Proof. unfold section_content_briefs. section_margin. Qed.

Lemma margin_marketing_materials a y :
  shows margin_of (section_marketing_materials E a y)
        [Line (lit "5. 마케팅 자료")].
Proof.
  unfold section_marketing_materials, marketing_social_media_posts.
  section_margin.
Qed.

Lemma margin_performance_metrics a y :
  shows margin_of (section_performance_metrics E a y)
        [Line (lit "6. 성과 지표 (KPI)")].
Proof.
  unfold section_performance_metrics, metrics_kpi_framework,
    metrics_success_criteria. section_margin.
Qed.

Lemma margin_stakeholder_management a y :
  shows margin_of (section_stakeholder_management E a y)
        [Line (lit "7. 이해관계자 관리")].
Proof.
  unfold section_stakeholder_management, stakeholder_stakeholders,
    stakeholder_objection_handling. section_margin.
Qed.

End SectionMargins.

(* ================================================================== *)
(** ** Sections 8 and 9 never raise *)

Section TailSections.

Variable E : env.

Lemma draw_image_margin (idx : nat) (b : bytes) (y : float) :
  yields margin_of (draw_image E idx b y) [].
Proof.
  unfold draw_image.
  apply yields_bind_quiet; [apply yields_break, margin_of_blind | intros y1].
  unfold ImageReader. apply yields_ret.
Qed.

Lemma section_images_margin (images : option (list bytes)) (y : float) :
  yields margin_of (section_images E images y) (images_outline images).
Proof.
  destruct images as [[|b imgs]|]; try apply yields_ret.
  unfold section_images, images_outline.
  apply yields_bind_quiet; [apply yields_break_if_low, margin_of_blind|].
  intros y1. rewrite <- (app_nil_r [Line _]).
  apply yields_bind; [apply heading_margin; vm_compute; lia | intros y2].
  rewrite <- (flat_map_nil margin_item (Py.enumerate 1 (firstn 4 (b :: imgs)))).
  apply yields_for_each. intros ix y3 _. apply draw_image_margin.
Qed.

Lemma section_video_prompts_margin (video_prompts : option (list pystr))
    (y : float) :
  yields margin_of (section_video_prompts E video_prompts y)
         (prompts_outline video_prompts).
Proof.
  destruct video_prompts as [[|t prompts]|]; try apply yields_ret.
  unfold section_video_prompts, prompts_outline.
  apply yields_bind_quiet; [apply yields_new_page, margin_of_blind|].
  intros y1. rewrite <- (app_nil_r [Line _]).
  apply yields_bind; [apply heading_margin; vm_compute; lia | intros y2].
  rewrite <- (flat_map_nil margin_item (Py.enumerate 1 (firstn 9 (t :: prompts)))).
  apply yields_for_each. intros ix y3 _.
  apply yields_bind_quiet; [apply yields_break_if_low, margin_of_blind|].
  intros y4.
  apply yields_bind_quiet; [apply add_text_margin; lia | intros y5].
  apply yields_bind_quiet; [apply add_text_margin; lia | intros y6].
  apply yields_ret.
Qed.

End TailSections.

(* ================================================================== *)
(** ** The left margin of the whole document *)

Lemma cover_ok (E : env) (p : dict) :
  subject_record p ->
  cover E p = Ok ((height - 50 - 50 - 25 - 20 - 20)%float, cover_block E p).
Proof.
  intros [[s Hs] [c Hc]]. unfold cover, cover_block.
  assert (Hg : forall k, Py.get (PDict p) k (PStr []) = Ok (field p k))
    by reflexivity.
  rewrite !Hg, Hs, Hc. reflexivity.
Qed.

Lemma numbered_sections_margin (E : env) (a : dict) :
  shows margin_of (numbered_sections E a) (map Line section_titles).
Proof.
  intros y w H. unfold numbered_sections in H.
  repeat match type of H with
         | bind _ _ = Ok _ =>
             let H1 := fresh "Hm" in
             apply bind_Ok_inv in H as (? & ? & ? & H1 & H & ->)
         end.
  apply margin_stakeholder_management in H.
  repeat match goal with
         | Hm : new_page = Ok _ |- _ =>
             apply (yields_shows (yields_new_page margin_of_blind)) in Hm
         | Hm : break_if_low _ = Ok _ |- _ =>
             apply (yields_shows (yields_break_if_low margin_of_blind _)) in Hm
         | Hm : section_policy_planning _ _ _ = Ok _ |- _ =>
             apply margin_policy_planning in Hm
         | Hm : section_execution_plan _ _ _ = Ok _ |- _ =>
             apply margin_execution_plan in Hm
         | Hm : section_communication_strategy _ _ _ = Ok _ |- _ =>
             apply margin_communication_strategy in Hm
         | Hm : section_content_briefs _ _ _ = Ok _ |- _ =>
             apply margin_content_briefs in Hm
         | Hm : section_marketing_materials _ _ _ = Ok _ |- _ =>
             apply margin_marketing_materials in Hm
         | Hm : section_performance_metrics _ _ _ = Ok _ |- _ =>
             apply margin_performance_metrics in Hm
         end.
  rewrite !flat_map_app.
  repeat match goal with
         | Hm : flat_map margin_of _ = _ |- _ => rewrite Hm; clear Hm
         end.
  reflexivity.
Qed.

Lemma sections_margin (E : env) (a : dict) (images : option (list bytes))
    (video_prompts : option (list pystr)) :
  shows margin_of (sections E a images video_prompts)
        (map Line section_titles ++ images_outline images
         ++ prompts_outline video_prompts)%list.
Proof.
  unfold sections.
  apply shows_bind; [apply numbered_sections_margin | intros y].
  apply shows_bind; intros; apply yields_shows;
    [apply section_images_margin | apply section_video_prompts_margin].
Qed.

Lemma report_margin (E : env) (p a : dict) (images : option (list bytes))
    (video_prompts : option (list pystr)) (ops : list op) :
  a <> [] ->
  create_pdf_report E p (Some a) images video_prompts = Ok ops ->
  exists y wc,
    cover E p = Ok (y, wc) /\
    left_margin ops =
      (left_margin wc ++ map Line section_titles ++ images_outline images
       ++ prompts_outline video_prompts)%list.
Proof.
  intros Ha H. unfold create_pdf_report in H.
  destruct a as [|kv a]; [congruence|].
  match type of H with
  | match ?m with _ => _ end = _ => destruct m as [[u w]|e] eqn:Hrun; [|discriminate]
  end.
  injection H as <-.
  apply bind_Ok_inv in Hrun as (y & wc & w1 & Hc & Hrun & ->).
  apply bind_Ok_inv in Hrun as (y' & ws & w2 & Hs & Hsave & ->).
  injection Hsave as _ <-.
  apply sections_margin in Hs.
  exists y, wc. split; [exact Hc|].
  unfold left_margin. rewrite !flat_map_app, Hs. simpl. now rewrite !app_nil_r.
Qed.

(* ================================================================== *)
(** ** A mapping without the section keys *)

Lemma bind_ext (A B : Type) (m : M A) (f g : A -> M B) :
  (forall a, f a = g a) -> bind m f = bind m g.
Proof. intros H. destruct m as [[a w]|e]; simpl; [rewrite H|]; reflexivity. Qed.

Lemma chain_Ok (A B : Type) (m : M A) (f : A -> M B) (a : A) (b : B)
    (w1 w2 : list op) :
  m = Ok (a, w1) -> f a = Ok (b, w2) -> bind m f = Ok (b, (w1 ++ w2)%list).
Proof. intros -> H. simpl. now rewrite H. Qed.

Lemma if_in_absent (d : dict) (k : pystr) (body : pyval -> float -> M float)
    (y : float) :
  Py.lookup k d = None -> if_in (PDict d) k body y = ret y.
Proof. intros H. unfold if_in, Py.contains. now rewrite H. Qed.

Lemma section_absent (E : env) (k t : pystr) (f : dict -> float -> M float)
    (a : dict) (y : float) :
  In (k, t, f) (section_table E) -> Py.lookup k a = None ->
  f a y = add_heading E y t 16.
Proof.
  intros Hin Hk. unfold section_table in Hin. cbn [In] in Hin.
  repeat destruct Hin as [Hin|Hin]; try contradiction;
    injection Hin as <- <- <-;
    (etransitivity;
     [apply bind_ext; intros y'; apply if_in_absent; exact Hk
     |apply bind_ret_r]).
Qed.

Lemma section_table_keys (E : env) (k t : pystr)
    (f : dict -> float -> M float) :
  In (k, t, f) (section_table E) -> In k section_keys.
Proof.
  intros Hin.
  assert (Hk : map (fun x => fst (fst x)) (section_table E) = section_keys)
    by (vm_compute; reflexivity).
  rewrite <- Hk. exact (in_map (fun x => fst (fst x)) _ _ Hin).
Qed.

Lemma add_heading_fits (E : env) (y : float) (t : pystr) (size : Z) :
  (y <? 100)%float = false ->
  add_heading E y t size =
  Ok ((y - fl (size + 15))%float,
      [SetFont (font_name E) size; DrawString 50 y (PyStr.slice_to 90 t)]).
Proof. intros H. unfold add_heading. now rewrite H. Qed.

Lemma break_if_low_high (y : float) :
  (y <? 150)%float = false -> break_if_low y = Ok (y, []).
Proof. intros H. unfold break_if_low. now rewrite H. Qed.

Lemma numbered_sections_bare (E : env) (a : dict) :
  lacks_all_sections a ->
  numbered_sections E a = Ok (below_bare_headings, bare_headings E).
Proof.
  intros Ha.
  enough (H : exists r, numbered_sections E a = Ok r /\
                        r = (below_bare_headings, bare_headings E))
    by (destruct H as (r & -> & ->); reflexivity).
  assert (Hs : forall k t f y, In (k, t, f) (section_table E) ->
                 (y <? 100)%float = false ->
                 f a y = Ok ((y - fl (16 + 15))%float,
                             [SetFont (font_name E) 16;
                              DrawString 50 y (PyStr.slice_to 90 t)])).
  { intros k t f y Hin Hy. rewrite (@section_absent E k t f a y Hin).
    - now apply add_heading_fits.
    - apply Ha. exact (@section_table_keys E k t f Hin). }
  eexists. split.
  - unfold numbered_sections.
    eapply chain_Ok; [reflexivity|]. cbv beta.
    repeat (eapply chain_Ok;
            [ first [ apply break_if_low_high; vm_compute; reflexivity
                    | eapply Hs;
                      [unfold section_table; cbn [In]; tauto
                      |vm_compute; reflexivity] ]
            | cbv beta ]).
    eapply Hs; [unfold section_table; cbn [In]; tauto | vm_compute; reflexivity].
  - vm_compute. reflexivity.
Qed.

(* ================================================================== *)
(** ** The document as a whole *)

Lemma report_missing (E : env) (p : dict) (analysis : option dict)
    (images : option (list bytes)) (video_prompts : option (list pystr)) :
  subject_record p -> analysis = None \/ analysis = Some [] ->
  create_pdf_report E p analysis images video_prompts =
  Ok (cover_block E p ++ [Save])%list.
Proof.
  intros Hp Ha. unfold create_pdf_report. cbv zeta.
  erewrite chain_Ok; [reflexivity | exact (@cover_ok E p Hp) |].
  destruct Ha as [-> | ->]; reflexivity.
Qed.

Lemma report_Ok (E : env) (p a : dict) (images : option (list bytes))
    (video_prompts : option (list pystr)) (y y7 y8 y9 : float)
    (wc w7 w8 w9 : list op) :
  a <> [] ->
  cover E p = Ok (y, wc) ->
  numbered_sections E a = Ok (y7, w7) ->
  section_images E images (y7 - 15)%float = Ok (y8, w8) ->
  section_video_prompts E video_prompts y8 = Ok (y9, w9) ->
  create_pdf_report E p (Some a) images video_prompts =
  Ok (wc ++ w7 ++ w8 ++ w9 ++ [Save])%list.
Proof.
  intros Ha Hc H7 H8 H9. destruct a as [|kv a]; [congruence|].
  unfold create_pdf_report. cbv zeta.
  erewrite chain_Ok; [| exact Hc |].
  2:{ eapply chain_Ok; [|reflexivity]. unfold sections.
      eapply chain_Ok; [exact H7|]. eapply chain_Ok; [exact H8 | exact H9]. }
  now rewrite <- !app_assoc.
Qed.

Lemma report_inv (E : env) (p a : dict) (images : option (list bytes))
    (video_prompts : option (list pystr)) (ops : list op) :
  a <> [] ->
  create_pdf_report E p (Some a) images video_prompts = Ok ops ->
  exists y wc y7 w7 y8 w8 y9 w9,
    cover E p = Ok (y, wc) /\
    numbered_sections E a = Ok (y7, w7) /\
    section_images E images (y7 - 15)%float = Ok (y8, w8) /\
    section_video_prompts E video_prompts y8 = Ok (y9, w9) /\
    ops = (wc ++ w7 ++ w8 ++ w9 ++ [Save])%list.
Proof.
  intros Ha H. unfold create_pdf_report in H.
  destruct a as [|kv a]; [congruence|].
  match type of H with
  | match ?m with _ => _ end = _ =>
      destruct m as [[u w]|e] eqn:Hrun; [|discriminate]
  end.
  injection H as <-.
  apply bind_Ok_inv in Hrun as (y & wc & w1 & Hc & Hrun & ->).
  apply bind_Ok_inv in Hrun as (y' & ws & w2 & Hs & Hsave & ->).
  injection Hsave as _ <-. unfold sections in Hs.
  apply bind_Ok_inv in Hs as (y7 & w7 & w' & H7 & Hs & ->).
  apply bind_Ok_inv in Hs as (y8 & w8 & w9 & H8 & H9 & ->).
  exists y, wc, y7, w7, y8, w8, y', w9.
  repeat split; try assumption. now rewrite <- !app_assoc.
Qed.

Lemma numbered_sections_start (E : env) (a : dict) (y : float) (w : list op) :
  numbered_sections E a = Ok (y, w) -> exists w', w = ShowPage :: w'.
Proof.
  unfold numbered_sections. intros H.
  apply bind_Ok_inv in H as (y0 & w0 & w1 & H0 & _ & ->).
  injection H0 as _ <-. now exists w1.
Qed.

Lemma numbered_titles_head (t : pystr) :
  In t numbered_titles -> (hd 0 t < 100)%N.
Proof.
  unfold numbered_titles, section_titles. cbn [In app].
  intros H. repeat destruct H as [<-|H]; try contradiction; reflexivity.
Qed.

Lemma cover_block_head (E : env) (p : dict) (t : pystr) :
  In t (texts (cover_block E p ++ [Save])) -> (100 < hd 0 t)%N.
Proof.
  unfold cover_block, texts. cbn [In app flat_map text_of].
  intros H. repeat destruct H as [<-|H]; try contradiction; reflexivity.
Qed.

Lemma cover_block_plain (E : env) (p : dict) :
  (cover_block E p ++ [Save])%list <> [] /\
  ~ In ShowPage (cover_block E p ++ [Save]) /\
  (forall t, In t numbered_titles ->
             ~ In t (texts (cover_block E p ++ [Save]))).
Proof.
  split; [discriminate|]. split.
  - unfold cover_block. cbn [In app]. intuition discriminate.
  - intros t Hn Hc. apply numbered_titles_head in Hn.
    apply cover_block_head in Hc. lia.
Qed.

Lemma sample_policy_is_subject : subject_record Sample.policy.
Proof. split; eexists; reflexivity. Qed.

Lemma sample_other_lacks_all : lacks_all_sections Sample.analysis_other.
Proof.
  intros k Hk. unfold section_keys in Hk. cbn [In] in Hk.
  repeat destruct Hk as [<-|Hk]; try contradiction; reflexivity.
Qed.

(* ================================================================== *)
(** ** Claims about the sections of the report *)

(** C6: with [analysis = None] the renderer returns, for every subject
    record, image list and text-block list, exactly the cover block followed
    by [save]: a non-empty one-page document on which none of the numbered
    headings is drawn. *)
Theorem absent_analysis_cover_only (E : env) (p : dict)
    (images : option (list bytes)) (video_prompts : option (list pystr)) :
  subject_record p ->
  exists ops,
    create_pdf_report E p None images video_prompts = Ok ops /\
    ops = (cover_block E p ++ [Save])%list /\
    ops <> [] /\
    ~ In ShowPage ops /\
    (forall t, In t numbered_titles -> ~ In t (texts ops)).
Proof.
  intros Hp. exists (cover_block E p ++ [Save])%list.
  split; [apply report_missing; auto|]. split; [reflexivity|].
  apply cover_block_plain.
Qed.

Lemma absent_analysis_cover_only_witness :
  subject_record Sample.policy /\
  exists ops,
    create_pdf_report Sample.env_cid Sample.policy None
      (Some [Sample.png x01; Sample.corrupt]) (Some [lit "scene one"]) = Ok ops /\
    ops = (cover_block Sample.env_cid Sample.policy ++ [Save])%list /\
    ops <> [] /\
    ~ In ShowPage ops /\
    (forall t, In t numbered_titles -> ~ In t (texts ops)).
Proof.
  split; [exact sample_policy_is_subject|].
  exact (@absent_analysis_cover_only Sample.env_cid Sample.policy
           (Some [Sample.png x01; Sample.corrupt]) (Some [lit "scene one"])
           sample_policy_is_subject).
Defined.

(** C10: the empty mapping is rendered as [None] is, cover only; every
    non-empty mapping takes the section path: a new page is started and the
    seven numbered headings stand on the left margin, also when the mapping
    has none of the seven keys, in which case the call does return. *)
Theorem empty_mapping_like_none (E : env) (p : dict)
    (images : option (list bytes)) (video_prompts : option (list pystr)) :
  create_pdf_report E p (Some []) images video_prompts =
    create_pdf_report E p None images video_prompts /\
  (subject_record p ->
   create_pdf_report E p (Some []) images video_prompts =
     Ok (cover_block E p ++ [Save])%list) /\
  (forall a ops,
     a <> [] ->
     create_pdf_report E p (Some a) images video_prompts = Ok ops ->
     In ShowPage ops /\
     exists pre post,
       left_margin ops = (pre ++ map Line section_titles ++ post)%list) /\
  (forall a,
     subject_record p -> a <> [] -> lacks_all_sections a ->
     exists ops, create_pdf_report E p (Some a) images video_prompts = Ok ops).
Proof.
  split; [reflexivity|]. split; [intros Hp; apply report_missing; auto|]. split.
  - intros a ops Ha H. split.
    + destruct (@report_inv E p a images video_prompts ops Ha H)
        as (y & wc & y7 & w7 & y8 & w8 & y9 & w9 & _ & H7 & _ & _ & ->).
      apply numbered_sections_start in H7 as (w' & ->).
      apply in_or_app. right. now left.
    + destruct (@report_margin E p a images video_prompts ops Ha H)
        as (y & wc & _ & Hm).
      rewrite Hm. eauto.
  - intros a Hp Ha Hl.
    destruct (section_images_margin E images (below_bare_headings - 15)%float)
      as (y8 & w8 & H8 & _).
    destruct (section_video_prompts_margin E video_prompts y8)
      as (y9 & w9 & H9 & _).
    eexists.
    exact (@report_Ok E p a images video_prompts _ _ _ _ _ _ _ _ Ha
             (@cover_ok E p Hp) (@numbered_sections_bare E a Hl) H8 H9).
Qed.

Lemma empty_mapping_like_none_witness :
  exists ops,
    create_pdf_report Sample.env_cid Sample.policy (Some Sample.analysis_other)
      None None = Ok ops /\
    In ShowPage ops /\
    exists pre post,
      left_margin ops = (pre ++ map Line section_titles ++ post)%list.
Proof.
  destruct (empty_mapping_like_none Sample.env_cid Sample.policy None None)
    as (_ & _ & Hpath & Hret).
  destruct (Hret Sample.analysis_other sample_policy_is_subject
              ltac:(discriminate) sample_other_lacks_all) as (ops & Hops).
  exists ops. split; [exact Hops|].
  exact (Hpath Sample.analysis_other ops ltac:(discriminate) Hops).
Defined.

(** C1 as the code has it: for a mapping without any of the seven section
    keys the renderer raises nothing and returns a non-empty document; the
    empty mapping gives the cover block alone, a non-empty one gives the
    cover block, a page break and the seven numbered headings with nothing
    under them, followed by the image and text-block sections. *)
Theorem missing_sections_bare_headings (E : env) (p a : dict)
    (images : option (list bytes)) (video_prompts : option (list pystr)) :
  subject_record p -> lacks_all_sections a ->
  exists ops,
    create_pdf_report E p (Some a) images video_prompts = Ok ops /\
    ops <> [] /\
    (a = [] -> ops = (cover_block E p ++ [Save])%list) /\
    (a <> [] ->
     exists y8 w8 y9 w9,
       section_images E images (below_bare_headings - 15)%float = Ok (y8, w8) /\
       section_video_prompts E video_prompts y8 = Ok (y9, w9) /\
       ops = (cover_block E p ++ bare_headings E ++ w8 ++ w9 ++ [Save])%list).
Proof.
  intros Hp Hl. destruct a as [|kv a].
  - exists (cover_block E p ++ [Save])%list.
    split; [apply report_missing; auto|]. split; [discriminate|].
    split; [reflexivity | congruence].
  - destruct (section_images_margin E images (below_bare_headings - 15)%float)
      as (y8 & w8 & H8 & _).
    destruct (section_video_prompts_margin E video_prompts y8)
      as (y9 & w9 & H9 & _).
    eexists. split.
    + exact (@report_Ok E p (kv :: a) images video_prompts _ _ _ _ _ _ _ _
               ltac:(discriminate) (@cover_ok E p Hp)
               (@numbered_sections_bare E (kv :: a) Hl) H8 H9).
    + split; [discriminate|]. split; [discriminate|].
      intros _. exists y8, w8, y9, w9. auto.
Qed.

Lemma missing_sections_bare_headings_witness :
  subject_record Sample.policy /\ lacks_all_sections Sample.analysis_other /\
  exists ops,
    create_pdf_report Sample.env_cid Sample.policy (Some Sample.analysis_other)
      None None = Ok ops /\
    ops <> [].
Proof.
  split; [exact sample_policy_is_subject|].
  split; [exact sample_other_lacks_all|].
  destruct (@missing_sections_bare_headings Sample.env_cid Sample.policy
              Sample.analysis_other None None
              sample_policy_is_subject sample_other_lacks_all)
    as (ops & Hops & Hne & _).
  exists ops. auto.
Defined.

(** C1 as written fails: the mapping [{"summary": "n/a"}] has none of the
    seven keys, and the document carries all seven numbered headings after
    the five cover lines. *)
Lemma missing_sections_counterexample :
  lacks_all_sections Sample.analysis_other /\
  exists ops,
    create_pdf_report Sample.env_cid Sample.policy (Some Sample.analysis_other)
      None None = Ok ops /\
    texts ops =
      [lit "정책 보고서"; lit "제목: Clean Air Policy"; lit "카테고리: Environment";
       lit "대상: Citizens"; lit "생성일: 2024-01-01T00:00:00";
       lit "1. 정책 기획"; lit "2. 실행 계획"; lit "3. 커뮤니케이션 전략";
       lit "4. 콘텐츠 제작 브리프"; lit "5. 마케팅 자료"; lit "6. 성과 지표 (KPI)";
       lit "7. 이해관계자 관리"].
Proof.
  split; [exact sample_other_lacks_all|].
  eexists. split; [vm_compute; reflexivity | vm_compute; reflexivity].
Qed.





(* ================================================================== *)
(** ** Claims about the embedded images *)

Lemma pictures_lines (l : list pystr) : flat_map picture_in (map Line l) = [].
Proof. induction l as [|t l IH]; simpl; auto. Qed.

Lemma pictures_images_outline (images : option (list bytes)) :
  flat_map picture_in (images_outline images) = [].
Proof. now destruct images as [[|b l]|]. Qed.

Lemma pictures_prompts_outline (video_prompts : option (list pystr)) :
  flat_map picture_in (prompts_outline video_prompts) = [].
Proof. now destruct video_prompts as [[|t l]|]. Qed.

(** What [cover] draws when it returns. *)
Lemma cover_inv (E : env) (p : dict) (y : float) (wc : list op) :
  cover E p = Ok (y, wc) ->
  exists title category target created,
    wc = [SetFont (font_name E) 24;
          DrawString 50 (height - 50)%float (lit "정책 보고서");
          SetFont (font_name E) 14;
          DrawString 50 (height - 50 - 50)%float (lit "제목: " ++ title)%list;
          SetFont (font_name E) 11;
          DrawString 50 (height - 50 - 50 - 25)%float
            (lit "카테고리: " ++ category)%list;
          DrawString 50 (height - 50 - 50 - 25 - 20)%float
            (lit "대상: " ++ target)%list;
          DrawString 50 (height - 50 - 50 - 25 - 20 - 20)%float
            (lit "생성일: " ++ created)%list].
Proof.
  unfold cover. intros H.
  repeat match type of H with
         | bind (lift _) _ = Ok _ => apply bind_lift_inv in H as (? & _ & H)
         | bind (emit _) _ = Ok _ =>
             let Hm := fresh "Hm" in
             apply bind_Ok_inv in H as (? & ? & ? & Hm & H & ->);
             injection Hm as _ <-
         end.
  injection H as _ <-. do 4 eexists. reflexivity.
Qed.

Lemma cover_no_pictures (E : env) (p : dict) (y : float) (wc : list op) :
  cover E p = Ok (y, wc) -> pictures wc = [].
Proof.
  intros H. destruct (cover_inv E p H) as (t & c & g & d & ->). reflexivity.
Qed.

(** Adding images to a call that renders gives a call that renders. *)
Lemma images_add_no_failure (E : env) (p a : dict) (imgs : list bytes)
    (video_prompts : option (list pystr)) (ops0 : list op) :
  a <> [] ->
  create_pdf_report E p (Some a) None video_prompts = Ok ops0 ->
  exists ops,
    create_pdf_report E p (Some a) (Some imgs) video_prompts = Ok ops.
Proof.
  intros Ha H0.
  destruct (@report_inv E p a None video_prompts ops0 Ha H0)
    as (y & wc & y7 & w7 & _ & _ & _ & _ & Hc & H7 & _ & _ & _).
  destruct (section_images_margin E (Some imgs) (y7 - 15)%float)
    as (y8 & w8 & H8 & _).
  destruct (section_video_prompts_margin E video_prompts y8)
    as (y9 & w9 & H9 & _).
  eexists.
  exact (@report_Ok E p a (Some imgs) video_prompts _ _ _ _ _ _ _ _ Ha Hc H7 H8 H9).
Qed.

Lemma report_pictures (E : env) (p a : dict) (images : option (list bytes))
    (video_prompts : option (list pystr)) (ops : list op) :
  a <> [] ->
  create_pdf_report E p (Some a) images video_prompts = Ok ops ->
  pictures ops = [].
Proof.
  intros Ha H.
  destruct (@report_margin E p a images video_prompts ops Ha H)
    as (y & wc & Hc & Hm).
  unfold pictures. rewrite Hm, !flat_map_app.
  fold (pictures wc). rewrite (cover_no_pictures E p Hc).
  now rewrite pictures_lines, pictures_images_outline,
    pictures_prompts_outline.
Qed.

Lemma margin_line_initial (E : env) (p a : dict) (images : option (list bytes))
    (video_prompts : option (list pystr)) (ops : list op) (t : pystr) :
  a <> [] ->
  create_pdf_report E p (Some a) images video_prompts = Ok ops ->
  In (Line t) (left_margin ops) -> hd 0%N t <> caption_initial.
Proof.
  intros Ha H Hin.
  destruct (@report_margin E p a images video_prompts ops Ha H)
    as (y & wc & Hc & Hm).
  rewrite Hm in Hin. clear Hm H.
  destruct (cover_inv E p Hc) as (ti & ca & ta & cr & ->).
  assert (Hs : forall l, In (Line t) (map Line l) -> In t l).
  { intros l Hl. apply in_map_iff in Hl as (t' & Ht & Hl). now injection Ht as <-. }
  apply in_app_or in Hin as [Hin|Hin];
    [|apply in_app_or in Hin as [Hin|Hin];
      [apply Hs in Hin|apply in_app_or in Hin as [Hin|Hin]]].
  - cbn in Hin.
    repeat destruct Hin as [Hin|Hin]; try contradiction;
      injection Hin as <-; vm_compute; discriminate.
  - unfold section_titles in Hin. cbn [In] in Hin.
    repeat destruct Hin as [<-|Hin]; try contradiction; vm_compute; discriminate.
  - destruct images as [[|b l]|]; cbn in Hin; try contradiction.
    destruct Hin as [Hin|[]]. injection Hin as <-. vm_compute. discriminate.
  - destruct video_prompts as [[|b l]|]; cbn in Hin; try contradiction.
    destruct Hin as [Hin|[]]. injection Hin as <-. vm_compute. discriminate.
Qed.

(** C3 on the code: no image is ever drawn.  Whenever the renderer returns,
    no [drawImage] call is among its canvas calls, whatever the blobs are;
    the [try] block of the image loop raises at its first statement for
    every blob, see [ImageReader].  Images still abort no document: a call
    that renders without images renders with any image sequence. *)
Theorem no_image_is_drawn (E : env) (p : dict) (analysis : option dict)
    (images : option (list bytes)) (video_prompts : option (list pystr)) :
  (forall ops,
     create_pdf_report E p analysis images video_prompts = Ok ops ->
     pictures ops = [] /\
     forall img x y w h, ~ In (DrawImage img x y w h) ops) /\
  (forall a imgs ops0,
     a <> [] ->
     create_pdf_report E p (Some a) None video_prompts = Ok ops0 ->
     exists ops,
       create_pdf_report E p (Some a) (Some imgs) video_prompts = Ok ops).
Proof.
  split.
  - intros ops H.
    assert (Hp : pictures ops = []).
    { destruct analysis as [[|kv a]|].
      - destruct (cover E p) as [[y wc]|e] eqn:Hc;
          unfold create_pdf_report in H; cbv zeta in H; rewrite Hc in H;
          [|discriminate].
        cbn in H. injection H as <-. unfold pictures, left_margin.
        rewrite !flat_map_app. fold (left_margin wc). fold (pictures wc).
        rewrite (cover_no_pictures E p Hc). reflexivity.
      - apply (@report_pictures E p (kv :: a) images video_prompts ops);
          [discriminate | exact H].
      - destruct (cover E p) as [[y wc]|e] eqn:Hc;
          unfold create_pdf_report in H; cbv zeta in H; rewrite Hc in H;
          [|discriminate].
        cbn in H. injection H as <-. unfold pictures, left_margin.
        rewrite !flat_map_app. fold (left_margin wc). fold (pictures wc).
        rewrite (cover_no_pictures E p Hc). reflexivity. }
    split; [exact Hp|]. intros img x y w h Hin.
    assert (Hi : In img (pictures ops)).
    { unfold pictures, left_margin. apply in_flat_map.
      exists (Picture img). split; [|now left].
      apply in_flat_map. exists (DrawImage img x y w h). split; [exact Hin|].
      now left. }
    rewrite Hp in Hi. exact Hi.
  - intros a imgs ops0 Ha H0.
    exact (@images_add_no_failure E p a imgs video_prompts ops0 Ha H0).
Qed.

Lemma no_image_is_drawn_witness :
  exists ops,
    create_pdf_report Sample.env_cid Sample.policy
      (Some Sample.analysis_objective)
      (Some [Sample.png x01; Sample.corrupt; Sample.png x03]) None = Ok ops /\
    pictures ops = [] /\
    forall img x y w h, ~ In (DrawImage img x y w h) ops.
Proof.
  destruct (no_image_is_drawn Sample.env_cid Sample.policy
              (Some Sample.analysis_objective)
              (Some [Sample.png x01; Sample.corrupt; Sample.png x03]) None)
    as [H _].
  eexists. split; [vm_compute; reflexivity|].
  apply H. vm_compute. reflexivity.
Defined.

(** C4 on the code: no image and no caption.  When a non-empty analysis
    renders without images, it renders with every image sequence, and under
    the heading of section 8 the left margin holds nothing: no image is
    drawn, and no line of the left margin is a caption, whatever the number
    of blobs. *)
Theorem no_caption_is_drawn (E : env) (p a : dict) (imgs : list bytes)
    (video_prompts : option (list pystr)) (ops0 : list op) :
  a <> [] ->
  create_pdf_report E p (Some a) None video_prompts = Ok ops0 ->
  exists ops y wc,
    create_pdf_report E p (Some a) (Some imgs) video_prompts = Ok ops /\
    cover E p = Ok (y, wc) /\
    left_margin ops =
      (left_margin wc ++ map Line section_titles ++
       match imgs with
       | [] => []
       | _ => [Line (lit "8. 생성된 이미지")]
       end ++ prompts_outline video_prompts)%list /\
    (forall img, ~ In (Picture img) (left_margin ops)) /\
    (forall idx, ~ In (Line (caption idx)) (left_margin ops)).
Proof.
  intros Ha H0.
  destruct (@images_add_no_failure E p a imgs video_prompts ops0 Ha H0)
    as (ops & H).
  destruct (@report_margin E p a (Some imgs) video_prompts ops Ha H)
    as (y & wc & Hc & Hm).
  exists ops, y, wc. split; [exact H|]. split; [exact Hc|].
  split; [exact Hm|]. split.
  - intros img Hin.
    assert (Hi : In img (pictures ops)).
    { unfold pictures. apply in_flat_map. exists (Picture img).
      split; [exact Hin | now left]. }
    now rewrite (@report_pictures E p a (Some imgs) video_prompts ops Ha H) in Hi.
  - intros idx Hin.
    apply (@margin_line_initial E p a (Some imgs) video_prompts ops _ Ha H Hin).
    reflexivity.
Qed.

Lemma no_caption_is_drawn_witness :
  exists ops y wc,
    create_pdf_report Sample.env_cid Sample.policy
      (Some Sample.analysis_objective)
      (Some [Sample.png x01; Sample.png x02; Sample.png x03; Sample.png x04;
             Sample.png x05]) None = Ok ops /\
    cover Sample.env_cid Sample.policy = Ok (y, wc) /\
    left_margin ops =
      (left_margin wc ++ map Line section_titles ++
       [Line (lit "8. 생성된 이미지")] ++ prompts_outline None)%list /\
    (forall img, ~ In (Picture img) (left_margin ops)) /\
    (forall idx, ~ In (Line (caption idx)) (left_margin ops)).
Proof.
  exact (@no_caption_is_drawn Sample.env_cid Sample.policy
           Sample.analysis_objective
           [Sample.png x01; Sample.png x02; Sample.png x03; Sample.png x04;
            Sample.png x05] None _
           ltac:(discriminate) ltac:(vm_compute; reflexivity)).
Defined.


(* ================================================================== *)
(** ** Claims about the capped lists *)

Lemma wrap_lines_short (t : pystr) (L : nat) :
  0 < length t <= L -> L <= 400 -> wrap_lines t L = [t].
Proof.
  intros Ht HL. rewrite wrap_lines_chunks, Nat.min_l by lia.
  replace ((length t + L - 1) / L) with 1.
  - cbn [seq map]. now rewrite Nat.mul_0_l, firstn_all2 by (simpl; lia).
  - apply Nat.div_unique with (r := length t - 1); lia.
Qed.

Lemma in_enumerate (A : Type) (l : list A) (n i : nat) (x : A) :
  In (i, x) (Py.enumerate n l) -> In x l.
Proof.
  revert n. induction l as [|a l IH]; intros n; simpl; [tauto|].
  intros [H|H]; [left; congruence | right; eauto].
Qed.

Lemma length_enumerate (A : Type) (l : list A) (n : nat) :
  length (Py.enumerate n l) = length l.
Proof. revert n. induction l as [|a l IH]; intros n; simpl; auto. Qed.

Lemma pystr_eqb_eq (s t : pystr) : PyStr.eqb s t = true <-> s = t.
Proof.
  revert t. induction s as [|a s IH]; intros [|b t]; simpl;
    try (split; [discriminate | congruence]); [tauto|].
  unfold char_eqb. rewrite andb_true_iff, N.eqb_eq, IH.
  split; [intros [-> ->]; reflexivity | intros H; injection H; auto].
Qed.

Lemma pystr_eqb_refl (s : pystr) : PyStr.eqb s s = true.
Proof. now apply pystr_eqb_eq. Qed.

Lemma pystr_eqb_neq (s t : pystr) : s <> t -> PyStr.eqb s t = false.
Proof.
  intros H. destruct (PyStr.eqb s t) eqn:E; [|reflexivity].
  now apply pystr_eqb_eq in E.
Qed.

Section ItemTexts.

Variable E : env.

Lemma entry_get (d : dict) (k : pystr) :
  Py.get (PDict d) k (PStr []) = Ok (entry (PDict d) k).
Proof. reflexivity. Qed.

Lemma numbered_item_texts idx s y :
  any_item s -> yields text_of (numbered_item E idx s y) (numbered_lines E idx s).
Proof. intros _. apply add_text_texts. Qed.

Lemma bullet_item_texts idx o y :
  any_item o -> yields text_of (bullet_item E idx o y) (bullet_lines E idx o).
Proof. intros _. apply add_text_texts. Qed.

Lemma action_item_texts idx x y :
  is_dict x -> yields text_of (action_item E idx x y) (action_lines E idx x).
Proof.
  intros [d ->]. unfold action_item.
  eapply yields_bind_lift; [apply entry_get|]. apply add_text_texts.
Qed.

Lemma channel_item_texts idx x y :
  is_dict x -> yields text_of (channel_item E idx x y) (channel_lines E idx x).
Proof.
  intros [d ->]. unfold channel_item.
  eapply yields_bind_lift; [apply entry_get|].
  eapply yields_bind_lift; [apply entry_get|]. apply add_text_texts.
Qed.

Lemma post_item_texts idx x y :
  is_dict x -> yields text_of (post_item E idx x y) (post_lines E idx x).
Proof.
  intros [d ->]. unfold post_item.
  eapply yields_bind_lift; [apply entry_get|].
  eapply yields_bind_lift; [apply entry_get|]. apply add_text_texts.
Qed.

Lemma stakeholder_item_texts idx x y :
  is_dict x ->
  yields text_of (stakeholder_item E idx x y) (stakeholder_lines E idx x).
Proof.
  intros [d ->]. unfold stakeholder_item.
  eapply yields_bind_lift; [apply entry_get|].
  eapply yields_bind_lift; [apply entry_get|]. apply add_text_texts.
Qed.

Lemma objection_item_texts idx x y :
  is_dict x ->
  yields text_of (objection_item E idx x y) (objection_lines E idx x).
Proof.
  intros [d ->]. unfold objection_item, objection_lines.
  eapply yields_bind_lift; [apply entry_get|].
  apply yields_bind; [apply add_text_texts | intros y1].
  eapply yields_bind_lift; [apply entry_get|]. apply add_text_texts.
Qed.

Lemma kpi_item_texts idx x y :
  is_dict x -> yields text_of (kpi_item E idx x y) (kpi_lines E idx x).
Proof.
  intros [d ->]. unfold kpi_item, kpi_lines.
  eapply yields_bind_lift; [apply entry_get|].
  apply yields_bind; [apply add_text_texts | intros y1].
  unfold if_get, Py.get, Py.index.
  destruct (Py.lookup (lit "target_range") d) as [t|].
  - eapply yields_bind_lift; [reflexivity|].
    destruct (Py.truthy t); [|apply yields_ret].
    eapply yields_bind_lift; [reflexivity|]. apply add_text_texts.
  - eapply yields_bind_lift; [reflexivity|]. apply yields_ret.
Qed.

End ItemTexts.

Section TextOfSections.

Variable E : env.

Lemma label_text (y : float) (label : pystr) (size : Z) :
  0 < length label <= 85 ->
  yields text_of (add_text E y label size 60) [label].
Proof.
  intros Hl. pose proof (add_text_texts E y label size 60) as H.
  change (max_len_at 60) with 85 in H. now rewrite wrap_lines_short in H by lia.
Qed.

Lemma heading_text (y : float) (title : pystr) :
  length title <= 90 -> yields text_of (add_heading E y title 16) [title].
Proof.
  intros Hl. pose proof (yields_add_heading E text_of_blind y title 16) as H.
  cbn [text_of] in H. unfold PyStr.slice_to in H.
  now rewrite firstn_all2 in H.
Qed.

Lemma if_get_text (d : dict) (k : pystr) (body : pyval -> float -> M float)
    (lines : pyval -> list pystr) (y : float) :
  (forall v y, Py.lookup k d = Some v -> Py.truthy v = true ->
               yields text_of (body v y) (lines v)) ->
  yields text_of (if_get (PDict d) k body y)
         (present k (fun v => if Py.truthy v then lines v else []) d).
Proof.
  intros H. unfold if_get, present. cbn [Py.get Py.index].
  destruct (Py.lookup k d) as [v|] eqn:Hk.
  - eapply yields_bind_lift; [reflexivity|].
    destruct (Py.truthy v) eqn:Ht; [|apply yields_ret].
    eapply yields_bind_lift; [reflexivity|]. now apply H.
  - eapply yields_bind_lift; [reflexivity|]. apply yields_ret.
Qed.

Lemma if_in_text (d : dict) (k : pystr) (body : pyval -> float -> M float)
    (lines : pyval -> list pystr) (y : float) :
  (forall v y, Py.lookup k d = Some v -> yields text_of (body v y) (lines v)) ->
  yields text_of (if_in (PDict d) k body y) (present k lines d).
Proof.
  intros H. unfold if_in, present. cbn [Py.contains Py.index].
  destruct (Py.lookup k d) as [v|] eqn:Hk.
  - eapply yields_bind_lift; [reflexivity|].
    eapply yields_bind_lift; [reflexivity|]. now apply H.
  - eapply yields_bind_lift; [reflexivity|]. apply yields_ret.
Qed.

Lemma stated_text (prefix key : pystr) (size indent : Z) (sec : dict) (y : float) :
  yields text_of
    (if_get (PDict sec) key
       (fun v y => add_text E y (prefix ++ py_str E v)%list size indent) y)
    (stated E prefix key indent sec).
Proof.
  unfold stated. fold (present key
    (fun v => if Py.truthy v
              then wrap_lines (prefix ++ py_str E v) (max_len_at indent)
              else []) sec).
  apply if_get_text. intros v y1 _ _. apply add_text_texts.
Qed.

Lemma listed_text (field label : pystr) (cap : nat)
    (body : nat -> pyval -> float -> M float) (ok : pyval -> bool)
    (item_lines : nat -> pyval -> list pystr) (sec : dict) (y : float) :
  0 < length label <= 85 ->
  list_field ok cap sec field = true ->
  (forall idx x y, ok x = true ->
                   yields text_of (body idx x y) (item_lines idx x)) ->
  yields text_of (list_block E field label cap body (PDict sec) y)
         (listed field label cap item_lines sec).
Proof.
  intros Hl Hf Hb. unfold list_block, listed, if_get. cbn [Py.get Py.index].
  unfold list_field in Hf.
  destruct (Py.lookup field sec) as [v|] eqn:Hk.
  - eapply yields_bind_lift; [reflexivity|].
    destruct (Py.truthy v) eqn:Ht.
    + cbn [negb orb] in Hf. destruct v as [| | | | |items|]; try discriminate.
      destruct items as [|x items]; [discriminate|].
      eapply yields_bind_lift; [reflexivity|].
      change (?a :: ?l) with ([a] ++ l)%list at 2.
      apply yields_bind; [now apply label_text | intros y1].
      eapply yields_bind_lift; [reflexivity|].
      apply yields_for_each. intros [idx x'] y2 Hin. apply Hb.
      rewrite forallb_forall in Hf. apply Hf.
      exact (in_enumerate _ _ _ _ Hin).
    + destruct v as [| | | | |[|x items]|]; try apply yields_ret.
      discriminate.
  - eapply yields_bind_lift; [reflexivity|]. apply yields_ret.
Qed.

Lemma record_item (v : pyval) : is_record v = true -> is_dict v.
Proof. destruct v; try discriminate. intros _. eexists. reflexivity. Qed.

(** A section under its presence check. *)
Lemma section_text_yields (title key : pystr) (shape : dict -> bool)
    (body : pyval -> float -> M float) (lines : dict -> list pystr)
    (a : dict) (y : float) :
  length title <= 90 ->
  section_is shape a key = true ->
  (forall sec y, shape sec = true ->
                 yields text_of (body (PDict sec) y) (lines sec)) ->
  yields text_of (y <- add_heading E y title 16 ;; if_in (PDict a) key body y)
         (section_text title key lines a).
Proof.
  intros Hl Hs Hb. unfold section_text.
  change (title :: ?l) with ([title] ++ l)%list.
  apply yields_bind; [now apply heading_text | intros y1].
  unfold if_in. cbn [Py.contains Py.index]. unfold section_is in Hs.
  destruct (Py.lookup key a) as [v|] eqn:Hk.
  - destruct v as [| | | | | |sec]; try discriminate.
    eapply yields_bind_lift; [reflexivity|].
    eapply yields_bind_lift; [reflexivity|]. now apply Hb.
  - eapply yields_bind_lift; [reflexivity|]. apply yields_ret.
Qed.

End TextOfSections.

Ltac short_text := vm_compute; lia.

Section TextOfDocument.

Variable E : env.

Lemma image_brief_text_yields (label : pystr) (b : pyval) (y : float) :
  0 < length label <= 85 -> is_record b = true ->
  yields text_of (image_brief E label b y) (image_brief_text E label b).
Proof.
  intros Hl Hb. apply record_item in Hb as [d ->].
  unfold image_brief, image_brief_text.
  change (label :: ?l) with ([label] ++ l)%list.
  apply yields_bind; [now apply label_text | intros y1].
  eapply yields_bind_lift; [apply entry_get|].
  apply yields_bind; [apply add_text_texts | intros y2].
  eapply yields_bind_lift; [apply entry_get|]. apply add_text_texts.
Qed.

Lemma record_present (sec : dict) (k : pystr) (v : pyval) :
  record_if_present sec k = true -> Py.lookup k sec = Some v ->
  is_record v = true.
Proof. unfold record_if_present. intros H Hv. now rewrite Hv in H. Qed.

Lemma numbered_sections_text (a : dict) :
  well_formed a = true ->
  yields text_of (numbered_sections E a) (sections_text E a).
Proof.
  unfold well_formed. rewrite !andb_true_iff.
  intros ((((((H1 & H2) & H3) & H4) & H5) & H6) & H7).
  unfold numbered_sections, sections_text.
  apply yields_bind_quiet; [apply yields_new_page, text_of_blind | intros y0].
  apply yields_bind.
  { unfold section_policy_planning.
    eapply section_text_yields; [short_text | exact H1 |]. intros sec y.
    rewrite andb_true_iff. intros [Ha Hb].
    unfold planning_key_strategies, planning_expected_outcomes, planning_text.
    apply yields_bind; [apply stated_text | intros y1].
    apply yields_bind; [apply stated_text | intros y2].
    apply yields_bind; [|intros y3].
    - eapply listed_text; [short_text | exact Ha |].
      intros idx x y4 _. now apply numbered_item_texts.
    - eapply listed_text; [short_text | exact Hb |].
      intros idx x y4 _. now apply bullet_item_texts. }
  intros y1.
  apply yields_bind_quiet; [apply yields_break_if_low, text_of_blind | intros y1'].
  apply yields_bind.
  { unfold section_execution_plan.
    eapply section_text_yields; [short_text | exact H2 |]. intros sec y.
    rewrite andb_true_iff. intros [Ha Hb].
    unfold execution_action_items, execution_text.
    apply yields_bind; [|intros y2].
    - eapply listed_text; [short_text | exact Ha |].
      intros idx x y4 Hx. apply action_item_texts. now apply record_item.
    - apply if_get_text. intros v y3 Hv Ht.
      unfold record_if_truthy in Hb. rewrite Hv, Ht in Hb.
      apply record_item in Hb as [r ->]. unfold resources_text.
      change (?l :: ?t) with ([l] ++ t)%list.
      apply yields_bind; [apply label_text; short_text | intros y4].
      apply yields_bind; [apply stated_text | intros y5]. apply stated_text. }
  intros y2.
  apply yields_bind_quiet; [apply yields_break_if_low, text_of_blind | intros y2'].
  apply yields_bind.
  { unfold section_communication_strategy.
    eapply section_text_yields; [short_text | exact H3 |]. intros sec y.
    rewrite andb_true_iff. intros [Ha Hb].
    unfold comm_key_messages, comm_channels, communication_text.
    apply yields_bind; [|intros y3].
    - eapply listed_text; [short_text | exact Ha |].
      intros idx x y4 _. now apply numbered_item_texts.
    - eapply listed_text; [short_text | exact Hb |].
      intros idx x y4 Hx. apply channel_item_texts. now apply record_item. }
  intros y3.
  apply yields_bind_quiet; [apply yields_break_if_low, text_of_blind | intros y3'].
  apply yields_bind.
  { unfold section_content_briefs.
    eapply section_text_yields; [short_text | exact H4 |]. intros sec y.
    rewrite !andb_true_iff. intros [[Ha Hb] Hc]. unfold briefs_text.
    apply yields_bind; [|intros y4].
    { apply if_in_text. intros v y5 Hv.
      apply image_brief_text_yields; [short_text|].
      exact (@record_present sec _ v Ha Hv). }
    apply yields_bind; [|intros y5].
    { apply if_in_text. intros v y6 Hv.
      apply image_brief_text_yields; [short_text|].
      exact (@record_present sec _ v Hb Hv). }
    apply if_in_text. intros v y6 Hv.
    pose proof (@record_present sec _ v Hc Hv) as Hd.
    apply record_item in Hd as [d ->]. unfold video_brief_text.
    change (?l :: ?t) with ([l] ++ t)%list.
    apply yields_bind; [apply label_text; short_text | intros y7].
    eapply yields_bind_lift; [apply entry_get|]. apply add_text_texts. }
  intros y4.
  apply yields_bind_quiet; [apply yields_break_if_low, text_of_blind | intros y4'].
  apply yields_bind.
  { unfold section_marketing_materials.
    eapply section_text_yields; [short_text | exact H5 |]. intros sec y Ha.
    unfold marketing_social_media_posts, marketing_text.
    apply yields_bind; [apply stated_text | intros y5].
    apply yields_bind; [apply stated_text | intros y6].
    apply yields_bind; [apply stated_text | intros y7].
    eapply listed_text; [short_text | exact Ha |].
    intros idx x y8 Hx. apply post_item_texts. now apply record_item. }
  intros y5.
  apply yields_bind_quiet; [apply yields_break_if_low, text_of_blind | intros y5'].
  apply yields_bind.
  { unfold section_performance_metrics.
    eapply section_text_yields; [short_text | exact H6 |]. intros sec y.
    rewrite andb_true_iff. intros [Ha Hb].
    unfold metrics_kpi_framework, metrics_success_criteria, metrics_text.
    apply yields_bind; [|intros y6].
    - eapply listed_text; [short_text | exact Ha |].
      intros idx x y7 Hx. apply kpi_item_texts. now apply record_item.
    - eapply listed_text; [short_text | exact Hb |].
      intros idx x y7 _. now apply bullet_item_texts. }
  intros y6.
  apply yields_bind_quiet; [apply yields_break_if_low, text_of_blind | intros y6'].
  unfold section_stakeholder_management.
  eapply section_text_yields; [short_text | exact H7 |]. intros sec y.
  rewrite andb_true_iff. intros [Ha Hb].
  unfold stakeholder_stakeholders, stakeholder_objection_handling,
    stakeholders_text.
  apply yields_bind; [|intros y7].
  - eapply listed_text; [short_text | exact Ha |].
    intros idx x y8 Hx. apply stakeholder_item_texts. now apply record_item.
  - eapply listed_text; [short_text | exact Hb |].
    intros idx x y8 Hx. apply objection_item_texts. now apply record_item.
Qed.

Lemma section_images_text (images : option (list bytes)) (y : float) :
  yields text_of (section_images E images y) (images_text images).
Proof.
  destruct images as [[|b imgs]|]; try apply yields_ret.
  unfold section_images, images_text.
  apply yields_bind_quiet; [apply yields_break_if_low, text_of_blind|].
  intros y1. rewrite <- (app_nil_r [_]).
  apply yields_bind; [apply heading_text; short_text | intros y2].
  rewrite <- (flat_map_nil pystr (Py.enumerate 1 (firstn 4 (b :: imgs)))).
  apply yields_for_each. intros ix y3 _. unfold draw_image.
  apply yields_bind_quiet; [apply yields_break, text_of_blind | intros y4].
  unfold ImageReader. apply yields_ret.
Qed.

Lemma section_video_prompts_text (video_prompts : option (list pystr))
    (y : float) :
  yields text_of (section_video_prompts E video_prompts y)
         (prompts_text video_prompts).
Proof.
  destruct video_prompts as [[|t prompts]|]; try apply yields_ret.
  unfold section_video_prompts, prompts_text.
  apply yields_bind_quiet; [apply yields_new_page, text_of_blind | intros y1].
  change (?l :: ?r) with ([l] ++ r)%list.
  apply yields_bind; [apply heading_text; short_text | intros y2].
  apply yields_for_each. intros ix y3 _.
  apply yields_bind_quiet; [apply yields_break_if_low, text_of_blind | intros y4].
  apply yields_bind; [apply (add_text_texts E y4 _ 11 60) | intros y5].
  rewrite <- (app_nil_r (wrap_lines _ 90)).
  apply yields_bind; [apply (add_text_texts E y5 _ 9 70) | intros y6].
  apply yields_ret.
Qed.

Lemma report_text (p a : dict) (images : option (list bytes))
    (video_prompts : option (list pystr)) :
  subject_record p -> a <> [] -> well_formed a = true ->
  exists ops,
    create_pdf_report E p (Some a) images video_prompts = Ok ops /\
    texts ops = document_text E p a images video_prompts.
Proof.
  intros Hp Ha Hw.
  destruct (numbered_sections_text a Hw) as (y7 & w7 & H7 & T7).
  destruct (section_images_text images (y7 - 15)%float) as (y8 & w8 & H8 & T8).
  destruct (section_video_prompts_text video_prompts y8) as (y9 & w9 & H9 & T9).
  exists (cover_block E p ++ w7 ++ w8 ++ w9 ++ [Save])%list. split.
  - eapply report_Ok; [exact Ha | exact (cover_ok E Hp) | exact H7
                      | exact H8 | exact H9].
  - unfold document_text, texts. rewrite !flat_map_app.
    fold (texts (cover_block E p)).
    rewrite T7, T8, T9. cbn [flat_map text_of]. now rewrite app_nil_r.
Qed.

End TextOfDocument.

Lemma if_in_lookup (d d' : dict) (k : pystr) (body : pyval -> float -> M float)
    (y : float) :
  Py.lookup k d' = Py.lookup k d ->
  if_in (PDict d') k body y = if_in (PDict d) k body y.
Proof. intros H. unfold if_in, Py.contains, Py.index. now rewrite H. Qed.

Lemma if_get_lookup (d d' : dict) (k : pystr) (body : pyval -> float -> M float)
    (y : float) :
  Py.lookup k d' = Py.lookup k d ->
  if_get (PDict d') k body y = if_get (PDict d) k body y.
Proof. intros H. unfold if_get, Py.get, Py.index. now rewrite H. Qed.

Lemma if_in_found (d : dict) (k : pystr) (v : pyval)
    (body : pyval -> float -> M float) (y : float) :
  Py.lookup k d = Some v -> if_in (PDict d) k body y = body v y.
Proof.
  intros H. unfold if_in, Py.contains, Py.index. rewrite H.
  cbn [lift bind]. destruct (body v y) as [[y' w]|e]; reflexivity.
Qed.

(** The renderer does not read the risks. *)
Lemma numbered_sections_other_risks (E : env) (a a' : dict) :
  other_risks a a' -> numbered_sections E a' = numbered_sections E a.
Proof.
  intros (Hk & sec & sec' & Ha & Ha' & Hs).
  assert (Hother : forall k body y,
             k <> lit "execution_plan" ->
             if_in (PDict a') k body y = if_in (PDict a) k body y).
  { intros k body y Hne. apply if_in_lookup. now apply Hk. }
  assert (Hplan : forall y,
             section_execution_plan E a' y = section_execution_plan E a y).
  { intros y. unfold section_execution_plan. apply bind_ext. intros y1.
    rewrite (@if_in_found a _ _ _ y1 Ha), (@if_in_found a' _ _ _ y1 Ha').
    unfold execution_action_items, list_block.
    rewrite (@if_get_lookup sec sec' (lit "action_items"))
      by (apply Hs; intros H; vm_compute in H; discriminate).
    apply bind_ext. intros y2.
    apply if_get_lookup. apply Hs. intros H. vm_compute in H. discriminate. }
  assert (H1 : forall y, section_policy_planning E a' y =
                          section_policy_planning E a y)
    by (intros y; unfold section_policy_planning; apply bind_ext; intros y1;
        apply Hother; intros H; vm_compute in H; discriminate).
  assert (H3 : forall y, section_communication_strategy E a' y =
                          section_communication_strategy E a y)
    by (intros y; unfold section_communication_strategy; apply bind_ext;
        intros y1; apply Hother; intros H; vm_compute in H; discriminate).
  assert (H4 : forall y, section_content_briefs E a' y =
                          section_content_briefs E a y)
    by (intros y; unfold section_content_briefs; apply bind_ext; intros y1;
        apply Hother; intros H; vm_compute in H; discriminate).
  assert (H5 : forall y, section_marketing_materials E a' y =
                          section_marketing_materials E a y)
    by (intros y; unfold section_marketing_materials; apply bind_ext;
        intros y1; apply Hother; intros H; vm_compute in H; discriminate).
  assert (H6 : forall y, section_performance_metrics E a' y =
                          section_performance_metrics E a y)
    by (intros y; unfold section_performance_metrics; apply bind_ext;
        intros y1; apply Hother; intros H; vm_compute in H; discriminate).
  assert (H7 : forall y, section_stakeholder_management E a' y =
                          section_stakeholder_management E a y)
    by (intros y; unfold section_stakeholder_management; apply bind_ext;
        intros y1; apply Hother; intros H; vm_compute in H; discriminate).
  unfold numbered_sections. apply bind_ext. intros y0.
  rewrite H1. apply bind_ext. intros y1. apply bind_ext. intros y1'.
  rewrite Hplan. apply bind_ext. intros y2. apply bind_ext. intros y2'.
  rewrite H3. apply bind_ext. intros y3. apply bind_ext. intros y3'.
  rewrite H4. apply bind_ext. intros y4. apply bind_ext. intros y4'.
  rewrite H5. apply bind_ext. intros y5. apply bind_ext. intros y5'.
  rewrite H6. apply bind_ext. intros y6. apply bind_ext. intros y6'.
  apply H7.
Qed.

Lemma report_other_risks (E : env) (p a a' : dict)
    (images : option (list bytes)) (video_prompts : option (list pystr)) :
  other_risks a a' ->
  create_pdf_report E p (Some a') images video_prompts =
  create_pdf_report E p (Some a) images video_prompts.
Proof.
  intros H. pose proof (@numbered_sections_other_risks E a a' H) as Hn.
  destruct H as (_ & sec & sec' & Ha & Ha' & _).
  destruct a as [|kv a]; [discriminate|].
  destruct a' as [|kv' a']; [discriminate|].
  unfold create_pdf_report, sections. cbv zeta. now rewrite Hn.
Qed.

(** C5 as the code has it: in the document of every well-formed non-empty
    analysis each of the ten lists the renderer reads (strategies and
    messages cap 8, outcomes 5, action items 8, channels 5, posts 5, KPIs 8,
    criteria 5, stakeholders 6, objections 4) stands with its label and the
    first [cap] of its items, in the order of the list, and nothing marks a
    cut: the strings of the whole document are those of [document_text], no
    more and in that order.  The risks are no such list: the document is
    the same whatever stands under [risk_management]. *)
Theorem document_lists_capped (E : env) (p a : dict)
    (images : option (list bytes)) (video_prompts : option (list pystr)) :
  subject_record p -> a <> [] -> well_formed a = true ->
  (exists ops,
     create_pdf_report E p (Some a) images video_prompts = Ok ops /\
     texts ops = document_text E p a images video_prompts) /\
  (forall field label cap item_lines sec items,
     Py.lookup field sec = Some (PList items) -> items <> [] ->
     listed field label cap item_lines sec =
       label :: flat_map (fun ix => item_lines (fst ix) (snd ix))
                         (Py.enumerate 1 (firstn cap items)) /\
     length (Py.enumerate 1 (firstn cap items)) = Nat.min cap (length items)) /\
  (forall a',
     other_risks a a' ->
     create_pdf_report E p (Some a') images video_prompts =
     create_pdf_report E p (Some a) images video_prompts).
Proof.
  intros Hp Ha Hw. split; [|split].
  - exact (@report_text E p a images video_prompts Hp Ha Hw).
  - intros field label cap item_lines sec items Hf Hne. unfold listed.
    rewrite Hf. destruct items as [|x items]; [congruence|].
    split; [reflexivity|]. now rewrite length_enumerate, length_firstn.
  - intros a' Hr. exact (@report_other_risks E p a a' images video_prompts Hr).
Qed.

Lemma sample_other_risks :
  other_risks Sample.analysis_capped Sample.analysis_capped_no_risks.
Proof.
  split.
  - intros k Hk. unfold Sample.analysis_capped, Sample.analysis_capped_no_risks.
    cbn [Py.lookup]. now rewrite (pystr_eqb_neq Hk).
  - eexists. eexists. split; [reflexivity|]. split; [reflexivity|].
    intros k Hk. cbn [Py.lookup]. now rewrite (pystr_eqb_neq Hk).
Qed.

Lemma document_lists_capped_witness :
  subject_record Sample.policy /\ well_formed Sample.analysis_capped = true /\
  (exists ops,
     create_pdf_report Sample.env_cid Sample.policy (Some Sample.analysis_capped)
       None None = Ok ops /\
     texts ops =
       [lit "정책 보고서"; lit "제목: Clean Air Policy"; lit "카테고리: Environment";
        lit "대상: Citizens"; lit "생성일: 2024-01-01T00:00:00";
        lit "1. 정책 기획"; lit "[목표] Reduce PM2.5 by 20%";
        lit "[핵심 전략]"; lit "1. strategy 1"; lit "2. strategy 2";
        lit "3. strategy 3"; lit "4. strategy 4"; lit "5. strategy 5";
        lit "6. strategy 6"; lit "7. strategy 7"; lit "8. strategy 8";
        lit "2. 실행 계획"; lit "3. 커뮤니케이션 전략";
        lit "4. 콘텐츠 제작 브리프"; lit "5. 마케팅 자료"; lit "6. 성과 지표 (KPI)";
        lit "7. 이해관계자 관리"]) /\
  create_pdf_report Sample.env_cid Sample.policy
    (Some Sample.analysis_capped_no_risks) None None =
  create_pdf_report Sample.env_cid Sample.policy (Some Sample.analysis_capped)
    None None.
Proof.
  assert (Hw : well_formed Sample.analysis_capped = true)
    by (vm_compute; reflexivity).
  split; [exact sample_policy_is_subject|]. split; [exact Hw|].
  destruct (@document_lists_capped Sample.env_cid Sample.policy
              Sample.analysis_capped None None sample_policy_is_subject
              ltac:(discriminate) Hw) as ((ops & Hops & Ht) & _ & Hr).
  split.
  - exists ops. split; [exact Hops|]. rewrite Ht. vm_compute. reflexivity.
  - exact (Hr _ sample_other_risks).
Defined.

(** C5 as written fails for the risks: [risk_management] is a list of the
    execution plan that no statement of the renderer reads, so of nine
    risks none is drawn, not a capped number of them. *)
Lemma risks_counterexample :
  exists ops,
    create_pdf_report Sample.env_cid Sample.policy (Some Sample.analysis_risks)
      None None = Ok ops /\
    texts ops =
      [lit "정책 보고서"; lit "제목: Clean Air Policy"; lit "카테고리: Environment";
       lit "대상: Citizens"; lit "생성일: 2024-01-01T00:00:00";
       lit "1. 정책 기획"; lit "2. 실행 계획"; lit "3. 커뮤니케이션 전략";
       lit "4. 콘텐츠 제작 브리프"; lit "5. 마케팅 자료"; lit "6. 성과 지표 (KPI)";
       lit "7. 이해관계자 관리"].
Proof.
  eexists. split; [vm_compute; reflexivity | vm_compute; reflexivity].
Qed.

(* ================================================================== *)
(** ** The paragraph primitive *)

Lemma max_len_at_cases (indent : Z) :
  max_len_at indent = 85 \/ max_len_at indent = 90.
Proof. unfold max_len_at. destruct (indent =? 60)%Z; auto. Qed.

Lemma nth_wrap_lines (text : pystr) (L k : nat) :
  k < length (wrap_lines text L) ->
  nth k (wrap_lines text L) [] = firstn L (skipn (k * L) text).
Proof.
  rewrite wrap_lines_chunks, length_map, length_seq. intros Hk.
  rewrite (nth_indep _ [] (firstn L (skipn (0 * L) text)))
    by (rewrite length_map, length_seq; exact Hk).
  rewrite (map_nth (fun k => firstn L (skipn (k * L) text))).
  now rewrite seq_nth.
Qed.

(** C7 as the code has it: [add_text] never raises and draws the text cut
    at fixed positions, [85] characters a line at indent [60] and [90] at
    any other indent: line [k] is the characters from [k * max_len] on, at
    most [max_len] of them; at most [5] lines are drawn (the limit of [10]
    is never reached), which together are the first [5 * max_len]
    characters of the text, [425] or [450]; the rest is dropped.  The cut
    looks at positions only: relabelling the characters relabels the lines
    drawn. *)
Theorem add_text_cuts_by_position (E : env) (y : float) (text : pystr)
    (size indent : Z) :
  max_len_at 60 = 85 /\
  (indent <> 60%Z -> max_len_at indent = 90) /\
  exists y' w,
    add_text E y text size indent = Ok (y', w) /\
    length (texts w) <= 5 /\
    (forall k, k < length (texts w) ->
       nth k (texts w) [] =
       firstn (max_len_at indent) (skipn (k * max_len_at indent) text)) /\
    concat (texts w) = firstn (5 * max_len_at indent) text /\
    (forall f : char -> char,
       exists y'' w',
         add_text E y (map f text) size indent = Ok (y'', w') /\
         texts w' = map (map f) (texts w)).
Proof.
  split; [reflexivity|]. split.
  { intros Hi. unfold max_len_at. apply Z.eqb_neq in Hi. now rewrite Hi. }
  destruct (add_text_texts E y text size indent) as (y' & w & Hw & Ht).
  fold (texts w) in Ht. exists y', w. split; [exact Hw|]. rewrite Ht.
  pose proof (max_len_at_cases indent) as HL.
  split; [apply wrap_lines_length; lia|].
  split; [apply nth_wrap_lines|].
  split; [now apply wrap_lines_concat|].
  intros f.
  destruct (add_text_texts E y (map f text) size indent) as (y'' & w' & Hw' & Ht').
  fold (texts w') in Ht'. exists y'', w'. split; [exact Hw'|].
  rewrite Ht'. apply wrap_lines_map.
Qed.

Lemma add_text_cuts_by_position_witness :
  max_len_at 70 = 90 /\
  exists y' w,
    add_text Sample.env_cid 700 (repeat 97%N 200) 10 70 = Ok (y', w) /\
    nth 2 (texts w) [] = repeat 97%N 20.
Proof.
  destruct (add_text_cuts_by_position Sample.env_cid 700 (repeat 97%N 200) 10 70)
    as (_ & H90 & y' & w & Hw & Hn & Hk & _).
  split; [exact (H90 ltac:(discriminate))|].
  exists y', w. split; [exact Hw|].
  rewrite (Hk 2); [vm_compute; reflexivity|].
  vm_compute in Hw. injection Hw as _ <-. vm_compute. lia.
Defined.

(** C7 as written fails: of a text of 425 characters at the body indent,
    and of one of 450 characters at a sub-indent, every character is
    drawn, also those after the 400th. *)
Lemma add_text_counterexample :
  (exists y w,
     add_text Sample.env_cid 700 (repeat 97%N 400 ++ repeat 98%N 25) 10 60 =
       Ok (y, w) /\
     concat (texts w) = (repeat 97%N 400 ++ repeat 98%N 25)%list /\
     nth 4 (texts w) [] = (repeat 97%N 60 ++ repeat 98%N 25)%list) /\
  (exists y w,
     add_text Sample.env_cid 700 (repeat 97%N 400 ++ repeat 98%N 50) 10 70 =
       Ok (y, w) /\
     concat (texts w) = (repeat 97%N 400 ++ repeat 98%N 50)%list /\
     nth 4 (texts w) [] = (repeat 97%N 40 ++ repeat 98%N 50)%list).
Proof.
  split; eexists; eexists;
    (split; [vm_compute; reflexivity
            |split; [vm_compute; reflexivity | vm_compute; reflexivity]]).
Qed.


(* ================================================================== *)
(** ** What the document depends on *)

Lemma for_each_ext (A : Type) (xs : list A) (body1 body2 : A -> float -> M float) :
  (forall x y, In x xs -> body1 x y = body2 x y) ->
  forall y, for_each xs body1 y = for_each xs body2 y.
Proof.
  induction xs as [|x xs IH]; intros Hb y; [reflexivity|]. simpl.
  rewrite (Hb x y (or_introl eq_refl)). apply bind_ext. intros y'.
  apply IH. intros x' y'' Hin. apply Hb. now right.
Qed.

Lemma for_each_enumerate_map (A B : Type) (g : A -> B)
    (body : nat -> B -> float -> M float) (l l' : list A) :
  map g l = map g l' ->
  forall n y,
    for_each (Py.enumerate n l) (fun ix y => body (fst ix) (g (snd ix)) y) y =
    for_each (Py.enumerate n l') (fun ix y => body (fst ix) (g (snd ix)) y) y.
Proof.
  revert l'. induction l as [|a l IH]; intros [|a' l'] H n y;
    try discriminate; [reflexivity|].
  injection H as Ha Hl. cbn [Py.enumerate for_each fst snd]. rewrite Ha.
  apply bind_ext. intros y'. now apply IH.
Qed.

(** Section 9 reads the first 600 characters of the first nine texts. *)
Lemma section_video_prompts_reads (E : env) (l l' : list pystr) (y : float) :
  map (firstn 600) (firstn 9 l) = map (firstn 600) (firstn 9 l') ->
  section_video_prompts E (Some l) y = section_video_prompts E (Some l') y.
Proof.
  intros H. destruct l as [|t l], l' as [|t' l']; try discriminate;
    [reflexivity|].
  unfold section_video_prompts. apply bind_ext. intros y1.
  apply bind_ext. intros y2.
  apply (@for_each_enumerate_map _ _ (PyStr.slice_to 600)
           (fun i t y =>
              y <- break_if_low y ;;
              y <- add_text E y (lit "[영상 " ++ str_of_nat i ++ lit "]")%list 11 60 ;;
              y <- add_text E y t 9 70 ;;
              ret (y - 15)%float)).
  exact H.
Qed.

Lemma for_each_blind (A : Type) (body : A -> float -> M float)
    (xs xs' : list A) :
  (forall x x' y, body x y = body x' y) ->
  length xs = length xs' ->
  forall y, for_each xs body y = for_each xs' body y.
Proof.
  intros Hb. revert xs'. induction xs as [|x xs IH]; intros [|x' xs'] Hl y;
    try discriminate; [reflexivity|].
  cbn [for_each]. rewrite (Hb x x' y). apply bind_ext. intros y'.
  apply IH. now injection Hl.
Qed.

Lemma cover_same (E : env) (p1 p2 : dict) :
  same_subject p1 p2 -> cover E p1 = cover E p2.
Proof.
  intros Hp.
  pose proof (Hp _ (or_introl eq_refl)) as H1.
  pose proof (Hp _ (or_intror (or_introl eq_refl))) as H2.
  pose proof (Hp _ (or_intror (or_intror (or_introl eq_refl)))) as H3.
  pose proof (Hp _ (or_intror (or_intror (or_intror (or_introl eq_refl))))) as H4.
  unfold cover, Py.get. rewrite H1, H2, H3, H4. reflexivity.
Qed.

(** Section 8 reads how many blobs there are among the first four, and
    nothing of the blobs. *)
Lemma section_images_same (E : env) (images1 images2 : option (list bytes))
    (y : float) :
  same_images images1 images2 ->
  section_images E images1 y = section_images E images2 y.
Proof.
  unfold same_images, given. intros H.
  destruct images1 as [[|b1 l1]|], images2 as [[|b2 l2]|];
    try discriminate; try reflexivity.
  unfold section_images. apply bind_ext. intros y1.
  apply (@bind_ext float float). intros y2.
  apply for_each_blind; [intros x x' y3; reflexivity|].
  now rewrite !length_enumerate.
Qed.

Lemma section_video_prompts_same (E : env)
    (prompts1 prompts2 : option (list pystr)) (y : float) :
  same_prompts prompts1 prompts2 ->
  section_video_prompts E prompts1 y = section_video_prompts E prompts2 y.
Proof.
  unfold same_prompts, given. intros H.
  destruct prompts1 as [[|t1 l1]|], prompts2 as [[|t2 l2]|];
    try discriminate; try reflexivity.
  now apply section_video_prompts_reads.
Qed.

(** The renderer consults its surroundings for the font registration and
    for [str()] only: the clock is not read. *)
Lemma report_same_surroundings (E1 E2 : env) (p : dict)
    (analysis : option dict) (images : option (list bytes))
    (video_prompts : option (list pystr)) :
  same_surroundings E1 E2 ->
  create_pdf_report E1 p analysis images video_prompts =
  create_pdf_report E2 p analysis images video_prompts.
Proof.
  intros (Hf & Hr). destruct E1 as [f1 r1 c1], E2 as [f2 r2 c2].
  cbn [font_registers repr] in Hf, Hr. subst f2 r2. reflexivity.
Qed.




(* ================================================================== *)
(** ** Claims about the analysis call *)




(* ================================================================== *)
(** ** The session state *)

(** What [set_defaults] leaves under a key: the first of the value the
    state had and the default. *)
Lemma set_defaults_lookup (defaults : dict) (state : session_state) (k : pystr) :
  set_defaults defaults state k =
  match state k with
  | Some v => Some v
  | None => Py.lookup k defaults
  end.
Proof.
  unfold set_defaults. revert state.
  induction defaults as [|[k' v'] D IH]; intros state; cbn [fold_left fst snd].
  - now destruct (state k).
  - destruct (state k') eqn:Hk'.
    + rewrite IH. destruct (state k) eqn:Hk; [reflexivity|].
      cbn [Py.lookup]. destruct (PyStr.eqb k k') eqn:E; [|reflexivity].
      apply pystr_eqb_eq in E. subst k'. congruence.
    + rewrite IH. unfold set_item. cbn [Py.lookup].
      destruct (PyStr.eqb k k') eqn:E; [|reflexivity].
      apply pystr_eqb_eq in E. subst k'. now rewrite Hk'.
Qed.

(** X2: after [init_session_state] a key has the value it had before, and
    when it had none, its default; a second call changes nothing. *)
Theorem init_session_state_settles (state : session_state) :
  (forall k,
     init_session_state state k =
     match state k with
     | Some v => Some v
     | None => Py.lookup k session_defaults
     end) /\
  init_session_state (init_session_state state) = init_session_state state.
Proof.
  assert (Hl : forall st k,
             init_session_state st k =
             match st k with
             | Some v => Some v
             | None => Py.lookup k session_defaults
             end)
    by (intros st k; apply set_defaults_lookup).
  split; [apply Hl|].
  apply functional_extensionality. intros k. rewrite (Hl (init_session_state state)).
  destruct (init_session_state state k) eqn:Hk; [reflexivity|].
  rewrite Hl in Hk. now destruct (state k).
Qed.

(* ================================================================== *)
(** ** The policies table *)

Lemma max_id_bound (rows : list policy_row) (r : policy_row) :
  In r rows -> (row_id r <= max_id rows)%Z.
Proof.
  induction rows as [|r' rows IH]; simpl; [tauto|].
  intros [->|H]; [lia|]. specialize (IH H). lia.
Qed.

Lemma find_id_none (rows : list policy_row) (i : Z) :
  (forall r, In r rows -> row_id r <> i) ->
  find (fun r => (row_id r =? i)%Z) rows = None.
Proof.
  induction rows as [|r rows IH]; intros H; simpl; [reflexivity|].
  destruct (Z.eqb_spec (row_id r) i) as [E|_].
  - exfalso. exact (H r (or_introl eq_refl) E).
  - apply IH. intros r' Hin. apply H. now right.
Qed.

Lemma find_id_app (rows more : list policy_row) (i : Z) :
  find (fun r => (row_id r =? i)%Z) (rows ++ more) =
  match find (fun r => (row_id r =? i)%Z) rows with
  | Some r => Some r
  | None => find (fun r => (row_id r =? i)%Z) more
  end.
Proof.
  induction rows as [|r rows IH]; simpl; [reflexivity|].
  now destruct (row_id r =? i)%Z.
Qed.

Lemma create_policy_id_fresh (now title category target description : pystr)
    (db : database) (r : policy_row) :
  In r (policies db) ->
  (row_id r < fst (create_policy now title category target description db))%Z.
Proof.
  intros Hin. apply max_id_bound in Hin. unfold create_policy. cbn [fst]. lia.
Qed.

Lemma set_status_id (now status : pystr) (i : Z) (r : policy_row) :
  row_id (set_status now status i r) = row_id r.
Proof. unfold set_status. now destruct (row_id r =? i)%Z. Qed.

Lemma select_after_update (now status : pystr) (i j : Z) (db : database) :
  select_policy j {| policies := map (set_status now status i) (policies db);
                     policies_seq := policies_seq db |} =
  option_map (set_status now status i) (select_policy j db).
Proof.
  unfold select_policy. cbn [policies].
  induction (policies db) as [|r rows IH]; simpl; [reflexivity|].
  rewrite set_status_id. now destruct (row_id r =? j)%Z.
Qed.

(** X3: the row [create_policy] writes is the one [get_policy] returns
    for the key [create_policy] hands back, a key SQLite can store: the
    eight columns, with the status [draft] and both time stamps at the time
    of the call. *)
Theorem create_policy_then_get (now title category target description : pystr)
    (db : database) :
  sqlite_int (fst (create_policy now title category target description db))
    = true ->
  get_policy (fst (create_policy now title category target description db))
             (snd (create_policy now title category target description db)) =
  Ok (Some
        [(lit "id",
          PInt (fst (create_policy now title category target description db)));
         (lit "title", PStr title);
         (lit "category", PStr category);
         (lit "target_audience", PStr target);
         (lit "description", PStr description);
         (lit "status", PStr (lit "draft"));
         (lit "created_at", PStr now);
         (lit "updated_at", PStr now)]).
Proof.
  intros Hint. unfold get_policy, bind_int. rewrite Hint. cbn [and_then].
  unfold select_policy.
  assert (Hfresh : forall r, In r (policies db) ->
            row_id r <> fst (create_policy now title category target description db)).
  { intros r Hin.
    pose proof (create_policy_id_fresh now title category target description db r Hin).
    lia. }
  revert Hfresh. unfold create_policy. cbn [fst snd policies]. intros Hfresh.
  rewrite find_id_app, (find_id_none _ Hfresh). cbn [find row_id].
  now rewrite Z.eqb_refl.
Qed.


(** X5: [update_policy_status] with a key SQLite can store replaces, in the
    row of that key, the status and the update stamp and nothing else; the
    rows of other keys and the keys themselves stay as they are; for such a
    key that is not in the table the call changes nothing and reports
    nothing.  With a key outside the 64 bits of SQLite the call raises
    [OverflowError] and the table stays as it is, and so does
    [get_policy]. *)
Theorem update_policy_status_effect (now status : pystr) (i : Z) (db : database) :
  (sqlite_int i = true ->
   exists db',
     update_policy_status now i status db = Ok db' /\
     (forall r,
        select_policy i db = Some r ->
        get_policy i db' =
        Ok (Some [(lit "id", PInt (row_id r));
                  (lit "title", PStr (row_title r));
                  (lit "category", PStr (row_category r));
                  (lit "target_audience", PStr (row_target_audience r));
                  (lit "description", PStr (row_description r));
                  (lit "status", PStr status);
                  (lit "created_at", PStr (row_created_at r));
                  (lit "updated_at", PStr now)])) /\
     (forall j, j <> i -> get_policy j db' = get_policy j db) /\
     map row_id (policies db') = map row_id (policies db) /\
     policies_seq db' = policies_seq db /\
     (select_policy i db = None -> db' = db)) /\
  (sqlite_int i = false ->
   update_policy_status now i status db = Raise OverflowError /\
   get_policy i db = Raise OverflowError).
Proof.
  split.
  - intros Hint. unfold update_policy_status, bind_int. rewrite Hint.
    cbn [and_then]. eexists. split; [reflexivity|].
    split; [|split; [|split; [|split]]].
    + intros r Hr. unfold get_policy, bind_int. rewrite Hint. cbn [and_then].
      rewrite select_after_update, Hr.
      cbn [option_map]. unfold set_status.
      assert (Hid : (row_id r =? i)%Z = true).
      { unfold select_policy in Hr. now apply find_some in Hr as [_ H]. }
      now rewrite Hid.
    + intros j Hj. unfold get_policy.
      destruct (bind_int j) as [j'|e] eqn:Hb; [|reflexivity]. cbn [and_then].
      assert (j' = j)
        by (unfold bind_int in Hb; destruct (sqlite_int j); congruence).
      subst j'. rewrite select_after_update.
      destruct (select_policy j db) as [r|] eqn:Hr; [|reflexivity].
      cbn [option_map]. unfold set_status.
      assert (Hid : row_id r = j).
      { unfold select_policy in Hr. apply find_some in Hr as [_ H].
        now apply Z.eqb_eq in H. }
      destruct (Z.eqb_spec (row_id r) i) as [E|_]; [congruence | reflexivity].
    + cbn [policies]. rewrite map_map.
      apply map_ext. intros r. apply set_status_id.
    + reflexivity.
    + intros Hnone. destruct db as [rows seq].
      cbn [policies policies_seq]. f_equal.
      unfold select_policy in Hnone. cbn [policies] in Hnone.
      rewrite <- (map_id rows) at 2. apply map_ext_in. intros r Hin.
      unfold set_status.
      destruct (Z.eqb_spec (row_id r) i) as [E|_]; [|reflexivity].
      exfalso. pose proof (find_none _ _ Hnone r Hin) as Hf. cbv beta in Hf.
      rewrite E, Z.eqb_refl in Hf. discriminate.
  - intros Hint. unfold update_policy_status, get_policy, bind_int.
    rewrite Hint. split; reflexivity.
Qed.

(* ================================================================== *)
(** ** Decimal numerals *)

Lemma lit_digits (d : Decimal.uint) :
  lit (NilEmpty.string_of_uint d) = digit_codes d.
Proof.
  induction d as [|d IH|d IH|d IH|d IH|d IH|d IH|d IH|d IH|d IH|d IH];
    [reflexivity|..]; cbn [NilEmpty.string_of_uint digit_codes];
    rewrite <- IH; reflexivity.
Qed.

Lemma digit_codes_inj (d d' : Decimal.uint) :
  digit_codes d = digit_codes d' -> d = d'.
Proof.
  revert d'.
  induction d as [|d IH|d IH|d IH|d IH|d IH|d IH|d IH|d IH|d IH|d IH];
    intros [|e|e|e|e|e|e|e|e|e|e]; cbn [digit_codes]; intros H;
    try discriminate H; try reflexivity;
    injection H as H; f_equal; auto.
Qed.

Lemma str_of_nat_digits (n : nat) :
  str_of_nat n = digit_codes (written (Nat.to_uint n)).
Proof.
  unfold str_of_nat. rewrite <- lit_digits.
  now destruct (Nat.to_uint n).
Qed.

Lemma str_of_nat_inj (n m : nat) : str_of_nat n = str_of_nat m -> n = m.
Proof.
  rewrite !str_of_nat_digits. intros H. apply digit_codes_inj in H.
  assert (Hw : forall d, Nat.of_uint (written d) = Nat.of_uint d)
    by (intros []; reflexivity).
  rewrite <- (DecimalNat.Unsigned.of_to n), <- (DecimalNat.Unsigned.of_to m).
  now rewrite <- (Hw (Nat.to_uint n)), <- (Hw (Nat.to_uint m)), H.
Qed.

Lemma enumerate_indices (A : Type) (l : list A) (n : nat) :
  map fst (Py.enumerate n l) = seq n (length l).
Proof. revert n. induction l as [|a l IH]; intros n; simpl; congruence. Qed.

Lemma enumerate_items (A : Type) (l : list A) (n : nat) :
  map snd (Py.enumerate n l) = l.
Proof. revert n. induction l as [|a l IH]; intros n; simpl; congruence. Qed.

(* ================================================================== *)
(** ** The archive *)

Lemma image_name_inj (i j : nat) : image_name i = image_name j -> i = j.
Proof.
  unfold image_name. intros H. apply app_inv_head in H.
  apply app_inv_tail in H. now apply str_of_nat_inj.
Qed.

Lemma prompt_name_inj (i j : nat) : prompt_name i = prompt_name j -> i = j.
Proof.
  unfold prompt_name. intros H. apply app_inv_head in H.
  apply app_inv_tail in H. now apply str_of_nat_inj.
Qed.

Lemma NoDup_map_inj (A B : Type) (f : A -> B) (l : list A) :
  (forall x y, f x = f y -> x = y) -> NoDup l -> NoDup (map f l).
Proof.
  intros Hf Hl. induction Hl as [|x l Hx Hl IH]; simpl; constructor; auto.
  intros Hin. apply in_map_iff in Hin as (y & Hy & Hin).
  apply Hf in Hy. now subst y.
Qed.

Lemma headed_app_other (c c' : char) (l l' : list pystr) :
  headed c l -> c <> c' ->
  (forall n, In n l' -> hd 0%N n <> c') ->
  forall n, In n (l ++ l') -> hd 0%N n <> c'.
Proof.
  intros Hl Hc Hl' n Hin. apply in_app_or in Hin as [Hin|Hin]; [|auto].
  now rewrite (Hl n Hin).
Qed.

Lemma NoDup_app_headed (c : char) (l l' : list pystr) :
  NoDup l -> headed c l -> NoDup l' ->
  (forall n, In n l' -> hd 0%N n <> c) -> NoDup (l ++ l').
Proof.
  intros Hl Hc Hl' Hother. apply NoDup_app; auto.
  intros n Hin Hin'. exact (Hother n Hin' (Hc n Hin)).
Qed.

Lemma headed_image_names (l : list nat) : headed 105%N (map image_name l).
Proof.
  intros n Hin. apply in_map_iff in Hin as (i & <- & _). reflexivity.
Qed.

Lemma headed_prompt_names (l : list nat) : headed 118%N (map prompt_name l).
Proof.
  intros n Hin. apply in_map_iff in Hin as (i & <- & _). reflexivity.
Qed.

Lemma headed_one (t : pystr) : headed (hd 0%N t) [t].
Proof. intros n [<-|[]]. reflexivity. Qed.

Lemma headed_nil (c : char) : headed c [].
Proof. intros n []. Qed.

Lemma image_entry_names (l : list bytes) :
  map fst (map (fun ix : nat * bytes => (image_name (fst ix), ZBytes (snd ix)))
               (Py.enumerate 1 l)) =
  map image_name (seq 1 (length l)).
Proof. now rewrite map_map, <- (enumerate_indices l 1), map_map. Qed.

Lemma prompt_entry_names (l : list pystr) :
  map fst (map (fun ix : nat * pystr => (prompt_name (fst ix), ZText (snd ix)))
               (Py.enumerate 1 l)) =
  map prompt_name (seq 1 (length l)).
Proof. now rewrite map_map, <- (enumerate_indices l 1), map_map. Qed.

(** The parts of an archive that was written. *)
Lemma create_zip_export_parts (E : env) (json_dumps : pyval -> pystr)
    (policy : dict) (analysis : option dict) (images : option (list bytes))
    (video_prompts : option (list pystr)) (pdf_bytes : option bytes)
    (entries : list zip_entry) :
  create_zip_export E json_dumps policy analysis images video_prompts pdf_bytes
    = Ok entries ->
  exists pdf info1 info2 title created_at,
    Py.lookup (lit "title") policy = Some title /\
    Py.lookup (lit "created_at") policy = Some created_at /\
    (pdf = [] \/ exists b, pdf_bytes = Some b /\ b <> [] /\
                           pdf = [(lit "정책_보고서_전체.pdf", ZBytes b)]) /\
    (pdf_bytes = None \/ pdf_bytes = Some [] -> pdf = []) /\
    entries =
      (pdf ++ [(lit "policy_info.json", info1)] ++
       [(lit "analysis_full.json", info2)] ++
       map (fun ix : nat * bytes => (image_name (fst ix), ZBytes (snd ix)))
           (Py.enumerate 1 (match images with Some l => l | None => [] end)) ++
       map (fun ix : nat * pystr => (prompt_name (fst ix), ZText (snd ix)))
           (Py.enumerate 1 (match video_prompts with Some l => l | None => [] end)) ++
       [(lit "README.txt",
         ZText (readme (py_str E title) (py_str E created_at)))])%list.
Proof.
  unfold create_zip_export, Py.index. cbv zeta.
  destruct (Py.lookup (lit "title") policy) as [title|]; [|discriminate].
  destruct (Py.lookup (lit "created_at") policy) as [created|]; [|discriminate].
  intros H. injection H as <-.
  eexists _, _, _, title, created. split; [reflexivity|]. split; [reflexivity|].
  split; [|split].
  3:{ destruct images, video_prompts; reflexivity. }
  - destruct pdf_bytes as [[|b bs]|]; [now left | right | now left].
    exists (b :: bs). repeat split. discriminate.
  - intros [-> | ->]; reflexivity.
Qed.

Ltac others :=
  repeat (eapply headed_app_other; [eassumption | discriminate |]);
  match goal with Hr : forall c0 : N, _ |- _ => apply Hr; discriminate end.

(** X6: no two entries of the archive [create_zip_export] writes have the
    same name, however many images and text blocks there are. *)
Theorem archive_names_distinct (E : env) (json_dumps : pyval -> pystr)
    (policy : dict) (analysis : option dict) (images : option (list bytes))
    (video_prompts : option (list pystr)) (pdf_bytes : option bytes)
    (entries : list zip_entry) :
  create_zip_export E json_dumps policy analysis images video_prompts pdf_bytes
    = Ok entries ->
  NoDup (names entries).
Proof.
  intros H. apply create_zip_export_parts in H
    as (pdf & i1 & i2 & t & c & _ & _ & Hpdf & _ & ->).
  unfold names. rewrite !map_app, image_entry_names, prompt_entry_names.
  cbn [map fst].
  assert (Hp : NoDup (map fst pdf) /\ headed 51221%N (map fst pdf)).
  { destruct Hpdf as [-> | (b & _ & _ & ->)]; cbn [map fst].
    - split; [constructor | apply headed_nil].
    - split; [repeat constructor; simpl; tauto | apply headed_one]. }
  destruct Hp as [Hp1 Hp2].
  assert (Hone : forall t : pystr, NoDup [t])
    by (intros t0; repeat constructor; simpl; tauto).
  assert (Hr : forall c0, c0 <> 82%N ->
            forall n, In n [lit "README.txt"] -> hd 0%N n <> c0).
  { intros c0 Hc n [<-|[]]. intros Heq. apply Hc. now rewrite <- Heq. }
  assert (Hi : headed 105%N (map image_name
            (seq 1 (length (match images with Some l => l | None => [] end)))))
    by apply headed_image_names.
  assert (Hv : headed 118%N (map prompt_name
            (seq 1 (length (match video_prompts with Some l => l | None => [] end)))))
    by apply headed_prompt_names.
  assert (H1 : headed 112%N [lit "policy_info.json"])
    by exact (@headed_one (lit "policy_info.json")).
  assert (H2 : headed 97%N [lit "analysis_full.json"])
    by exact (@headed_one (lit "analysis_full.json")).
  assert (Hni : NoDup (map image_name
            (seq 1 (length (match images with Some l => l | None => [] end)))))
    by (apply NoDup_map_inj; [exact image_name_inj | apply seq_NoDup]).
  assert (Hnv : NoDup (map prompt_name
            (seq 1 (length (match video_prompts with Some l => l | None => [] end)))))
    by (apply NoDup_map_inj; [exact prompt_name_inj | apply seq_NoDup]).
  eapply NoDup_app_headed; [exact Hp1 | exact Hp2 | | others].
  eapply NoDup_app_headed; [apply Hone | exact H1 | | others].
  eapply NoDup_app_headed; [apply Hone | exact H2 | | others].
  eapply NoDup_app_headed; [exact Hni | exact Hi | | others].
  eapply NoDup_app_headed; [exact Hnv | exact Hv | apply Hone | others].
Qed.

Lemma filter_all (A : Type) (f : A -> bool) (l : list A) :
  (forall x, In x l -> f x = true) -> filter f l = l.
Proof.
  induction l as [|a l IH]; intros H; simpl; [reflexivity|].
  rewrite (H a (or_introl eq_refl)), IH; [reflexivity|].
  intros x Hx. apply H. now right.
Qed.

Lemma filter_none (A : Type) (f : A -> bool) (l : list A) :
  (forall x, In x l -> f x = false) -> filter f l = [].
Proof.
  induction l as [|a l IH]; intros H; simpl; [reflexivity|].
  rewrite (H a (or_introl eq_refl)). apply IH.
  intros x Hx. apply H. now right.
Qed.

Lemma under_images (A : Type) (f : nat * A -> zip_content) (g : nat -> pystr)
    (folder : pystr) (b : bool) (l : list (nat * A)) :
  (forall i, startswith folder (g i) = b) ->
  under folder (map (fun ix => (g (fst ix), f ix)) l) =
  if b then map (fun ix => (g (fst ix), f ix)) l else [].
Proof.
  intros H. unfold under. destruct b.
  - apply filter_all. intros x Hin. apply in_map_iff in Hin as (ix & <- & _).
    apply H.
  - apply filter_none. intros x Hin. apply in_map_iff in Hin as (ix & <- & _).
    apply H.
Qed.

Lemma under_app (folder : pystr) (l l' : list zip_entry) :
  under folder (l ++ l') = (under folder l ++ under folder l')%list.
Proof. apply filter_app. Qed.

(** X7: the archive holds every image and every text block it was given,
    none dropped and in the order given: the entries under [images/] are
    the images, named by their position counted from one, and those under
    [video_prompts/] the text blocks. *)
Theorem archive_keeps_all (E : env) (json_dumps : pyval -> pystr)
    (policy : dict) (analysis : option dict) (images : list bytes)
    (video_prompts : list pystr) (pdf_bytes : option bytes)
    (entries : list zip_entry) :
  create_zip_export E json_dumps policy analysis (Some images)
    (Some video_prompts) pdf_bytes = Ok entries ->
  under (lit "images/") entries =
    map (fun ix => (image_name (fst ix), ZBytes (snd ix)))
        (Py.enumerate 1 images) /\
  map snd (under (lit "images/") entries) = map ZBytes images /\
  under (lit "video_prompts/") entries =
    map (fun ix => (prompt_name (fst ix), ZText (snd ix)))
        (Py.enumerate 1 video_prompts) /\
  map snd (under (lit "video_prompts/") entries) = map ZText video_prompts.
Proof.
  intros H. apply create_zip_export_parts in H
    as (pdf & i1 & i2 & t & c & _ & _ & Hpdf & _ & ->).
  assert (Hp : forall folder,
             startswith folder (lit "정책_보고서_전체.pdf") = false ->
             under folder pdf = []).
  { intros folder Hf. destruct Hpdf as [-> | (b & _ & _ & ->)]; [reflexivity|].
    unfold under. cbn [filter fst]. now rewrite Hf. }
  rewrite !under_app.
  rewrite (Hp (lit "images/") eq_refl), (Hp (lit "video_prompts/") eq_refl).
  rewrite (@under_images bytes (fun ix => ZBytes (snd ix)) image_name
             (lit "images/") true (Py.enumerate 1 images))
    by (intros i; reflexivity).
  rewrite (@under_images pystr (fun ix => ZText (snd ix)) prompt_name
             (lit "images/") false (Py.enumerate 1 video_prompts))
    by (intros i; reflexivity).
  rewrite (@under_images bytes (fun ix => ZBytes (snd ix)) image_name
             (lit "video_prompts/") false (Py.enumerate 1 images))
    by (intros i; reflexivity).
  rewrite (@under_images pystr (fun ix => ZText (snd ix)) prompt_name
             (lit "video_prompts/") true (Py.enumerate 1 video_prompts))
    by (intros i; reflexivity).
  replace (under (lit "images/") [(lit "policy_info.json", i1)])
    with (@nil zip_entry) by reflexivity.
  replace (under (lit "images/") [(lit "analysis_full.json", i2)])
    with (@nil zip_entry) by reflexivity.
  replace (under (lit "video_prompts/") [(lit "policy_info.json", i1)])
    with (@nil zip_entry) by reflexivity.
  replace (under (lit "video_prompts/") [(lit "analysis_full.json", i2)])
    with (@nil zip_entry) by reflexivity.
  replace (under (lit "images/")
             [(lit "README.txt", ZText (readme (py_str E t) (py_str E c)))])
    with (@nil zip_entry) by reflexivity.
  replace (under (lit "video_prompts/")
             [(lit "README.txt", ZText (readme (py_str E t) (py_str E c)))])
    with (@nil zip_entry) by reflexivity.
  cbn [app]. rewrite !app_nil_r, !map_map. cbn [snd].
  repeat split.
  - rewrite <- (enumerate_items images 1) at 2. now rewrite map_map.
  - rewrite <- (enumerate_items video_prompts 1) at 2. now rewrite map_map.
Qed.

(** X8: a subject record without title or creation time is exported as a
    PDF, with the line left empty after its label, and is refused by the
    archive export with a [KeyError]: the cover reads the fields with
    [get], the read-me of the archive with an index.  With both fields
    there the archive is written. *)
Theorem archive_needs_title_and_time (E : env) (json_dumps : pyval -> pystr)
    (policy : dict) (analysis : option dict) (images : option (list bytes))
    (video_prompts : option (list pystr)) (pdf_bytes : option bytes) :
  (subject_record policy ->
   Py.lookup (lit "title") policy = None \/
   Py.lookup (lit "created_at") policy = None ->
   create_pdf_report E policy None images video_prompts =
     Ok (cover_block E policy ++ [Save])%list /\
   create_zip_export E json_dumps policy analysis images video_prompts pdf_bytes
     = Raise KeyError) /\
  (forall title created_at,
     Py.lookup (lit "title") policy = Some title ->
     Py.lookup (lit "created_at") policy = Some created_at ->
     exists entries,
       create_zip_export E json_dumps policy analysis images video_prompts
         pdf_bytes = Ok entries /\
       last entries (lit "", ZText []) =
         (lit "README.txt",
          ZText (readme (py_str E title) (py_str E created_at)))).
Proof.
  split.
  - intros Hp Hmiss. split.
    + apply report_missing; auto.
    + unfold create_zip_export, Py.index. cbv zeta.
      destruct Hmiss as [Hm|Hm].
      * now rewrite Hm.
      * rewrite Hm. now destruct (Py.lookup (lit "title") policy).
  - intros title created Ht Hc. unfold create_zip_export, Py.index. cbv zeta.
    rewrite Ht, Hc. eexists. split; [reflexivity|].
    rewrite !app_assoc. apply last_last.
Qed.

Lemma row_dict_fields (r : policy_row) :
  field (row_dict r) (lit "title") = PStr (row_title r) /\
  field (row_dict r) (lit "category") = PStr (row_category r) /\
  field (row_dict r) (lit "target_audience") = PStr (row_target_audience r) /\
  field (row_dict r) (lit "created_at") = PStr (row_created_at r).
Proof. repeat split; vm_compute; reflexivity. Qed.

Lemma row_dict_subject (r : policy_row) : subject_record (row_dict r).
Proof.
  destruct (row_dict_fields r) as (Ht & Hc & _).
  split; eexists; eassumption.
Qed.

(** X9: what [get_policy] returns can always be exported: the PDF without
    analysis is the cover block, with the stored title cut at 50 and the
    category at 60 characters, and the archive is written, its read-me
    carrying the stored title and creation time in full. *)
Theorem stored_policy_exports (E : env) (json_dumps : pyval -> pystr)
    (db : database) (i : Z) (policy : dict) (analysis : option dict)
    (images : option (list bytes)) (video_prompts : option (list pystr))
    (pdf_bytes : option bytes) :
  get_policy i db = Ok (Some policy) ->
  exists r,
    select_policy i db = Some r /\
    create_pdf_report E policy None images video_prompts =
      Ok (cover_block E policy ++ [Save])%list /\
    texts (cover_block E policy ++ [Save]) =
      [lit "정책 보고서";
       (lit "제목: " ++ firstn 50 (row_title r))%list;
       (lit "카테고리: " ++ firstn 60 (row_category r))%list;
       (lit "대상: " ++ row_target_audience r)%list;
       (lit "생성일: " ++ row_created_at r)%list] /\
    exists entries,
      create_zip_export E json_dumps policy analysis images video_prompts
        pdf_bytes = Ok entries /\
      last entries (lit "", ZText []) =
        (lit "README.txt",
         ZText (readme (row_title r) (row_created_at r))).
Proof.
  unfold get_policy, bind_int. destruct (sqlite_int i); [|discriminate].
  cbn [and_then]. destruct (select_policy i db) as [r|]; [|discriminate].
  intros H. injection H as <-. exists r. split; [reflexivity|].
  destruct (row_dict_fields r) as (Ht & Hc & Ha & Hd).
  split; [apply report_missing; [apply row_dict_subject | auto]|].
  split.
  - unfold cover_block, texts. cbn [flat_map text_of app].
    now rewrite Ht, Hc, Ha, Hd.
  - unfold create_zip_export, Py.index. cbv zeta.
    replace (Py.lookup (lit "title") (row_dict r)) with (Some (PStr (row_title r)))
      by (vm_compute; reflexivity).
    replace (Py.lookup (lit "created_at") (row_dict r))
      with (Some (PStr (row_created_at r))) by (vm_compute; reflexivity).
    eexists. split; [reflexivity|]. rewrite !app_assoc. apply last_last.
Qed.

(* ================================================================== *)
(** ** Stripping and fences *)

Lemma lstrip_spaces (w s : pystr) :
  forallb isspace w = true -> lstrip (w ++ s) = lstrip s.
Proof.
  induction w as [|c w IH]; simpl; [reflexivity|].
  intros H. apply andb_true_iff in H as [Hc Hw]. now rewrite Hc, IH.
Qed.

Lemma lstrip_all_spaces (w : pystr) : forallb isspace w = true -> lstrip w = [].
Proof.
  intros H. rewrite <- (app_nil_r w). now rewrite lstrip_spaces.
Qed.

Lemma lstrip_app (s t : pystr) :
  lstrip (s ++ t) = if forallb isspace s then lstrip t else (lstrip s ++ t)%list.
Proof.
  induction s as [|c s IH]; simpl; [reflexivity|].
  destruct (isspace c); simpl; [exact IH | reflexivity].
Qed.

Lemma forallb_rev (A : Type) (f : A -> bool) (l : list A) :
  forallb f (rev l) = forallb f l.
Proof.
  induction l as [|a l IH]; simpl; [reflexivity|].
  rewrite forallb_app, IH. simpl. rewrite andb_true_r. apply andb_comm.
Qed.

(** [s.rstrip()], the second half of [strip]. *)
Lemma strip_spaces_right (s w : pystr) :
  forallb isspace w = true ->
  rev (lstrip (rev (s ++ w))) = rev (lstrip (rev s)).
Proof.
  intros H. rewrite rev_app_distr, lstrip_spaces; [reflexivity|].
  now rewrite forallb_rev.
Qed.

Lemma strip_surrounded (l t r : pystr) :
  forallb isspace l = true -> forallb isspace r = true ->
  strip (l ++ t ++ r) = strip t.
Proof.
  intros Hl Hr. unfold strip. rewrite lstrip_spaces by exact Hl. rewrite lstrip_app.
  destruct (forallb isspace t) eqn:Ht.
  - rewrite (lstrip_all_spaces _ Hr), (lstrip_all_spaces _ Ht). reflexivity.
  - now rewrite strip_spaces_right.
Qed.

Lemma lstrip_head (c : char) (s : pystr) :
  isspace c = false -> lstrip (c :: s) = c :: s.
Proof. intros H. simpl. now rewrite H. Qed.

(** A string that starts and ends with a character that is no space is its
    own [strip]. *)
Lemma strip_tight (s : pystr) :
  isspace (hd 32%N s) = false -> isspace (last s 32%N) = false ->
  strip s = s.
Proof.
  intros Hc Hd. unfold strip. destruct s as [|c s]; [reflexivity|].
  rewrite lstrip_head by exact Hc.
  destruct (@exists_last _ (c :: s)) as (s' & d & Hs); [discriminate|].
  rewrite Hs in *. rewrite last_last in Hd.
  rewrite rev_app_distr. simpl rev at 2. cbn [app].
  rewrite lstrip_head by exact Hd.
  change (d :: rev s') with (rev [d] ++ rev s')%list.
  now rewrite <- rev_app_distr, rev_involutive.
Qed.

Lemma startswith_app (p s : pystr) : startswith p (p ++ s) = true.
Proof.
  induction p as [|a p IH]; simpl; [reflexivity|].
  unfold char_eqb. now rewrite N.eqb_refl.
Qed.

Lemma remove_all_aux_skip (old pre s : pystr) :
  remove_all_aux old (length pre) (pre ++ s) = remove_all_aux old 0 s.
Proof.
  induction pre as [|c pre IH]; simpl; [reflexivity | exact IH].
Qed.

(** An occurrence at the front is removed. *)
Lemma remove_all_front (a : char) (old s : pystr) :
  remove_all (a :: old) ((a :: old) ++ s) = remove_all (a :: old) s.
Proof.
  unfold remove_all. cbn [app]. cbn [remove_all_aux].
  change (a :: (old ++ s)%list) with ((a :: old) ++ s)%list.
  rewrite startswith_app.
  replace (length (a :: old) - 1) with (length old) by (simpl; lia).
  apply remove_all_aux_skip.
Qed.

(** Characters other than the first one of [old] are kept. *)
Lemma remove_all_aux_keeps (a : char) (old body rest : pystr) :
  Forall (fun c => c <> a) body ->
  remove_all_aux (a :: old) 0 (body ++ rest) =
  (body ++ remove_all_aux (a :: old) 0 rest)%list.
Proof.
  induction 1 as [|c body Hc _ IH]; [reflexivity|].
  cbn [app remove_all_aux startswith]. unfold char_eqb at 1.
  destruct (N.eqb_spec a c) as [->|_]; [congruence|]. cbn [andb].
  now rewrite IH.
Qed.

Lemma fenced_tight (tag body : pystr) :
  tag = lit "```json" \/ tag = lit "```" ->
  strip (tag ++ body ++ lit "```") = (tag ++ body ++ lit "```")%list.
Proof.
  intros Htag. apply strip_tight.
  - destruct Htag as [-> | ->]; reflexivity.
  - change (lit "```") with ([96; 96] ++ [96])%N%list.
    rewrite !app_assoc, last_last. reflexivity.
Qed.

Lemma remove_all_aux_copy (old : pystr) (c : char) (s : pystr) :
  startswith old (c :: s) = false ->
  remove_all_aux old 0 (c :: s) = c :: remove_all_aux old 0 s.
Proof. intros H. cbn [remove_all_aux]. now rewrite H. Qed.

Lemma startswith_cons_same (a : char) (p s : pystr) :
  startswith (a :: p) (a :: s) = startswith p s.
Proof. cbn [startswith]. unfold char_eqb. now rewrite N.eqb_refl. Qed.

Lemma fence_inside (p body : pystr) :
  Forall (fun c => c <> backtick) body ->
  startswith (96%N :: p) (lit "```") = false ->
  startswith (96%N :: p) (body ++ lit "```") = false.
Proof.
  intros Hbody Hp. destruct body as [|c body]; [exact Hp|].
  inversion_clear Hbody as [|? ? Hc _]. cbn [app startswith]. unfold char_eqb.
  destruct (N.eqb_spec 96 c) as [<-|_]; [now elim Hc | reflexivity].
Qed.

Lemma json_tag_not_split (body : pystr) :
  startswith (lit "json") (body ++ lit "```") = startswith (lit "json") body.
Proof.
  destruct body as [|a [|b [|c [|d body]]]]; try reflexivity;
    cbn [app startswith lit]; unfold char_eqb;
    change (lit "json") with [106; 115; 111; 110]%N;
    change (lit "```") with [96; 96; 96]%N; cbn [app startswith];
    unfold char_eqb;
    repeat match goal with
           | |- context [N.eqb ?x ?y] =>
               is_var y; destruct (N.eqb x y); cbn [andb]; try reflexivity
           end.
Qed.

(** What [clean_response] makes of a fenced answer. *)
Lemma clean_response_fenced (body : pystr) :
  Forall (fun c => c <> backtick) body ->
  clean_response (lit "```json" ++ body ++ lit "```") = strip body /\
  (startswith (lit "json") body = false ->
   clean_response (lit "```" ++ body ++ lit "```") = strip body).
Proof.
  intros Hbody.
  assert (H2 : remove_all (lit "```") (body ++ lit "```") = body).
  { unfold remove_all. change (lit "```") with [96; 96; 96]%N at 1.
    rewrite remove_all_aux_keeps by exact Hbody.
    change (remove_all_aux [96; 96; 96]%N 0 (lit "```")) with (@nil char).
    apply app_nil_r. }
  assert (H1 : remove_all (lit "```json") (body ++ lit "```") =
               (body ++ lit "```")%list).
  { unfold remove_all. change (lit "```json") with (96%N :: skipn 1 (lit "```json")).
    rewrite remove_all_aux_keeps by exact Hbody. reflexivity. }
  split; [|intros Hj]; unfold clean_response; cbv zeta.
  - rewrite fenced_tight by (now left).
    change (startswith (lit "```") (lit "```json" ++ body ++ lit "```")) with true.
    cbv iota. f_equal.
    change (lit "```json") with (96%N :: skipn 1 (lit "```json")).
    rewrite remove_all_front.
    change (96%N :: skipn 1 (lit "```json")) with (lit "```json").
    now rewrite H1, H2.
  - rewrite fenced_tight by (now right).
    change (startswith (lit "```") (lit "```" ++ body ++ lit "```")) with true.
    cbv iota. f_equal.
    assert (H3 : remove_all (lit "```json") (lit "```" ++ body ++ lit "```") =
                 (lit "```" ++ body ++ lit "```")%list).
    { unfold remove_all.
      change (lit "```json") with (96 :: 96 :: 96 :: lit "json")%N.
      change (lit "```" ++ body ++ lit "```")%list
        with (96 :: 96 :: 96 :: (body ++ lit "```"))%N%list.
      rewrite remove_all_aux_copy.
      2:{ rewrite !startswith_cons_same, json_tag_not_split. exact Hj. }
      rewrite remove_all_aux_copy.
      2:{ rewrite !startswith_cons_same.
          apply fence_inside; [exact Hbody | reflexivity]. }
      rewrite remove_all_aux_copy.
      2:{ rewrite startswith_cons_same.
          apply fence_inside; [exact Hbody | reflexivity]. }
      do 3 f_equal. exact H1. }
    rewrite H3.
    change (lit "```") with [96; 96; 96]%N at 1 2.
    rewrite remove_all_front. exact H2.
Qed.

Lemma lstrip_incl (c : char) (s : pystr) : In c (lstrip s) -> In c s.
Proof.
  induction s as [|a s IH]; simpl; [tauto|].
  destruct (isspace a); [right; auto | intros H; exact H].
Qed.

Lemma strip_incl (c : char) (s : pystr) : In c (strip s) -> In c s.
Proof.
  unfold strip. intros H. apply in_rev, lstrip_incl, in_rev in H.
  now apply lstrip_incl.
Qed.

(** Without a backtick there is no fence to remove. *)
Lemma clean_response_plain (text : pystr) :
  Forall (fun c => c <> backtick) text -> clean_response text = strip text.
Proof.
  intros H. unfold clean_response. cbv zeta.
  destruct (strip text) as [|c s] eqn:Hs; [reflexivity|].
  assert (Hc : c <> backtick).
  { rewrite Forall_forall in H. apply H, strip_incl. rewrite Hs. now left. }
  change (lit "```") with [96; 96; 96]%N. cbn [startswith]. unfold char_eqb.
  destruct (N.eqb_spec 96 c) as [<-|_]; [now elim Hc | reflexivity].
Qed.

(** X10: an answer of the model is parsed the same with and without white
    space around it. *)
Theorem parse_json_response_ignores_padding
    (json_loads : pystr -> option pyval) (l text r : pystr) :
  forallb isspace l = true -> forallb isspace r = true ->
  parse_json_response json_loads (l ++ text ++ r) =
  parse_json_response json_loads text.
Proof.
  intros Hl Hr. unfold parse_json_response, clean_response.
  now rewrite strip_surrounded.
Qed.

Lemma parse_json_response_ignores_padding_witness :
  forallb isspace (lit "
  ") = true /\ forallb isspace (lit " 
") = true /\
  parse_json_response Sample.json_loads (lit "
  " ++ lit "{}" ++ lit " 
") = parse_json_response Sample.json_loads (lit "{}").
Proof.
  split; [reflexivity|]. split; [reflexivity|].
  apply parse_json_response_ignores_padding; reflexivity.
Defined.

(** X11: an answer between code fences, with or without the [json] tag, is
    parsed as the text between the fences, when that text has no backtick
    and, after an untagged fence, does not start with [json]. *)
Theorem parse_json_response_unwraps_fence
    (json_loads : pystr -> option pyval) (body : pystr) :
  Forall (fun c => c <> backtick) body ->
  parse_json_response json_loads (lit "```json" ++ body ++ lit "```") =
    parse_json_response json_loads body /\
  (startswith (lit "json") body = false ->
   parse_json_response json_loads (lit "```" ++ body ++ lit "```") =
     parse_json_response json_loads body).
Proof.
  intros Hbody. destruct (clean_response_fenced Hbody) as [H1 H2].
  unfold parse_json_response. rewrite H1, (clean_response_plain Hbody).
  split; [reflexivity|]. intros Hj. now rewrite (H2 Hj).
Qed.

(* ================================================================== *)
(** ** The prompts *)

(** [strip] of a text that ends, up to white space, with a block [t] that
    starts and ends with a character that is no space. *)
Lemma strip_keeps_block (s t w : pystr) :
  isspace (hd 32%N t) = false -> isspace (last t 32%N) = false ->
  forallb isspace w = true ->
  strip (s ++ t ++ w) = (lstrip s ++ t)%list.
Proof.
  intros Hh Hl Hw. destruct t as [|c t]; [discriminate|]. cbn [hd] in Hh.
  assert (H1 : lstrip (s ++ (c :: t) ++ w) = (lstrip s ++ (c :: t) ++ w)%list).
  { rewrite lstrip_app. destruct (forallb isspace s) eqn:Hs.
    - rewrite (lstrip_all_spaces _ Hs). cbn [app]. now apply lstrip_head.
    - reflexivity. }
  unfold strip. rewrite H1, app_assoc, strip_spaces_right by exact Hw.
  destruct (@exists_last _ (c :: t)) as (t' & d & Ht); [discriminate|].
  rewrite Ht in *. rewrite last_last in Hl.
  rewrite app_assoc, rev_app_distr. simpl rev at 2. cbn [app].
  rewrite lstrip_head by exact Hl.
  change (d :: rev (lstrip s ++ t')) with (rev [d] ++ rev (lstrip s ++ t'))%list.
  now rewrite <- rev_app_distr, rev_involutive.
Qed.

(** X12: the image prompt of a brief.  A brief that is no dict raises
    [AttributeError]; for a dict, the prompt is the concept without the white
    space before it (nothing at all for a blank or missing concept), the
    scene, the visual style, the style block (the override when one is given,
    the default style otherwise), the key message and the fixed closing
    lines, with nothing after them. *)
Theorem generate_image_prompt_result (E : env) (brief : pyval)
    (style_override : pystr) :
  match brief with
  | PDict d =>
      let get k := py_str E (field d k) in
      generate_image_prompt E brief style_override =
      Ok (lstrip (get (lit "concept") ++ lit "

") ++
          lit "Scene description: " ++ get (lit "scene_description") ++ lit "

Visual style: " ++ get (lit "visual_style") ++ lit "

" ++ match style_override with
     | [] => DEFAULT_IMAGE_STYLE
     | _ => style_override
     end ++ lit "

Key message to convey: " ++ get (lit "key_message") ++ lit "

" ++ image_prompt_closing)%list
  | _ => generate_image_prompt E brief style_override = Raise AttributeError
  end.
Proof.
  destruct brief as [| | | | | |d]; try reflexivity.
  cbv zeta. unfold generate_image_prompt. cbn [Py.get and_then].
  fold (field d (lit "concept")) (field d (lit "scene_description"))
       (field d (lit "visual_style")) (field d (lit "key_message")).
  f_equal.
  set (c := py_str E (field d (lit "concept"))).
  set (s := py_str E (field d (lit "scene_description"))).
  set (v := py_str E (field d (lit "visual_style"))).
  set (m := py_str E (field d (lit "key_message"))).
  set (b := match style_override with [] => DEFAULT_IMAGE_STYLE | _ => style_override end).
  match goal with
  | |- strip (?p0 ++ c ++ ?p1 ++ s ++ ?p2 ++ v ++ ?p3 ++ b ++ ?p4 ++ m ++ ?p5)%list = _ =>
      assert (H0 : p0 = [10%N]) by (vm_compute; reflexivity);
      assert (H1 : p1 = (lit "

" ++ lit "Scene description: ")%list) by (vm_compute; reflexivity);
      assert (H5 : p5 = (lit "

" ++ image_prompt_closing ++ [10%N])%list) by (vm_compute; reflexivity);
      rewrite H0, H1, H5; clear H0 H1 H5
  end.
  set (closing := image_prompt_closing).
  set (T := (lit "Scene description: " ++ s ++ lit "

Visual style: " ++ v ++ lit "

" ++ b ++ lit "

Key message to convey: " ++ m ++ lit "

" ++ closing)%list).
  set (head := ([10%N] ++ c ++ lit "

")%list).
  match goal with
  | |- strip ?text = _ =>
      replace text with (head ++ T ++ [10%N])%list
        by (unfold head, T; rewrite <- !app_assoc; reflexivity)
  end.
  transitivity (lstrip head ++ T)%list.
  - apply strip_keeps_block; [reflexivity | | reflexivity].
    assert (Hc : closing = (removelast closing ++ [46%N])%list)
      by (vm_compute; reflexivity).
    unfold T. rewrite Hc, !app_assoc, last_last. reflexivity.
  - unfold head. rewrite (@lstrip_spaces [10%N]) by reflexivity. reflexivity.
Qed.

(* ================================================================== *)
(** ** The video prompts in the exported report *)

Lemma firstn_long_prefix (A : Type) (n : nat) (p r r' : list A) :
  n <= length p -> firstn n (p ++ r) = firstn n (p ++ r').
Proof.
  intros H. rewrite !firstn_app.
  replace (n - length p) with 0 by lia. reflexivity.
Qed.

(** The first 600 characters of a style text, under any header, are those
    of the text with both fields empty. *)
Lemma style_texts_head (h narrative cta : pystr) :
  firstn 600 (h ++ style1 narrative cta) = firstn 600 (h ++ style1 [] []) /\
  firstn 600 (h ++ style2 narrative cta) = firstn 600 (h ++ style2 [] []) /\
  firstn 600 (h ++ style3 narrative cta) = firstn 600 (h ++ style3 [] []).
Proof.
  unfold style1, style2, style3.
  repeat match goal with |- _ /\ _ => split end;
    match goal with
    | |- firstn 600 (h ++ ?a ++ ?b ++ ?c ++ narrative ++ ?r)%list =
         firstn 600 (h ++ ?a ++ ?b ++ ?c ++ ?r')%list =>
        assert (Hl : 600 <= length (a ++ b ++ c)%list)
          by (vm_compute; repeat constructor);
        replace (h ++ a ++ b ++ c ++ narrative ++ r)%list
          with ((h ++ a ++ b ++ c) ++ narrative ++ r)%list
          by (rewrite <- !app_assoc; reflexivity);
        replace (h ++ a ++ b ++ c ++ r')%list
          with ((h ++ a ++ b ++ c) ++ r')%list
          by (rewrite <- !app_assoc; reflexivity);
        apply firstn_long_prefix; rewrite length_app; lia
    end.
Qed.

Lemma report_same_prompts (E : env) (p : dict) (analysis : option dict)
    (images : option (list bytes)) (vp vp' : option (list pystr)) :
  (forall y, section_video_prompts E vp y = section_video_prompts E vp' y) ->
  create_pdf_report E p analysis images vp =
  create_pdf_report E p analysis images vp'.
Proof.
  intros H. unfold create_pdf_report. cbv zeta.
  destruct analysis as [[|kv a]|]; try reflexivity.
  assert (Hs : sections E (kv :: a) images vp = sections E (kv :: a) images vp').
  { unfold sections. apply bind_ext. intros y. apply bind_ext. exact H. }
  now rewrite Hs.
Qed.

(** The section of the report made of a list of texts, as the export passes
    it. *)
Lemma export_same_prompts (E : env) (p : dict) (analysis : option dict)
    (images : option (list bytes)) (l l' : list pystr) :
  map (firstn 600) (firstn 9 l) = map (firstn 600) (firstn 9 l') ->
  create_pdf_report E p analysis images
    (match l with [] => None | _ => Some l end) =
  create_pdf_report E p analysis images
    (match l' with [] => None | _ => Some l' end).
Proof.
  intros H. apply report_same_prompts. intros y.
  destruct l as [|t l], l' as [|t' l']; try discriminate; [reflexivity|].
  now apply section_video_prompts_reads.
Qed.

Lemma video_set_texts (E : env) (brief : pyval) (s : dict) (idx : nat) :
  generate_video_prompts_3styles E brief = Ok s ->
  exists narrative cta,
    set_texts E idx (PDict s) =
    Ok [((lit "[세트 " ++ str_of_nat idx ++ lit " - 다큐멘터리]
") ++ style1 narrative cta)%list;
        ((lit "[세트 " ++ str_of_nat idx ++ lit " - 시네마틱]
") ++ style2 narrative cta)%list;
        ((lit "[세트 " ++ str_of_nat idx ++ lit " - 모던 다이내믹]
") ++ style3 narrative cta)%list].
Proof.
  unfold generate_video_prompts_3styles. intros H.
  destruct (Py.get brief (lit "narrative_arc") (PStr [])) as [n|e];
    [|discriminate].
  destruct (Py.get brief (lit "call_to_action") (PStr [])) as [c|e];
    [|discriminate].
  cbn [and_then] in H. injection H as <-.
  exists (py_str E n), (py_str E c).
  unfold set_texts. cbn [Py.get Py.lookup and_then].
  assert (H1 : PyStr.eqb (lit "documentary") (lit "documentary") = true)
    by (vm_compute; reflexivity).
  assert (H2 : PyStr.eqb (lit "cinematic") (lit "documentary") = false)
    by (vm_compute; reflexivity).
  assert (H3 : PyStr.eqb (lit "cinematic") (lit "cinematic") = true)
    by (vm_compute; reflexivity).
  assert (H4 : PyStr.eqb (lit "modern_dynamic") (lit "documentary") = false)
    by (vm_compute; reflexivity).
  assert (H5 : PyStr.eqb (lit "modern_dynamic") (lit "cinematic") = false)
    by (vm_compute; reflexivity).
  assert (H6 : PyStr.eqb (lit "modern_dynamic") (lit "modern_dynamic") = true)
    by (vm_compute; reflexivity).
  rewrite H1, H2, H3, H4, H5, H6. rewrite <- !app_assoc. reflexivity.
Qed.

Lemma alike_refl (r : result (list pystr)) : alike r r.
Proof. destruct r; reflexivity. Qed.

Lemma video_texts_alike (E : env) (b1 b2 : pyval) (s1 s2 : dict)
    (before after : list pyval) :
  generate_video_prompts_3styles E b1 = Ok s1 ->
  generate_video_prompts_3styles E b2 = Ok s2 ->
  forall idx,
    alike (video_texts_from E idx (before ++ PDict s1 :: after))
          (video_texts_from E idx (before ++ PDict s2 :: after)).
Proof.
  intros H1 H2. induction before as [|x before IH]; intros idx.
  - cbn [app video_texts_from].
    destruct (@video_set_texts E b1 s1 idx H1) as (n1 & c1 & ->).
    destruct (@video_set_texts E b2 s2 idx H2) as (n2 & c2 & ->).
    cbn [and_then].
    destruct (video_texts_from E (S idx) after) as [rest|e]; [|reflexivity].
    cbn [and_then alike app map].
    pose proof (fun h => proj1 (style_texts_head h n1 c1)) as A1.
    pose proof (fun h => proj1 (proj2 (style_texts_head h n1 c1))) as A2.
    pose proof (fun h => proj2 (proj2 (style_texts_head h n1 c1))) as A3.
    pose proof (fun h => proj1 (style_texts_head h n2 c2)) as B1.
    pose proof (fun h => proj1 (proj2 (style_texts_head h n2 c2))) as B2.
    pose proof (fun h => proj2 (proj2 (style_texts_head h n2 c2))) as B3.
    f_equal; [etransitivity; [apply A1 | symmetry; apply B1]|].
    f_equal; [etransitivity; [apply A2 | symmetry; apply B2]|].
    f_equal; etransitivity; [apply A3 | symmetry; apply B3].
  - cbn [app video_texts_from].
    destruct (set_texts E idx x) as [ts|e]; [|reflexivity]. cbn [and_then].
    specialize (IH (S idx)). unfold alike in *.
    destruct (video_texts_from E (S idx) (before ++ PDict s1 :: after)) as [l|e],
             (video_texts_from E (S idx) (before ++ PDict s2 :: after)) as [l'|e'];
      cbn [and_then]; try exact IH.
    rewrite !map_app. f_equal. exact IH.
Qed.

(** X13: the narrative and the call to action of a video brief never reach
    the exported report.  Whatever brief a prompt set was generated from,
    and whatever the other prompt sets are, the export builds the same
    PDF. *)
Theorem export_pdf_blind_to_video_brief (E : env) (policy : dict)
    (analysis : option dict) (image_bytes : list bytes)
    (brief1 brief2 : pyval) (set1 set2 : dict) (before after : list pyval) :
  generate_video_prompts_3styles E brief1 = Ok set1 ->
  generate_video_prompts_3styles E brief2 = Ok set2 ->
  export_pdf E policy analysis image_bytes (before ++ PDict set1 :: after) =
  export_pdf E policy analysis image_bytes (before ++ PDict set2 :: after).
Proof.
  intros H1 H2. unfold export_pdf.
  pose proof (@video_texts_alike E brief1 brief2 set1 set2 before after H1 H2 1) as Ha. unfold alike in Ha.
  destruct (video_texts_from E 1 (before ++ PDict set1 :: after)) as [l|e],
           (video_texts_from E 1 (before ++ PDict set2 :: after)) as [l'|e'];
    cbn [and_then].
  - apply export_same_prompts. rewrite <- !firstn_map. f_equal. exact Ha.
  - destruct Ha.
  - destruct Ha.
  - f_equal. exact Ha.
Qed.

Lemma set_texts_dict (E : env) (idx : nat) (d : dict) :
  exists a b c, set_texts E idx (PDict d) = Ok [a; b; c].
Proof. unfold set_texts. cbn [Py.get and_then]. eauto. Qed.

Lemma video_texts_from_firstn (E : env) (sets : list dict) :
  forall k idx, exists l,
    video_texts_from E idx (map PDict sets) = Ok l /\
    video_texts_from E idx (map PDict (firstn k sets)) = Ok (firstn (3 * k) l).
Proof.
  induction sets as [|d sets IH]; intros k idx.
  - exists []. rewrite firstn_nil. cbn [map video_texts_from].
    now rewrite firstn_nil.
  - destruct (set_texts_dict E idx d) as (a & b & c & Hd).
    destruct k as [|k].
    + destruct (IH 0 (S idx)) as (l & Hl & _).
      exists (a :: b :: c :: l). cbn [map video_texts_from firstn].
      rewrite Hd, Hl. split; reflexivity.
    + destruct (IH k (S idx)) as (l & Hl & Hk).
      exists (a :: b :: c :: l). cbn [map video_texts_from firstn].
      rewrite Hd, Hl, Hk. cbn [and_then app]. split; [reflexivity|].
      replace (3 * S k) with (S (S (S (3 * k)))) by lia. reflexivity.
Qed.

(** X14: the exported report shows the prompts of the first three prompt
    sets only: the sets after the third change nothing in the PDF. *)
Theorem export_pdf_first_three_sets (E : env) (policy : dict)
    (analysis : option dict) (image_bytes : list bytes) (sets : list dict) :
  export_pdf E policy analysis image_bytes (map PDict sets) =
  export_pdf E policy analysis image_bytes (map PDict (firstn 3 sets)).
Proof.
  unfold export_pdf.
  destruct (video_texts_from_firstn E sets 3 1) as (l & -> & ->).
  cbn [and_then]. apply export_same_prompts.
  change (3 * 3) with 9. now rewrite firstn_firstn.
Qed.

(* ================================================================== *)
(** ** Documents that are produced, documents that are not *)

Lemma raises_bind_l (A B : Type) (m : M A) (f : A -> M B) :
  raises m -> raises (bind m f).
Proof. intros [e ->]. now exists e. Qed.

Lemma raises_bind_r (A B : Type) (m : M A) (f : A -> M B) :
  (forall a, raises (f a)) -> raises (bind m f).
Proof.
  intros H. destruct m as [[a w]|e]; [|now exists e].
  destruct (H a) as [e He]. exists e. simpl. now rewrite He.
Qed.

Lemma returns_ret (A : Type) (a : A) : returns (ret a).
Proof. now exists a, []. Qed.

Lemma returns_emit (o : op) : returns (emit o).
Proof. now exists tt, [o]. Qed.

Lemma returns_bind (A B : Type) (m : M A) (f : A -> M B) :
  returns m -> (forall a, returns (f a)) -> returns (bind m f).
Proof.
  intros (a & w & ->) H. destruct (H a) as (b & w' & Hb).
  exists b, (w ++ w')%list. simpl. now rewrite Hb.
Qed.

Lemma returns_lift (A : Type) (a : A) : returns (lift (Ok a)).
Proof. now exists a, []. Qed.

Lemma returns_if (A : Type) (b : bool) (m1 m2 : M A) :
  returns m1 -> returns m2 -> returns (if b then m1 else m2).
Proof. now destruct b. Qed.

Lemma returns_for_each (A : Type) (body : A -> float -> M float) (xs : list A) :
  (forall x y, In x xs -> returns (body x y)) ->
  forall y, returns (for_each xs body y).
Proof.
  induction xs as [|x xs IH]; intros H y; [apply returns_ret|].
  cbn [for_each]. apply returns_bind; [apply H; now left|].
  intros y'. apply IH. intros x' y'' Hin. apply H. now right.
Qed.

Section Returning.

Variable E : env.

Lemma returns_new_page : returns new_page.
Proof. unfold new_page. apply returns_bind; [apply returns_emit|]. intros _. apply returns_ret. Qed.

Lemma returns_break_if_low (y : float) : returns (break_if_low y).
Proof.
  unfold break_if_low. apply returns_if; [apply returns_new_page | apply returns_ret].
Qed.

Lemma returns_add_heading (y : float) (text : pystr) (size : Z) :
  returns (add_heading E y text size).
Proof.
  unfold add_heading.
  apply returns_bind; [apply returns_if; [apply returns_new_page | apply returns_ret]|].
  intros y1. apply returns_bind; [apply returns_emit|]. intros _.
  apply returns_bind; [apply returns_emit|]. intros _. apply returns_ret.
Qed.

Lemma returns_add_text (y : float) (text : pystr) (size indent : Z) :
  returns (add_text E y text size indent).
Proof.
  unfold add_text. cbv zeta.
  apply returns_bind; [apply returns_if; [apply returns_new_page | apply returns_ret]|].
  intros y1. apply returns_bind; [apply returns_emit|]. intros _.
  apply returns_bind; [|intros y2; apply returns_ret].
  apply returns_for_each. intros line y2 _.
  apply returns_bind.
  - apply returns_if; [|apply returns_ret].
    apply returns_bind; [apply returns_new_page|]. intros y3.
    apply returns_bind; [apply returns_emit|]. intros _. apply returns_ret.
  - intros y3. apply returns_bind; [apply returns_emit|]. intros _.
    apply returns_ret.
Qed.

Lemma returns_if_get (d : dict) (k : pystr) (body : pyval -> float -> M float)
    (y : float) :
  (forall v, Py.lookup k d = Some v -> Py.truthy v = true -> returns (body v y)) ->
  returns (if_get (PDict d) k body y).
Proof.
  intros H. unfold if_get. cbn [Py.get Py.index lift bind].
  destruct (Py.lookup k d) as [v|] eqn:Hk; cbn [Py.truthy].
  - destruct (Py.truthy v) eqn:Ht; [|apply returns_ret].
    cbn [lift bind]. specialize (H v eq_refl Ht).
    destruct H as (y' & w & ->). now exists y', w.
  - apply returns_ret.
Qed.

Lemma returns_if_in (d : dict) (k : pystr) (body : pyval -> float -> M float)
    (y : float) :
  (forall v, Py.lookup k d = Some v -> returns (body v y)) ->
  returns (if_in (PDict d) k body y).
Proof.
  intros H. unfold if_in. cbn [Py.contains Py.index lift bind].
  destruct (Py.lookup k d) as [v|] eqn:Hk; [|apply returns_ret].
  cbn [lift bind]. destruct (H v eq_refl) as (y' & w & ->). now exists y', w.
Qed.

Lemma returns_list_block (field label : pystr) (cap : nat)
    (body : nat -> pyval -> float -> M float) (ok : pyval -> bool)
    (sec : dict) (y : float) :
  list_field ok cap sec field = true ->
  (forall idx x y, ok x = true -> returns (body idx x y)) ->
  returns (list_block E field label cap body (PDict sec) y).
Proof.
  intros Hf Hb. unfold list_block. apply returns_if_get. intros v Hv Ht.
  unfold list_field in Hf. rewrite Hv, Ht in Hf. cbn [negb orb] in Hf.
  destruct v as [| | | | |l|]; try discriminate.
  apply returns_bind; [apply returns_add_text|]. intros y1.
  cbn [Py.slice_items lift bind].
  assert (Hg : returns (for_each (Py.enumerate 1 (firstn cap l))
                          (fun ix y => body (fst ix) (snd ix) y) y1)).
  { apply returns_for_each. intros [i x] y2 Hin. apply Hb.
    rewrite forallb_forall in Hf. apply Hf.
    apply (in_map snd) in Hin. now rewrite enumerate_items in Hin. }
  destruct Hg as (y' & w & ->). now exists y', w.
Qed.

End Returning.

Ltac returns_step :=
  lazymatch goal with
  | |- returns (lift (Py.get (PDict _) _ _)) => apply returns_lift
  | |- returns (bind _ _) => apply returns_bind; [|intros ?]
  | |- returns (ret _) => apply returns_ret
  | |- returns (add_text _ _ _ _ _) => apply returns_add_text
  | |- returns (add_heading _ _ _ _) => apply returns_add_heading
  | |- returns (break_if_low _) => apply returns_break_if_low
  | |- returns new_page => apply returns_new_page
  | |- returns (emit _) => apply returns_emit
  | |- returns (if_get (PDict _) _ _ _) =>
      apply returns_if_get; intros ? ? ?
  end.

Lemma is_record_dict (v : pyval) : is_record v = true -> exists d, v = PDict d.
Proof. destruct v; try discriminate. eauto. Qed.

Section ReturningSections.

Variable E : env.

Lemma returns_numbered_item idx x y :
  any_value x = true -> returns (numbered_item E idx x y).
Proof. intros _. apply returns_add_text. Qed.

Lemma returns_bullet_item idx x y :
  any_value x = true -> returns (bullet_item E idx x y).
Proof. intros _. apply returns_add_text. Qed.

Lemma returns_action_item idx x y :
  is_record x = true -> returns (action_item E idx x y).
Proof.
  intros H. apply is_record_dict in H as [d ->]. unfold action_item.
  repeat returns_step.
Qed.

Lemma returns_channel_item idx x y :
  is_record x = true -> returns (channel_item E idx x y).
Proof.
  intros H. apply is_record_dict in H as [d ->]. unfold channel_item.
  repeat returns_step.
Qed.

Lemma returns_post_item idx x y :
  is_record x = true -> returns (post_item E idx x y).
Proof.
  intros H. apply is_record_dict in H as [d ->]. unfold post_item.
  repeat returns_step.
Qed.

Lemma returns_kpi_item idx x y :
  is_record x = true -> returns (kpi_item E idx x y).
Proof.
  intros H. apply is_record_dict in H as [d ->]. unfold kpi_item.
  repeat returns_step.
Qed.

Lemma returns_stakeholder_item idx x y :
  is_record x = true -> returns (stakeholder_item E idx x y).
Proof.
  intros H. apply is_record_dict in H as [d ->]. unfold stakeholder_item.
  repeat returns_step.
Qed.

Lemma returns_objection_item idx x y :
  is_record x = true -> returns (objection_item E idx x y).
Proof.
  intros H. apply is_record_dict in H as [d ->]. unfold objection_item.
  repeat returns_step.
Qed.

Lemma returns_image_brief (label : pystr) (b : pyval) (y : float) :
  is_record b = true -> returns (image_brief E label b y).
Proof.
  intros H. apply is_record_dict in H as [d ->]. unfold image_brief.
  repeat returns_step.
Qed.

(** A section under its presence check: the heading, then the body when
    the section is there. *)
Lemma returns_section (title key : pystr) (shape : dict -> bool)
    (body : pyval -> float -> M float) (a : dict) (y : float) :
  section_is shape a key = true ->
  (forall sec y, shape sec = true -> returns (body (PDict sec) y)) ->
  returns (y <- add_heading E y title 16 ;; if_in (PDict a) key body y).
Proof.
  intros Hs Hb. apply returns_bind; [apply returns_add_heading|]. intros y1.
  apply returns_if_in. intros v Hv. unfold section_is in Hs. rewrite Hv in Hs.
  destruct v as [| | | | | |sec]; try discriminate. now apply Hb.
Qed.

Lemma record_if_present_dict (sec : dict) (k : pystr) (v : pyval) :
  record_if_present sec k = true -> Py.lookup k sec = Some v ->
  is_record v = true.
Proof. unfold record_if_present. intros H Hv. now rewrite Hv in H. Qed.

Lemma returns_numbered_sections (a : dict) :
  well_formed a = true -> returns (numbered_sections E a).
Proof.
  unfold well_formed. rewrite !andb_true_iff.
  intros ((((((H1 & H2) & H3) & H4) & H5) & H6) & H7).
  unfold numbered_sections.
  apply returns_bind; [apply returns_new_page|]. intros y0.
  apply returns_bind.
  { unfold section_policy_planning.
    eapply returns_section; [exact H1|]. intros sec y.
    rewrite andb_true_iff. intros [Ha Hb].
    unfold planning_key_strategies, planning_expected_outcomes.
    apply returns_bind; [repeat returns_step|]. intros y1.
    apply returns_bind; [repeat returns_step|]. intros y2.
    apply returns_bind.
    - eapply returns_list_block; [exact Ha | apply returns_numbered_item].
    - intros y3. eapply returns_list_block; [exact Hb | apply returns_bullet_item]. }
  intros y1. apply returns_bind; [apply returns_break_if_low|]. intros y1'.
  apply returns_bind.
  { unfold section_execution_plan.
    eapply returns_section; [exact H2|]. intros sec y.
    rewrite andb_true_iff. intros [Ha Hb].
    unfold execution_action_items.
    apply returns_bind;
      [eapply returns_list_block; [exact Ha | apply returns_action_item]|].
    intros y2. apply returns_if_get. intros v Hv Ht.
    unfold record_if_truthy in Hb. rewrite Hv, Ht in Hb.
    apply is_record_dict in Hb as [d ->]. repeat returns_step. }
  intros y2. apply returns_bind; [apply returns_break_if_low|]. intros y2'.
  apply returns_bind.
  { unfold section_communication_strategy.
    eapply returns_section; [exact H3|]. intros sec y.
    rewrite andb_true_iff. intros [Ha Hb].
    unfold comm_key_messages, comm_channels.
    apply returns_bind;
      [eapply returns_list_block; [exact Ha | apply returns_numbered_item]|].
    intros y3. eapply returns_list_block; [exact Hb | apply returns_channel_item]. }
  intros y3. apply returns_bind; [apply returns_break_if_low|]. intros y3'.
  apply returns_bind.
  { unfold section_content_briefs.
    eapply returns_section; [exact H4|]. intros sec y.
    rewrite !andb_true_iff. intros [[Ha Hb] Hc].
    apply returns_bind.
    { apply returns_if_in. intros v Hv. apply returns_image_brief.
      exact (@record_if_present_dict _ _ _ Ha Hv). }
    intros y4. apply returns_bind.
    { apply returns_if_in. intros v Hv. apply returns_image_brief.
      exact (@record_if_present_dict _ _ _ Hb Hv). }
    intros y5. apply returns_if_in. intros v Hv.
    pose proof (@record_if_present_dict _ _ _ Hc Hv) as Hd.
    apply is_record_dict in Hd as [d ->]. repeat returns_step. }
  intros y4. apply returns_bind; [apply returns_break_if_low|]. intros y4'.
  apply returns_bind.
  { unfold section_marketing_materials.
    eapply returns_section; [exact H5|]. intros sec y Ha.
    unfold marketing_social_media_posts.
    apply returns_bind; [repeat returns_step|]. intros y5.
    apply returns_bind; [repeat returns_step|]. intros y6.
    apply returns_bind; [repeat returns_step|]. intros y7.
    eapply returns_list_block; [exact Ha | apply returns_post_item]. }
  intros y5. apply returns_bind; [apply returns_break_if_low|]. intros y5'.
  apply returns_bind.
  { unfold section_performance_metrics.
    eapply returns_section; [exact H6|]. intros sec y.
    rewrite andb_true_iff. intros [Ha Hb].
    unfold metrics_kpi_framework, metrics_success_criteria.
    apply returns_bind;
      [eapply returns_list_block; [exact Ha | apply returns_kpi_item]|].
    intros y6. eapply returns_list_block; [exact Hb | apply returns_bullet_item]. }
  intros y6. apply returns_bind; [apply returns_break_if_low|]. intros y6'.
  unfold section_stakeholder_management.
  eapply returns_section; [exact H7|]. intros sec y.
  rewrite andb_true_iff. intros [Ha Hb].
  unfold stakeholder_stakeholders, stakeholder_objection_handling.
  apply returns_bind;
    [eapply returns_list_block; [exact Ha | apply returns_stakeholder_item]|].
  intros y7. eapply returns_list_block; [exact Hb | apply returns_objection_item].
Qed.

Lemma returns_section_images (images : option (list bytes)) (y : float) :
  returns (section_images E images y).
Proof.
  unfold section_images. destruct images as [[|b imgs]|]; try apply returns_ret.
  apply returns_bind; [apply returns_break_if_low|]. intros y1.
  apply returns_bind; [apply returns_add_heading|]. intros y2.
  apply returns_for_each. intros [i x] y3 _. unfold draw_image.
  apply returns_bind; [apply returns_if; [apply returns_new_page | apply returns_ret]|].
  intros y4. unfold ImageReader. apply returns_ret.
Qed.

Lemma returns_section_video_prompts (video_prompts : option (list pystr))
    (y : float) :
  returns (section_video_prompts E video_prompts y).
Proof.
  unfold section_video_prompts.
  destruct video_prompts as [[|t l]|]; try apply returns_ret.
  apply returns_bind; [apply returns_new_page|]. intros y1.
  apply returns_bind; [apply returns_add_heading|]. intros y2.
  apply returns_for_each. intros [i x] y3 _. repeat returns_step.
Qed.

End ReturningSections.

(** X15: a report is always produced for a well-formed analysis, whatever
    the images and the prompt texts are.  The subject needs a title and a
    category that are texts (or are missing); in the analysis the sections
    that are present are dicts, their list fields are lists (or falsy), and
    the items and briefs that are read by field are dicts. *)
Theorem well_formed_analysis_renders (E : env) (policy a : dict)
    (images : option (list bytes)) (video_prompts : option (list pystr)) :
  subject_record policy -> well_formed a = true ->
  exists ops,
    create_pdf_report E policy (Some a) images video_prompts = Ok ops /\
    last ops ShowPage = Save.
Proof.
  intros Hp Ha.
  destruct (returns_numbered_sections E a Ha) as (y7 & w7 & H7).
  destruct (returns_section_images E images (y7 - 15)%float) as (y8 & w8 & H8).
  destruct (returns_section_video_prompts E video_prompts y8) as (y9 & w9 & H9).
  destruct a as [|kv a].
  - exists (cover_block E policy ++ [Save])%list. split; [|apply last_last].
    apply report_missing; [exact Hp | now right].
  - exists (cover_block E policy ++ w7 ++ w8 ++ w9 ++ [Save])%list.
    split; [|rewrite !app_assoc; apply last_last].
    eapply report_Ok; [discriminate | exact (cover_ok E Hp) | exact H7
                      | exact H8 | exact H9].
Qed.

Lemma raises_after (A B : Type) (m : M A) (f : A -> M B) :
  returns m -> (forall a, raises (f a)) -> raises (bind m f).
Proof. intros _. apply raises_bind_r. Qed.

Lemma if_get_no_dict (v : pyval) (k : pystr) (body : pyval -> float -> M float)
    (y : float) :
  is_record v = false -> if_get v k body y = Raise AttributeError.
Proof. destruct v; try discriminate; reflexivity. Qed.

Lemma if_in_present (d : dict) (k : pystr) (v : pyval)
    (body : pyval -> float -> M float) (y : float) :
  Py.lookup k d = Some v -> if_in (PDict d) k body y = bind (ret y) (body v).
Proof.
  intros H. unfold if_in. cbn [Py.contains Py.index]. rewrite H.
  cbn [lift bind ret]. destruct (body v y) as [[y' w]|e]; reflexivity.
Qed.

Section Aborting.

Variable E : env.

Lemma section_body_raises (t key : pystr) (body : pyval -> float -> M float)
    (a : dict) (v : pyval) (y : float) :
  Py.lookup key a = Some v ->
  (forall y, body v y = Raise AttributeError) ->
  raises (y <- add_heading E y t 16 ;; if_in (PDict a) key body y).
Proof.
  intros Hk Hb. apply raises_bind_r. intros y1.
  rewrite (@if_in_present a key v body y1 Hk). cbn [ret bind]. rewrite Hb.
  now exists AttributeError.
Qed.

Ltac abort_at sec H :=
  repeat lazymatch goal with
         | |- raises (bind ?m _) =>
             lazymatch m with
             | ?f _ _ _ =>
                 tryif constr_eq f sec
                 then (apply raises_bind_l; apply H)
                 else (apply raises_bind_r; intros ?)
             | _ => apply raises_bind_r; intros ?
             end
         | |- raises (sec _ _ _) => apply H
         end.

(** The body of each of these sections starts by reading a field of the
    section with [.get]. *)
Lemma numbered_sections_abort (k : pystr) (a : dict) (v : pyval) :
  In k sections_read_by_get -> Py.lookup k a = Some v -> is_record v = false ->
  raises (numbered_sections E a).
Proof.
  intros Hin Hv Hd.
  unfold sections_read_by_get in Hin. cbn [In] in Hin.
  destruct Hin as [<-|[<-|[<-|[<-|[<-|[<-|[]]]]]]].
  - assert (H : forall y, raises (section_policy_planning E a y)).
    { intros y. unfold section_policy_planning.
      eapply section_body_raises; [exact Hv|]. intros y1.
      now rewrite if_get_no_dict. }
    unfold numbered_sections. abort_at section_policy_planning H.
  - assert (H : forall y, raises (section_execution_plan E a y)).
    { intros y. unfold section_execution_plan.
      eapply section_body_raises; [exact Hv|]. intros y1.
      unfold execution_action_items, list_block. now rewrite if_get_no_dict. }
    unfold numbered_sections. abort_at section_execution_plan H.
  - assert (H : forall y, raises (section_communication_strategy E a y)).
    { intros y. unfold section_communication_strategy.
      eapply section_body_raises; [exact Hv|]. intros y1.
      unfold comm_key_messages, list_block. now rewrite if_get_no_dict. }
    unfold numbered_sections. abort_at section_communication_strategy H.
  - assert (H : forall y, raises (section_marketing_materials E a y)).
    { intros y. unfold section_marketing_materials.
      eapply section_body_raises; [exact Hv|]. intros y1.
      now rewrite if_get_no_dict. }
    unfold numbered_sections. abort_at section_marketing_materials H.
  - assert (H : forall y, raises (section_performance_metrics E a y)).
    { intros y. unfold section_performance_metrics.
      eapply section_body_raises; [exact Hv|]. intros y1.
      unfold metrics_kpi_framework, list_block. now rewrite if_get_no_dict. }
    unfold numbered_sections. abort_at section_performance_metrics H.
  - assert (H : forall y, raises (section_stakeholder_management E a y)).
    { intros y. unfold section_stakeholder_management.
      eapply section_body_raises; [exact Hv|]. intros y1.
      unfold stakeholder_stakeholders, list_block. now rewrite if_get_no_dict. }
    unfold numbered_sections. abort_at section_stakeholder_management H.
Qed.

(** A brief of section 4 that is present but is no dict. *)
Lemma content_briefs_abort (a briefs : dict) (k : pystr) (v : pyval) :
  Py.lookup (lit "content_briefs") a = Some (PDict briefs) ->
  In k [lit "image_brief_1"; lit "image_brief_2"; lit "video_brief"] ->
  Py.lookup k briefs = Some v -> is_record v = false ->
  raises (numbered_sections E a).
Proof.
  intros Ha Hin Hv Hd.
  assert (Hget : forall key (f : pyval -> M float),
             bind (lift (Py.get v key (PStr []))) f = Raise AttributeError)
    by (intros; destruct v; try discriminate; reflexivity).
  assert (H : forall y, raises (section_content_briefs E a y)).
  { intros y. unfold section_content_briefs. apply raises_bind_r. intros y1.
    rewrite (@if_in_present a _ _ _ y1 Ha). cbn [ret].
    apply raises_bind_r. intros y2.
    cbn [In] in Hin. destruct Hin as [<-|[<-|[<-|[]]]].
    - apply raises_bind_l. rewrite (@if_in_present briefs _ _ _ y2 Hv).
      unfold image_brief. apply raises_bind_r. intros y3.
      apply raises_bind_r. intros y4. rewrite Hget. now exists AttributeError.
    - apply raises_bind_r. intros y3. apply raises_bind_l.
      rewrite (@if_in_present briefs _ _ _ y3 Hv).
      unfold image_brief. apply raises_bind_r. intros y4.
      apply raises_bind_r. intros y5. rewrite Hget. now exists AttributeError.
    - apply raises_bind_r. intros y3. apply raises_bind_r. intros y4.
      rewrite (@if_in_present briefs _ _ _ y4 Hv).
      apply raises_bind_r. intros y5. apply raises_bind_r. intros y6.
      rewrite Hget. now exists AttributeError. }
  unfold numbered_sections. abort_at section_content_briefs H.
Qed.

Lemma report_aborts (p a : dict) (images : option (list bytes))
    (video_prompts : option (list pystr)) :
  a <> [] -> raises (numbered_sections E a) ->
  exists e, create_pdf_report E p (Some a) images video_prompts = Raise e.
Proof.
  intros Ha Hr. destruct a as [|kv a]; [congruence|].
  assert (H : raises (cover E p ;; sections E (kv :: a) images video_prompts ;;
                      emit Save)).
  { apply raises_bind_r. intros _. apply raises_bind_l.
    unfold sections. now apply raises_bind_l. }
  destruct H as [e He]. exists e. unfold create_pdf_report. cbv zeta.
  now rewrite He.
Qed.

End Aborting.

(** X16: values of the wrong kind abort the whole report.  No document is
    produced when one of the six sections whose body starts with a [.get]
    is present with a value that is no dict, or when a brief of the content
    section is present with a value that is no dict (a JSON [null]
    included). *)
Theorem misshapen_analysis_aborts (E : env) (policy a : dict)
    (images : option (list bytes)) (video_prompts : option (list pystr)) :
  (forall k v,
     In k sections_read_by_get -> Py.lookup k a = Some v ->
     is_record v = false ->
     exists e, create_pdf_report E policy (Some a) images video_prompts
               = Raise e) /\
  (forall briefs k v,
     Py.lookup (lit "content_briefs") a = Some (PDict briefs) ->
     In k [lit "image_brief_1"; lit "image_brief_2"; lit "video_brief"] ->
     Py.lookup k briefs = Some v -> is_record v = false ->
     exists e, create_pdf_report E policy (Some a) images video_prompts
               = Raise e).
Proof.
  split.
  - intros k v Hin Hv Hd. apply report_aborts.
    + intros ->. discriminate.
    + exact (@numbered_sections_abort E k a v Hin Hv Hd).
  - intros briefs k v Ha Hin Hv Hd. apply report_aborts.
    + intros ->. discriminate.
    + exact (@content_briefs_abort E a briefs k v Ha Hin Hv Hd).
Qed.

Lemma if_get_falsy (sec : dict) (k key : pystr)
    (body : pyval -> float -> M float) (y : float) :
  hollow k sec -> if_get (PDict sec) key body y = ret y.
Proof.
  intros H. unfold if_get. cbn [Py.get lift bind].
  destruct (Py.lookup key sec) as [v|] eqn:Hv; [|reflexivity].
  destruct (H key v Hv) as [-> _]. reflexivity.
Qed.

Lemma if_in_hollow (sec : dict) (key : pystr)
    (body : pyval -> float -> M float) (y : float) :
  hollow (lit "content_briefs") sec -> if_in (PDict sec) key body y = ret y.
Proof.
  intros H. apply if_in_absent.
  destruct (Py.lookup key sec) as [v|] eqn:Hv; [|reflexivity].
  destruct (H key v Hv) as [_ Hk]. now elim Hk.
Qed.

(** X17: a section that is present but hollow, an empty dict or one whose
    values are all falsy (for the content section, whose briefs are guarded
    by [in], an empty dict), is drawn exactly like a section that is
    missing: its heading and nothing else, no label of a list included. *)
Theorem hollow_section_like_missing (E : env) (k t : pystr)
    (f : dict -> float -> M float) (a sec : dict) (y : float) :
  In (k, t, f) (section_table E) ->
  Py.lookup k a = Some (PDict sec) -> hollow k sec ->
  f a y = add_heading E y t 16.
Proof.
  intros Hin Hk Hs.
  assert (Hb : forall key (body : pyval -> float -> M float) title,
             Py.lookup key a = Some (PDict sec) ->
             (forall y, body (PDict sec) y = ret y) ->
             (y <- add_heading E y title 16 ;; if_in (PDict a) key body y) =
             add_heading E y title 16).
  { intros key body title Ha Hbody.
    rewrite <- (bind_ret_r (add_heading E y title 16)) at 2.
    apply bind_ext. intros y1.
    rewrite (@if_in_present a key (PDict sec) body y1 Ha), bind_ret_l.
    apply Hbody. }
  unfold section_table in Hin. cbn [In] in Hin.
  destruct Hin as [Hin|[Hin|[Hin|[Hin|[Hin|[Hin|[Hin|[]]]]]]]];
    injection Hin as <- <- <-;
    [ unfold section_policy_planning, planning_key_strategies,
        planning_expected_outcomes
    | unfold section_execution_plan, execution_action_items
    | unfold section_communication_strategy, comm_key_messages, comm_channels
    | unfold section_content_briefs
    | unfold section_marketing_materials, marketing_social_media_posts
    | unfold section_performance_metrics, metrics_kpi_framework,
        metrics_success_criteria
    | unfold section_stakeholder_management, stakeholder_stakeholders,
        stakeholder_objection_handling ];
    (apply Hb; [exact Hk|]); intros y1; unfold list_block;
    repeat first [ rewrite (if_get_falsy _ _ _ Hs)
                 | rewrite (if_in_hollow _ _ _ Hs)
                 | rewrite bind_ret_l ];
    reflexivity.
Qed.

(* ================================================================== *)
(** ** The properties above on the sample data *)

Lemma demo_db1_unique : unique_ids Demo.db1.
Proof. unfold unique_ids. vm_compute. repeat constructor. intros []. Qed.


Lemma update_policy_status_effect_witness :
  sqlite_int 1 = true /\ sqlite_int 7 = true /\ sqlite_int (2 ^ 63) = false /\
  (exists db',
     update_policy_status Demo.later 1 (lit "analyzed") Demo.db1 = Ok db' /\
     get_policy 1 db' =
     Ok (Some [(lit "id", PInt 1);
               (lit "title", PStr (lit "Clean Air Policy"));
               (lit "category", PStr (lit "Environment"));
               (lit "target_audience", PStr (lit "Citizens"));
               (lit "description", PStr (lit "Less fine dust"));
               (lit "status", PStr (lit "analyzed"));
               (lit "created_at", PStr Demo.now);
               (lit "updated_at", PStr Demo.later)])) /\
  update_policy_status Demo.later 7 (lit "analyzed") Demo.db1 = Ok Demo.db1 /\
  update_policy_status Demo.later (2 ^ 63) (lit "analyzed") Demo.db1 =
    Raise OverflowError /\
  get_policy (2 ^ 63) Demo.db1 = Raise OverflowError.
Proof.
  split; [reflexivity|]. split; [reflexivity|]. split; [reflexivity|].
  split; [|split].
  - destruct (update_policy_status_effect Demo.later (lit "analyzed") 1 Demo.db1)
      as (H & _).
    destruct (H eq_refl) as (db' & Hu & Hr & _).
    exists db'. split; [exact Hu | exact (Hr _ eq_refl)].
  - destruct (update_policy_status_effect Demo.later (lit "analyzed") 7 Demo.db1)
      as (H & _).
    destruct (H eq_refl) as (db' & Hu & _ & _ & _ & _ & Hn).
    rewrite Hu. f_equal. exact (Hn eq_refl).
  - destruct (update_policy_status_effect Demo.later (lit "analyzed") (2 ^ 63)
                Demo.db1) as (_ & H).
    exact (H eq_refl).
Defined.

Lemma create_policy_then_get_witness :
  sqlite_int (fst (create_policy Demo.now (lit "Clean Air Policy")
                     (lit "Environment") (lit "Citizens") (lit "Less fine dust")
                     empty_database)) = true /\
  get_policy 1 Demo.db1 = Ok (Some Demo.stored).
Proof.
  split; [reflexivity|].
  exact (@create_policy_then_get Demo.now (lit "Clean Air Policy")
           (lit "Environment") (lit "Citizens") (lit "Less fine dust")
           empty_database eq_refl).
Defined.

Lemma archive_names_distinct_witness :
  exists entries,
    create_zip_export Sample.env_cid Demo.json_dumps Sample.policy
      (Some Sample.analysis_objective)
      (Some [Sample.png x01; Sample.png x02]) (Some [lit "scene one"])
      (Some [x25; x50; x44; x46]%byte) = Ok entries /\
    length entries = 7 /\
    NoDup (names entries).
Proof.
  eexists. split; [vm_compute; reflexivity|]. split; [reflexivity|].
  apply (@archive_names_distinct Sample.env_cid Demo.json_dumps Sample.policy
           (Some Sample.analysis_objective)
           (Some [Sample.png x01; Sample.png x02]) (Some [lit "scene one"])
           (Some [x25; x50; x44; x46]%byte)).
  vm_compute. reflexivity.
Defined.

Lemma archive_keeps_all_witness :
  exists entries,
    create_zip_export Sample.env_cid Demo.json_dumps Sample.policy None
      (Some [Sample.png x01; Sample.png x02; Sample.png x03; Sample.png x04;
             Sample.png x05])
      (Some [lit "scene one"]) None = Ok entries /\
    map snd (under (lit "images/") entries) =
      map ZBytes [Sample.png x01; Sample.png x02; Sample.png x03;
                  Sample.png x04; Sample.png x05] /\
    map snd (under (lit "video_prompts/") entries) = [ZText (lit "scene one")].
Proof.
  eexists. split; [vm_compute; reflexivity|].
  match goal with
  | |- map snd (under _ ?es) = _ /\ _ =>
      destruct (@archive_keeps_all Sample.env_cid Demo.json_dumps Sample.policy
                  None
                  [Sample.png x01; Sample.png x02; Sample.png x03;
                   Sample.png x04; Sample.png x05]
                  [lit "scene one"] None es) as (_ & Hi & _ & Hp);
        [vm_compute; reflexivity|]
  end.
  split; [exact Hi | exact Hp].
Defined.

Lemma demo_undated_is_subject : subject_record Demo.undated.
Proof. split; eexists; reflexivity. Qed.

Lemma archive_needs_title_and_time_witness :
  subject_record Demo.undated /\
  Py.lookup (lit "created_at") Demo.undated = None /\
  create_pdf_report Sample.env_cid Demo.undated None None None =
    Ok (cover_block Sample.env_cid Demo.undated ++ [Save])%list /\
  create_zip_export Sample.env_cid Demo.json_dumps Demo.undated None None None
    None = Raise KeyError.
Proof.
  split; [exact demo_undated_is_subject|]. split; [reflexivity|].
  destruct (archive_needs_title_and_time Sample.env_cid Demo.json_dumps
              Demo.undated None None None None) as (H & _).
  exact (H demo_undated_is_subject (or_intror eq_refl)).
Defined.

Lemma stored_policy_exports_witness :
  get_policy 1 Demo.db1 = Ok (Some Demo.stored) /\
  exists r,
    select_policy 1 Demo.db1 = Some r /\
    create_pdf_report Sample.env_cid Demo.stored None None None =
      Ok (cover_block Sample.env_cid Demo.stored ++ [Save])%list /\
    texts (cover_block Sample.env_cid Demo.stored ++ [Save]) =
      [lit "정책 보고서";
       (lit "제목: " ++ firstn 50 (row_title r))%list;
       (lit "카테고리: " ++ firstn 60 (row_category r))%list;
       (lit "대상: " ++ row_target_audience r)%list;
       (lit "생성일: " ++ row_created_at r)%list] /\
    exists entries,
      create_zip_export Sample.env_cid Demo.json_dumps Demo.stored None None
        None None = Ok entries /\
      last entries (lit "", ZText []) =
        (lit "README.txt",
         ZText (readme (row_title r) (row_created_at r))).
Proof.
  assert (H : get_policy 1 Demo.db1 = Ok (Some Demo.stored))
    by (vm_compute; reflexivity).
  split; [exact H|].
  exact (@stored_policy_exports Sample.env_cid Demo.json_dumps Demo.db1 1
           Demo.stored None None None None H).
Defined.

Lemma parse_json_response_unwraps_fence_witness :
  Forall (fun c => c <> backtick) (lit "{}") /\
  parse_json_response Sample.json_loads (lit "```json" ++ lit "{}" ++ lit "```") =
    parse_json_response Sample.json_loads (lit "{}") /\
  parse_json_response Sample.json_loads (lit "```" ++ lit "{}" ++ lit "```") =
    parse_json_response Sample.json_loads (lit "{}").
Proof.
  assert (H : Forall (fun c => c <> backtick) (lit "{}"))
    by (repeat constructor; discriminate).
  split; [exact H|].
  destruct (@parse_json_response_unwraps_fence Sample.json_loads (lit "{}") H)
    as [H1 H2].
  split; [exact H1 | exact (H2 eq_refl)].
Defined.

Lemma export_pdf_blind_to_video_brief_witness :
  exists set1 set2,
    generate_video_prompts_3styles Sample.env_cid Demo.brief_bus = Ok set1 /\
    generate_video_prompts_3styles Sample.env_cid Demo.brief_park = Ok set2 /\
    set1 <> set2 /\
    export_pdf Sample.env_cid Sample.policy (Some Sample.analysis_objective)
      [Sample.png x01] ([] ++ PDict set1 :: []) =
    export_pdf Sample.env_cid Sample.policy (Some Sample.analysis_objective)
      [Sample.png x01] ([] ++ PDict set2 :: []).
Proof.
  eexists. eexists. split; [reflexivity|]. split; [reflexivity|].
  split.
  - intros H. apply (f_equal (fun s => match s with
                                       | (_, PStr t) :: _ => nth 650 t 0%N
                                       | _ => 0%N
                                       end)) in H.
    vm_compute in H. discriminate.
  - apply (@export_pdf_blind_to_video_brief Sample.env_cid Sample.policy
             (Some Sample.analysis_objective) [Sample.png x01]
             Demo.brief_bus Demo.brief_park); reflexivity.
Defined.

Lemma misshapen_analysis_aborts_witness :
  (exists e,
     create_pdf_report Sample.env_cid Sample.policy
       (Some Demo.analysis_text_section) None None = Raise e) /\
  (exists e,
     create_pdf_report Sample.env_cid Sample.policy
       (Some Demo.analysis_null_brief) None None = Raise e).
Proof.
  split.
  - destruct (misshapen_analysis_aborts Sample.env_cid Sample.policy
                Demo.analysis_text_section None None) as (H & _).
    apply (H (lit "policy_planning") (PStr (lit "n/a"))).
    + left. reflexivity.
    + reflexivity.
    + reflexivity.
  - destruct (misshapen_analysis_aborts Sample.env_cid Sample.policy
                Demo.analysis_null_brief None None) as (_ & H).
    apply (H [(lit "image_brief_1", PNone)] (lit "image_brief_1") PNone).
    + reflexivity.
    + left. reflexivity.
    + reflexivity.
    + reflexivity.
Defined.

Lemma well_formed_analysis_renders_witness :
  subject_record Sample.policy /\ well_formed Demo.analysis_plan = true /\
  exists ops,
    create_pdf_report Sample.env_cid Sample.policy (Some Demo.analysis_plan)
      (Some [Sample.png x01; Sample.corrupt]) (Some [lit "scene one"]) = Ok ops /\
    last ops ShowPage = Save.
Proof.
  assert (H : well_formed Demo.analysis_plan = true) by (vm_compute; reflexivity).
  split; [exact sample_policy_is_subject|]. split; [exact H|].
  exact (@well_formed_analysis_renders Sample.env_cid Sample.policy
           Demo.analysis_plan (Some [Sample.png x01; Sample.corrupt])
           (Some [lit "scene one"]) sample_policy_is_subject H).
Defined.

Lemma demo_planning_hollow : hollow (lit "policy_planning") Demo.hollow_planning.
Proof.
  intros key v H. unfold Demo.hollow_planning in H. cbn [Py.lookup] in H.
  split; [|vm_compute; discriminate].
  destruct (PyStr.eqb key (lit "key_strategies")); [now injection H as <-|].
  destruct (PyStr.eqb key (lit "objective")); [now injection H as <-|].
  discriminate.
Qed.

Lemma hollow_section_like_missing_witness :
  hollow (lit "policy_planning") Demo.hollow_planning /\
  section_policy_planning Sample.env_cid
    [(lit "policy_planning", PDict Demo.hollow_planning)] 700 =
  add_heading Sample.env_cid 700 (lit "1. 정책 기획") 16.
Proof.
  split; [exact demo_planning_hollow|].
  apply (@hollow_section_like_missing Sample.env_cid (lit "policy_planning")
           (lit "1. 정책 기획") (section_policy_planning Sample.env_cid)
           [(lit "policy_planning", PDict Demo.hollow_planning)]
           Demo.hollow_planning 700).
  - left. reflexivity.
  - reflexivity.
  - exact demo_planning_hollow.
Defined.

(* ================================================================== *)
(** ** The image generator *)

Section Generating.

Variable E : env.
Variable image_client : list image_request -> image_request -> image_outcome.
Variable b64decode : option pystr -> bytes + pystr.
Variable image_open : bytes -> option pystr.

Lemma try_generate_cases (before : list image_request) (req : image_request) :
  (exists image_bytes,
     try_generate image_client b64decode image_open before req =
       (Some image_bytes, []) /\
     image_open image_bytes = None) \/
  (exists shown,
     try_generate image_client b64decode image_open before req = (None, shown) /\
     length shown <= 1).
Proof.
  unfold try_generate.
  destruct (image_client before req) as [[|b64 data]|msg];
    try (right; eexists; split; [reflexivity | simpl; lia]).
  destruct (b64decode b64) as [image_bytes|msg];
    try (right; eexists; split; [reflexivity | simpl; lia]).
  destruct (image_open image_bytes) as [msg|] eqn:Ho;
    try (right; eexists; split; [reflexivity | simpl; lia]).
  left. exists image_bytes. now split.
Qed.

Lemma batch_from_invariants (size quality : pystr) (prompts : list pystr) :
  forall before,
    let '(results, shown, sent) :=
      batch_from image_client b64decode image_open before prompts size quality in
    sent = map (fun p => image_request_for p size quality) prompts /\
    length results + length shown <= length prompts /\
    Forall (fun image_bytes => image_open image_bytes = None) results.
Proof.
  induction prompts as [|p prompts IH]; intros before.
  - cbn [batch_from]. repeat split; [simpl; lia | constructor].
  - cbn [batch_from]. specialize (IH (before ++ [image_request_for p size quality])%list).
    destruct (batch_from image_client b64decode image_open
                (before ++ [image_request_for p size quality]) prompts size quality)
      as [[results shown'] sent].
    destruct IH as (Hs & Hl & Ho).
    destruct (try_generate_cases before (image_request_for p size quality))
      as [(b & -> & Hb) | (shown & -> & Hn)].
    + repeat split.
      * cbn [map]. now rewrite Hs.
      * cbn [length app]. lia.
      * now constructor.
    + repeat split.
      * cbn [map]. now rewrite Hs.
      * rewrite length_app. cbn [length]. lia.
      * exact Ho.
Qed.

End Generating.

(** X18: [batch_generate_images] goes on after a failure.  It never raises;
    it sends one request per prompt, in the order of the prompts and with
    the fixed model, count and format, whatever happened to the prompts
    before; every prompt gives at most one image or one message; and every
    image it returns is one that opened. *)
Theorem batch_generate_images_continues
    (image_client : list image_request -> image_request -> image_outcome)
    (b64decode : option pystr -> bytes + pystr)
    (image_open : bytes -> option pystr)
    (prompts : list pystr) (size quality : pystr) :
  let '(results, shown, sent) :=
    batch_generate_images image_client b64decode image_open prompts size quality in
  sent = map (fun p => {| image_model := lit "dall-e-3";
                          image_prompt := p;
                          image_size := size;
                          image_quality := quality;
                          image_n := 1;
                          image_response_format := lit "b64_json" |}) prompts /\
  length results + length shown <= length prompts /\
  Forall (fun image_bytes => image_open image_bytes = None) results.
Proof.
  exact (batch_from_invariants image_client b64decode image_open size quality
           prompts []).
Qed.

(** X19: [generate_policy_image] and [batch_generate_images] agree, up to
    the exception of the first.  For a brief that is no dict
    [generate_policy_image] raises [AttributeError] before any request is
    sent, since the prompt is built outside its [try]; for a dict it returns
    what [batch_generate_images] returns for the one prompt
    [generate_image_prompt] builds with the default style: the same image
    ([None] for the empty list), the same messages, the same request. *)
Theorem generate_policy_image_like_batch (E : env)
    (image_client : list image_request -> image_request -> image_outcome)
    (b64decode : option pystr -> bytes + pystr)
    (image_open : bytes -> option pystr)
    (brief : pyval) (size quality : pystr) :
  match generate_image_prompt E brief [] with
  | Ok prompt =>
      is_record brief = true /\
      let '(results, shown, sent) :=
        batch_generate_images image_client b64decode image_open [prompt]
          size quality in
      generate_policy_image E image_client b64decode image_open brief size quality
      = Ok (hd_error results, shown, sent) /\
      length results <= 1
  | Raise e =>
      is_record brief = false /\ e = AttributeError /\
      generate_policy_image E image_client b64decode image_open brief size quality
      = Raise AttributeError
  end.
Proof.
  unfold generate_policy_image.
  destruct brief as [| | | | | |d]; try (cbn; repeat split; reflexivity).
  destruct (generate_image_prompt E (PDict d) []) as [prompt|e] eqn:Hp;
    [|discriminate].
  split; [reflexivity|]. cbn [and_then].
  unfold batch_generate_images. cbn [batch_from].
  destruct (try_generate image_client b64decode image_open []
              (image_request_for prompt size quality)) as [[b|] shown];
    cbn [hd_error length]; rewrite app_nil_r; split; (reflexivity || lia).
Qed.
